(** * A Rocq model of the Qwiic OTOS driver for the Pico

    The development follows the two translation units of the library:

    - [utils.cpp]: the I2C transaction layer ([ping], [readRegisterByte],
      [readRegisterRegionAnyAddress], [writeRegisterByte], ...);
    - [sfeQwiicOtos.cpp]: the register protocol, the pose and scalar
      codecs and the two polling loops ([selfTest], [calibrateImu]).

    The Pico SDK ([i2c_write_blocking], [i2c_read_blocking], [sleep_ms])
    is an external collaborator.  It is modelled as an oracle that answers
    each request from the history of everything that happened on the bus
    so far; the driver code threads that history explicitly. *)

From Stdlib Require Import ZArith List Bool Lia.
From Stdlib Require Import QArith Qround.
From Stdlib Require Import Floats.SpecFloat.
Import ListNotations.

#[local] Open Scope Z_scope.

(* ================================================================= *)
(** * Part I: definitions                                             *)
(* ================================================================= *)

(** ** Fixed-width integers *)

(** [size_t] is 32 bits wide on the RP2040. *)
Definition size_t_wrap (z : Z) : Z := z mod 2 ^ 32.
Definition to_uint8 (z : Z) : Z := z mod 256.
Definition to_int8 (z : Z) : Z := (z + 128) mod 256 - 128.
Definition to_int16 (z : Z) : Z := (z + 32768) mod 65536 - 32768.

(** ** utils.h: constants *)

Definition kDefaultAddress : Z := 0x17.

Definition kSTkErrOk : Z := 0.
Definition kSTkErrFail : Z := -1.
Definition kSTkErrBaseBus : Z := 0x1000.
Definition kSTkErrBusNotInit : Z := kSTkErrFail * (kSTkErrBaseBus + 1).
Definition kSTkErrBusNullBuffer : Z := kSTkErrFail * (kSTkErrBaseBus + 6).
Definition kSTkErrBusUnderRead : Z := kSTkErrBaseBus + 7.
Definition kDefaultBufferChunk : Z := 32.

(** ** The transport *)

(** What the driver asks of the SDK, in the order it asks it. *)
Inductive BusEvent : Type :=
| I2cWrite (addr : Z) (src : list Z) (nostop : bool)
| I2cRead (addr : Z) (len : Z) (nostop : bool)
| SleepMs (ms : Z).

Definition Trace : Type := list BusEvent.

(** A transport answers a request from the history of the bus.
    [i2c_port] tells whether [CONFIG::i2c_port] is a non-null instance;
    [i2c_write_blocking] gives the [int] the SDK call returns;
    [i2c_read_blocking] gives that [int] and the bytes put in [dst]. *)
Record Transport : Type := {
  i2c_port : bool;
  i2c_write_blocking : Trace -> Z -> list Z -> bool -> Z;
  i2c_read_blocking : Trace -> Z -> Z -> bool -> Z * list Z
}.

(** Code that always returns: a state monad over the bus history. *)
Definition M (A : Type) : Type := Trace -> A * Trace.

Definition ret {A} (a : A) : M A := fun h => (a, h).
Definition bind {A B} (c : M A) (k : A -> M B) : M B :=
  fun h => let (a, h') := c h in k a h'.

(** Code that may fail to return (an unbounded loop that ran out of fuel)
    or whose behaviour C++ leaves undefined. *)
Definition MO (A : Type) : Type := Trace -> option (A * Trace).

Definition retO {A} (a : A) : MO A := fun h => Some (a, h).
Definition bindO {A B} (c : MO A) (k : A -> MO B) : MO B :=
  fun h => match c h with
           | Some (a, h') => k a h'
           | None => None
           end.
Definition lift {A} (c : M A) : MO A := fun h => Some (c h).

Declare Scope bus_scope.
Delimit Scope bus_scope with bus.
Notation "x <- c ;; k" := (bind c (fun x => k))
  (at level 61, c at next level, right associativity) : bus_scope.
Notation "' pat <- c ;; k" := (bind c (fun x => let 'pat := x in k))
  (at level 61, pat pattern, c at next level, right associativity) : bus_scope.
Notation "x <-? c ;; k" := (bindO c (fun x => k))
  (at level 61, c at next level, right associativity) : bus_scope.
Notation "' pat <-? c ;; k" := (bindO c (fun x => let 'pat := x in k))
  (at level 61, pat pattern, c at next level, right associativity) : bus_scope.
#[local] Open Scope bus_scope.

(** The number of read transactions in a history. *)
Definition count_reads (h : Trace) : nat :=
  length (filter (fun e => match e with I2cRead _ _ _ => true | _ => false end) h).

(** Bytes [src] stored into the buffer [buf] from index [pos] on. *)
Definition store (buf : list Z) (pos : Z) (src : list Z) : list Z :=
  firstn (Z.to_nat pos) buf ++ src ++ skipn (Z.to_nat pos + length src) buf.

(** ** utils.cpp *)

Section Utils.

Variable t : Transport.

Definition bus_write (addr : Z) (src : list Z) (nostop : bool) : M Z :=
  fun h => (i2c_write_blocking t h addr src nostop, h ++ [I2cWrite addr src nostop]).

Definition bus_read (addr len : Z) (nostop : bool) : M (Z * list Z) :=
  fun h => (i2c_read_blocking t h addr len nostop, h ++ [I2cRead addr len nostop]).

Definition sleep_ms (ms : Z) : M unit :=
  fun h => (tt, h ++ [SleepMs ms]).

Definition ping : M Z :=
  if negb (i2c_port t) then ret kSTkErrBusNotInit
  else
    result <- bus_write kDefaultAddress [0] false ;;
    ret (if result >=? 0 then kSTkErrOk else kSTkErrFail).

(** Returns the error code and the content of [dataToRead], whose
    previous content is [dataToRead0]. *)
Definition readRegisterByte (devReg : Z) (dataToRead0 : Z) : M (Z * Z) :=
  if negb (i2c_port t) then ret (kSTkErrBusNotInit, dataToRead0)
  else
    result <- bus_write kDefaultAddress [devReg] true ;;
    if result <? 0 then ret (kSTkErrFail, dataToRead0)
    else
      '(result, bytes) <- bus_read kDefaultAddress 1 false ;;
      let dataToRead :=
        if result >? 0 then to_uint8 (hd 0 bytes) else dataToRead0 in
      ret (if result =? 1 then kSTkErrOk else kSTkErrFail, dataToRead).

(** How one run of the [while] loop of [readRegisterRegionAnyAddress]
    ends: by one of its [return] statements, or by its condition. *)
Inductive LoopExit : Type :=
| Returned (err : Z) (data : list Z)
| Finished (numBytes : Z) (data : list Z).

(** The [while (numBytes > 0)] loop.  [data] is the destination buffer
    and [pos] the offset of the cursor [data += nReturned] in it.  The
    loop has no bound of its own, so the model takes [fuel] and gives
    [None] when the fuel runs out with the loop still running. *)
Fixpoint readChunks (fuel : nat) (devReg : list Z) (firstIteration : bool)
         (numBytes : Z) (data : list Z) (pos : Z) (h : Trace)
  : option (LoopExit * Trace) :=
  if numBytes >? 0 then
    match fuel with
    | O => None
    | S fuel' =>
        let '(result, h1) :=
          if firstIteration then bus_write kDefaultAddress devReg true h
          else (0, h) in
        if result <? 0 then Some (Returned kSTkErrFail data, h1)
        else
          let nChunk :=
            to_uint8 (if numBytes >? kDefaultBufferChunk
                      then kDefaultBufferChunk else numBytes) in
          let '((nReturned, bytes), h2) :=
            bus_read kDefaultAddress nChunk (numBytes >? nChunk) h1 in
          if nReturned <? 0 then Some (Returned kSTkErrFail data, h2)
          else
            readChunks fuel' devReg false
                       (size_t_wrap (numBytes - nReturned))
                       (store data pos (firstn (Z.to_nat nReturned) bytes))
                       (pos + nReturned) h2
    end
  else Some (Finished numBytes data, h).

(** [devReg] holds the [regLength] register-address bytes; [data] is
    [None] for a null pointer and the buffer content otherwise;
    [readBytes0] is the previous content of the out-parameter.  The
    result is the error code, the content of [readBytes] and the buffer. *)
Definition readRegisterRegionAnyAddress (fuel : nat) (devReg : list Z)
           (data : option (list Z)) (numBytes : Z) (readBytes0 : Z)
  : MO (Z * Z * option (list Z)) :=
  fun h =>
    if negb (i2c_port t) then Some ((kSTkErrBusNotInit, readBytes0, data), h)
    else
      match data with
      | None => Some ((kSTkErrBusNullBuffer, readBytes0, None), h)
      | Some buf =>
          let nOrig := numBytes in
          match readChunks fuel devReg true numBytes buf 0 h with
          | None => None
          | Some (Returned err buf', h') => Some ((err, 0, Some buf'), h')
          | Some (Finished numBytes' buf', h') =>
              let readBytes := size_t_wrap (nOrig - numBytes') in
              Some ((if readBytes =? nOrig then kSTkErrOk else kSTkErrBusUnderRead,
                     readBytes, Some buf'), h')
          end
      end.

Definition readRegisterRegion (fuel : nat) (devReg : Z)
           (data : option (list Z)) (numBytes : Z) (readBytes0 : Z)
  : MO (Z * Z * option (list Z)) :=
  readRegisterRegionAnyAddress fuel [devReg] data numBytes readBytes0.

Definition writeRegisterByte (devReg dataToWrite : Z) : M Z :=
  if negb (i2c_port t) then ret kSTkErrBusNotInit
  else
    result <- bus_write kDefaultAddress [devReg; dataToWrite] false ;;
    ret (if result =? 2 then kSTkErrOk else kSTkErrFail).

(** [devReg] is [None] for a null pointer; [regLength] is passed on its
    own, as in the source.  The bytes of [buffer] that the source leaves
    uninitialised (null [devReg]) are shown as zeros. *)
Definition writeRegisterRegionAddress (devReg : option (list Z)) (regLength : Z)
           (data : list Z) (length : Z) : M Z :=
  if negb (i2c_port t) then ret kSTkErrBusNotInit
  else
    let buffer :=
      match devReg with
      | Some regs => if regLength >? 0 then firstn (Z.to_nat regLength) regs
                     else repeat 0 (Z.to_nat regLength)
      | None => repeat 0 (Z.to_nat regLength)
      end ++ firstn (Z.to_nat length) data in
    result <- bus_write kDefaultAddress buffer false ;;
    ret (if result =? regLength + length then kSTkErrOk else kSTkErrFail).

Definition writeRegisterRegion (devReg : Z) (data : list Z) (length : Z) : M Z :=
  writeRegisterRegionAddress (Some [devReg]) 1 data length.

End Utils.

(** ** Single-precision arithmetic *)

(** The driver computes in [float].  Its code is written over this
    interface; the instance below is IEEE 754 binary32, on which the model
    is run.  [f_val] gives the rational number that a finite float
    denotes. *)
Class FloatArith (F : Type) : Type := {
  f_lit : Q -> F;               (* a decimal literal, such as [0.001f] *)
  f_of_int : Z -> F;            (* conversion of an [int] *)
  f_add : F -> F -> F;
  f_sub : F -> F -> F;
  f_mul : F -> F -> F;
  f_div : F -> F -> F;
  f_ltb : F -> F -> bool;       (* [<], false when an operand is NaN *)
  f_trunc : F -> option Z;      (* integer part; none for NaN, infinities *)
  f_val : F -> Q                (* the number a finite value denotes *)
}.

(** Conversion of a [float] to a signed integer type of [bits] bits: the
    fraction is dropped, and the behaviour is undefined ([None]) when the
    integer part does not fit the type. *)
Definition float_to_signed {F} `{FloatArith F} (bits : Z) (x : F) : option Z :=
  match f_trunc x with
  | Some z => if (- 2 ^ (bits - 1) <=? z) && (z <? 2 ^ (bits - 1))
              then Some z else None
  | None => None
  end.

Module Binary32.

Definition prec : Z := 24.
Definition emax : Z := 128.

Definition of_int (z : Z) : spec_float := binary_normalize prec emax z 0 false.

(** A literal [n/d] with [n] and [d] below [2^24] is the correctly
    rounded quotient of two exact floats. *)
Definition lit (q : Q) : spec_float :=
  SFdiv prec emax (of_int (Qnum q)) (of_int (Zpos (Qden q))).

Definition trunc (x : spec_float) : option Z :=
  match x with
  | S754_zero _ => Some 0
  | S754_finite s m e =>
      Some (cond_Zopp s (match e with
                         | Zneg p => Z.shiftr (Zpos m) (Zpos p)
                         | _ => Z.shiftl (Zpos m) e
                         end))
  | _ => None
  end.

Definition val (x : spec_float) : Q :=
  match x with
  | S754_finite s m e =>
      match e with
      | Zneg p => cond_Zopp s (Zpos m) # (2 ^ p)
      | _ => inject_Z (cond_Zopp s (Zpos m * 2 ^ e))
      end
  | _ => 0%Q
  end.

End Binary32.

#[export] Instance binary32 : FloatArith spec_float := {
  f_lit := Binary32.lit;
  f_of_int := Binary32.of_int;
  f_add := SFadd Binary32.prec Binary32.emax;
  f_sub := SFsub Binary32.prec Binary32.emax;
  f_mul := SFmul Binary32.prec Binary32.emax;
  f_div := SFdiv Binary32.prec Binary32.emax;
  f_ltb := SFltb;
  f_trunc := Binary32.trunc;
  f_val := Binary32.val
}.

(** ** sfeQwiicOtos.h *)

(** The header of the driver class is not among the sources at hand.  The
    constants it declares are gathered in a record, over which the driver
    code is parameterised: the register map, the product identifier, the
    bounds of the scalars, the conversion factors, and the position of the
    three bit-fields of [sfe_otos_self_test_config_t] used by [selfTest]. *)
Record OtosHeader (F : Type) : Type := {
  kProductId : Z;
  kRegProductId : Z;
  kRegHwVersion : Z;
  kRegScalarLinear : Z;
  kRegScalarAngular : Z;
  kRegImuCalib : Z;
  kRegReset : Z;
  kRegSignalProcess : Z;
  kRegSelfTest : Z;
  kRegOffXL : Z;
  kRegStatus : Z;
  kRegPosXL : Z;
  kRegVelXL : Z;
  kRegAccXL : Z;
  kRegPosStdXL : Z;
  kRegVelStdXL : Z;
  kRegAccStdXL : Z;
  kMinScalar : F;
  kMaxScalar : F;
  kMeterToInch : F;
  kRadianToDegree : F;
  kMeterToInt16 : F;
  kInt16ToMeter : F;
  kInt16ToMps : F;
  kInt16ToMpss : F;
  kRadToInt16 : F;
  kInt16ToRad : F;
  kInt16ToRps : F;
  kInt16ToRpss : F;
  selfTest_start_bit : Z;
  selfTest_inProgress_bit : Z;
  selfTest_pass_bit : Z
}.

Arguments kProductId {F}.
Arguments kRegProductId {F}.
Arguments kRegHwVersion {F}.
Arguments kRegScalarLinear {F}.
Arguments kRegScalarAngular {F}.
Arguments kRegImuCalib {F}.
Arguments kRegReset {F}.
Arguments kRegSignalProcess {F}.
Arguments kRegSelfTest {F}.
Arguments kRegOffXL {F}.
Arguments kRegStatus {F}.
Arguments kRegPosXL {F}.
Arguments kRegVelXL {F}.
Arguments kRegAccXL {F}.
Arguments kRegPosStdXL {F}.
Arguments kRegVelStdXL {F}.
Arguments kRegAccStdXL {F}.
Arguments kMinScalar {F}.
Arguments kMaxScalar {F}.
Arguments kMeterToInch {F}.
Arguments kRadianToDegree {F}.
Arguments kMeterToInt16 {F}.
Arguments kInt16ToMeter {F}.
Arguments kInt16ToMps {F}.
Arguments kInt16ToMpss {F}.
Arguments kRadToInt16 {F}.
Arguments kInt16ToRad {F}.
Arguments kInt16ToRps {F}.
Arguments kInt16ToRpss {F}.
Arguments selfTest_start_bit {F}.
Arguments selfTest_inProgress_bit {F}.
Arguments selfTest_pass_bit {F}.

Inductive sfe_otos_linear_unit_t : Type :=
| kSfeOtosLinearUnitMeters
| kSfeOtosLinearUnitInches.

Inductive sfe_otos_angular_unit_t : Type :=
| kSfeOtosAngularUnitRadians
| kSfeOtosAngularUnitDegrees.

Definition linear_unit_eqb (a b : sfe_otos_linear_unit_t) : bool :=
  match a, b with
  | kSfeOtosLinearUnitMeters, kSfeOtosLinearUnitMeters => true
  | kSfeOtosLinearUnitInches, kSfeOtosLinearUnitInches => true
  | _, _ => false
  end.

Definition angular_unit_eqb (a b : sfe_otos_angular_unit_t) : bool :=
  match a, b with
  | kSfeOtosAngularUnitRadians, kSfeOtosAngularUnitRadians => true
  | kSfeOtosAngularUnitDegrees, kSfeOtosAngularUnitDegrees => true
  | _, _ => false
  end.

Record sfe_otos_pose2d_t (F : Type) : Type := {
  pose_x : F;
  pose_y : F;
  pose_h : F
}.
Arguments Build_sfe_otos_pose2d_t {F}.
Arguments pose_x {F}.
Arguments pose_y {F}.
Arguments pose_h {F}.

(** The data members of the class. *)
Record sfeQwiicOtos (F : Type) : Type := {
  _linearUnit : sfe_otos_linear_unit_t;
  _angularUnit : sfe_otos_angular_unit_t;
  _meterToUnit : F;
  _radToUnit : F
}.
Arguments Build_sfeQwiicOtos {F}.
Arguments _linearUnit {F}.
Arguments _angularUnit {F}.
Arguments _meterToUnit {F}.
Arguments _radToUnit {F}.

(** A one-bit field of a byte: read, and set to one. *)
Definition bit_field (value bit : Z) : Z := Z.b2z (Z.testbit value bit).
Definition set_bit_field (value bit : Z) : Z := Z.lor value (Z.shiftl 1 bit).

(** ** sfeQwiicOtos.cpp *)

Section Driver.

Context {F : Type} `{FloatArith F}.
Variable hdr : OtosHeader F.
Variable t : Transport.

#[local] Abbreviation pose2d := (sfe_otos_pose2d_t F).
#[local] Abbreviation otos := (sfeQwiicOtos F).

(** [QwiicOTOS::delayMs], from QwiicOtos.h. *)
Definition delayMs (ms : Z) : M unit := sleep_ms ms.

(** The constructor. *)
Definition sfeQwiicOtos_new : otos :=
  {| _linearUnit := kSfeOtosLinearUnitInches;
     _angularUnit := kSfeOtosAngularUnitDegrees;
     _meterToUnit := kMeterToInch hdr;
     _radToUnit := kRadianToDegree hdr |}.

(** Locals that the source leaves uninitialised and reads only after a
    successful transfer has filled them start as zero. *)
Definition isConnected : M Z :=
  err <- ping t ;;
  if negb (err =? kSTkErrOk) then ret err
  else
    '(err, prodId) <- readRegisterByte t (kRegProductId hdr) 0 ;;
    if negb (err =? kSTkErrOk) then ret err
    else if negb (prodId =? kProductId hdr) then ret kSTkErrFail
    else ret kSTkErrOk.

(** Returns the error code and the two version bytes, [hwVersion0] and
    [fwVersion0] being what the out-parameters held before. *)
Definition getVersionInfo (fuel : nat) (hwVersion0 fwVersion0 : Z) : MO (Z * Z * Z) :=
  '(err, readBytes, rawData) <-? readRegisterRegion t fuel (kRegHwVersion hdr) (Some [0; 0]) 2 0 ;;
  if negb (err =? kSTkErrOk) then retO (err, hwVersion0, fwVersion0)
  else if negb (readBytes =? 2) then retO (kSTkErrFail, hwVersion0, fwVersion0)
  else
    let raw := match rawData with Some l => l | None => [] end in
    retO (kSTkErrOk, nth 0 raw 0, nth 1 raw 0).

(** The [for] loop of [selfTest], with [n] iterations left: [inl err]
    when an iteration returns [err], [inr value] when the loop ends with
    [selfTest.value = value]. *)
Fixpoint selfTestLoop (n : nat) (value : Z) : M (Z + Z) :=
  match n with
  | O => ret (inr value)
  | S n' =>
      _ <- delayMs 5 ;;
      '(err, value) <- readRegisterByte t (kRegSelfTest hdr) value ;;
      if negb (err =? kSTkErrOk) then ret (inl err)
      else if bit_field value (selfTest_inProgress_bit hdr) =? 0 then ret (inr value)
      else selfTestLoop n' value
  end.

(** [selfTest0] is the indeterminate content of the local [selfTest]
    before its [start] bit is set. *)
Definition selfTest (selfTest0 : Z) : M Z :=
  let value := set_bit_field (to_uint8 selfTest0) (selfTest_start_bit hdr) in
  err <- writeRegisterByte t (kRegSelfTest hdr) value ;;
  if negb (err =? kSTkErrOk) then ret err
  else
    r <- selfTestLoop 10 value ;;
    match r with
    | inl err => ret err
    | inr value =>
        ret (if bit_field value (selfTest_pass_bit hdr) =? 1
             then kSTkErrOk else kSTkErrFail)
    end.

(** The [for] loop of [calibrateImu] with [numAttempts] attempts left:
    [Some err] when an iteration returns [err], [None] when the loop ends. *)
Fixpoint calibrateImuLoop (numAttempts : nat) : M (option Z) :=
  match numAttempts with
  | O => ret None
  | S numAttempts' =>
      '(err, calibrationValue) <- readRegisterByte t (kRegImuCalib hdr) 0 ;;
      if negb (err =? kSTkErrOk) then ret (Some err)
      else if calibrationValue =? 0 then ret (Some kSTkErrOk)
      else
        _ <- delayMs 3 ;;
        calibrateImuLoop numAttempts'
  end.

Definition calibrateImu (numSamples : Z) (waitUntilDone : bool) : M Z :=
  let numSamples := to_uint8 numSamples in
  err <- writeRegisterByte t (kRegImuCalib hdr) numSamples ;;
  if negb (err =? kSTkErrOk) then ret err
  else
    _ <- delayMs 3 ;;
    if negb waitUntilDone then ret kSTkErrOk
    else
      r <- calibrateImuLoop (Z.to_nat numSamples) ;;
      match r with
      | Some err => ret err
      | None => ret kSTkErrFail
      end.

Definition getImuCalibrationProgress (numSamples0 : Z) : M (Z * Z) :=
  readRegisterByte t (kRegImuCalib hdr) numSamples0.

Definition getLinearUnit (d : otos) : sfe_otos_linear_unit_t := _linearUnit d.

Definition setLinearUnit (d : otos) (unit : sfe_otos_linear_unit_t) : otos :=
  if linear_unit_eqb unit (_linearUnit d) then d
  else
    {| _linearUnit := unit;
       _angularUnit := _angularUnit d;
       _meterToUnit := if linear_unit_eqb unit kSfeOtosLinearUnitMeters
                       then f_lit 1 else kMeterToInch hdr;
       _radToUnit := _radToUnit d |}.

Definition getAngularUnit (d : otos) : sfe_otos_angular_unit_t := _angularUnit d.

Definition setAngularUnit (d : otos) (unit : sfe_otos_angular_unit_t) : otos :=
  if angular_unit_eqb unit (_angularUnit d) then d
  else
    {| _linearUnit := _linearUnit d;
       _angularUnit := unit;
       _meterToUnit := _meterToUnit d;
       _radToUnit := if angular_unit_eqb unit kSfeOtosAngularUnitRadians
                     then f_lit 1 else kRadianToDegree hdr |}.

(** The decoding shared by the two scalar getters. *)
Definition scalarOfRaw (rawScalar : Z) : F :=
  f_add (f_mul (f_of_int (to_int8 rawScalar)) (f_lit (1 # 1000))) (f_lit 1).

(** The encoding shared by the two scalar setters; [None] where the
    conversion to [int8_t] is undefined. *)
Definition rawOfScalar (scalar : F) : option Z :=
  match float_to_signed 8
          (f_add (f_mul (f_sub scalar (f_lit 1)) (f_of_int 1000)) (f_lit (1 # 2)))
  with
  | Some z => Some (to_uint8 z)
  | None => None
  end.

Definition getLinearScalar (scalar0 : F) : M (Z * F) :=
  '(err, rawScalar) <- readRegisterByte t (kRegScalarLinear hdr) 0 ;;
  if negb (err =? kSTkErrOk) then ret (kSTkErrFail, scalar0)
  else ret (kSTkErrOk, scalarOfRaw rawScalar).

Definition setLinearScalar (scalar : F) : MO Z :=
  if f_ltb scalar (kMinScalar hdr) || f_ltb (kMaxScalar hdr) scalar
  then retO kSTkErrFail
  else
    match rawOfScalar scalar with
    | Some rawScalar => lift (writeRegisterByte t (kRegScalarLinear hdr) rawScalar)
    | None => fun _ => None
    end.

Definition getAngularScalar (scalar0 : F) : M (Z * F) :=
  '(err, rawScalar) <- readRegisterByte t (kRegScalarAngular hdr) 0 ;;
  if negb (err =? kSTkErrOk) then ret (kSTkErrFail, scalar0)
  else ret (kSTkErrOk, scalarOfRaw rawScalar).

Definition setAngularScalar (scalar : F) : MO Z :=
  if f_ltb scalar (kMinScalar hdr) || f_ltb (kMaxScalar hdr) scalar
  then retO kSTkErrFail
  else
    match rawOfScalar scalar with
    | Some rawScalar => lift (writeRegisterByte t (kRegScalarAngular hdr) rawScalar)
    | None => fun _ => None
    end.

Definition resetTracking : M Z := writeRegisterByte t (kRegReset hdr) 0x01.

Definition getSignalProcessConfig (config0 : Z) : M (Z * Z) :=
  readRegisterByte t (kRegSignalProcess hdr) config0.

Definition setSignalProcessConfig (config : Z) : M Z :=
  writeRegisterByte t (kRegSignalProcess hdr) (to_uint8 config).

Definition getStatus (status0 : Z) : M (Z * Z) :=
  readRegisterByte t (kRegStatus hdr) status0.

(** The signed 16-bit value stored little-endian at [rawData[i]]. *)
Definition int16_at (rawData : list Z) (i : nat) : Z :=
  to_int16 (Z.lor (Z.shiftl (nth (S i) rawData 0) 8) (nth i rawData 0)).

Definition regsToPose (d : otos) (rawData : list Z) (rawToXY rawToH : F) : pose2d :=
  let rawX := int16_at rawData 0 in
  let rawY := int16_at rawData 2 in
  let rawH := int16_at rawData 4 in
  {| pose_x := f_mul (f_mul (f_of_int rawX) rawToXY) (_meterToUnit d);
     pose_y := f_mul (f_mul (f_of_int rawY) rawToXY) (_meterToUnit d);
     pose_h := f_mul (f_mul (f_of_int rawH) rawToH) (_radToUnit d) |}.

(** [None] where a conversion to [int16_t] is undefined. *)
Definition poseToRegs (d : otos) (pose : pose2d) (xyToRaw hToRaw : F) : option (list Z) :=
  match float_to_signed 16 (f_div (f_mul (pose_x pose) xyToRaw) (_meterToUnit d)),
        float_to_signed 16 (f_div (f_mul (pose_y pose) xyToRaw) (_meterToUnit d)),
        float_to_signed 16 (f_div (f_mul (pose_h pose) hToRaw) (_radToUnit d))
  with
  | Some rawX, Some rawY, Some rawH =>
      Some [Z.land rawX 0xFF; Z.land (Z.shiftr rawX 8) 0xFF;
            Z.land rawY 0xFF; Z.land (Z.shiftr rawY 8) 0xFF;
            Z.land rawH 0xFF; Z.land (Z.shiftr rawH 8) 0xFF]
  | _, _, _ => None
  end.

Definition readPoseRegs (d : otos) (fuel : nat) (reg : Z) (pose0 : pose2d)
           (rawToXY rawToH : F) : MO (Z * pose2d) :=
  '(err, bytesRead, rawData) <-? readRegisterRegion t fuel reg (Some (repeat 0 6)) 6 0 ;;
  if negb (err =? kSTkErrOk) then retO (err, pose0)
  else if negb (bytesRead =? 6) then retO (kSTkErrFail, pose0)
  else
    let raw := match rawData with Some l => l | None => [] end in
    retO (kSTkErrOk, regsToPose d raw rawToXY rawToH).

Definition writePoseRegs (d : otos) (reg : Z) (pose : pose2d) (xyToRaw hToRaw : F) : MO Z :=
  match poseToRegs d pose xyToRaw hToRaw with
  | Some rawData => lift (writeRegisterRegion t reg rawData 6)
  | None => fun _ => None
  end.

Definition getOffset d fuel pose0 :=
  readPoseRegs d fuel (kRegOffXL hdr) pose0 (kInt16ToMeter hdr) (kInt16ToRad hdr).
Definition setOffset d pose :=
  writePoseRegs d (kRegOffXL hdr) pose (kMeterToInt16 hdr) (kRadToInt16 hdr).
Definition getPosition d fuel pose0 :=
  readPoseRegs d fuel (kRegPosXL hdr) pose0 (kInt16ToMeter hdr) (kInt16ToRad hdr).
Definition setPosition d pose :=
  writePoseRegs d (kRegPosXL hdr) pose (kMeterToInt16 hdr) (kRadToInt16 hdr).
Definition getVelocity d fuel pose0 :=
  readPoseRegs d fuel (kRegVelXL hdr) pose0 (kInt16ToMps hdr) (kInt16ToRps hdr).
Definition getAcceleration d fuel pose0 :=
  readPoseRegs d fuel (kRegAccXL hdr) pose0 (kInt16ToMpss hdr) (kInt16ToRpss hdr).
Definition getPositionStdDev d fuel pose0 :=
  readPoseRegs d fuel (kRegPosStdXL hdr) pose0 (kInt16ToMeter hdr) (kInt16ToRad hdr).
Definition getVelocityStdDev d fuel pose0 :=
  readPoseRegs d fuel (kRegVelStdXL hdr) pose0 (kInt16ToMps hdr) (kInt16ToRps hdr).
Definition getAccelerationStdDev d fuel pose0 :=
  readPoseRegs d fuel (kRegAccStdXL hdr) pose0 (kInt16ToMpss hdr) (kInt16ToRpss hdr).

(** The body shared by [getPosVelAcc] (from [kRegPosXL]) and
    [getPosVelAccStdDev] (from [kRegPosStdXL]). *)
Definition readPosVelAcc (d : otos) (fuel : nat) (reg : Z) (out0 : pose2d * pose2d * pose2d)
  : MO (Z * (pose2d * pose2d * pose2d)) :=
  '(err, bytesRead, rawData) <-? readRegisterRegion t fuel reg (Some (repeat 0 18)) 18 0 ;;
  if negb (err =? kSTkErrOk) then retO (err, out0)
  else if negb (bytesRead =? 18) then retO (kSTkErrFail, out0)
  else
    let raw := match rawData with Some l => l | None => [] end in
    retO (kSTkErrOk,
          (regsToPose d raw (kInt16ToMeter hdr) (kInt16ToRad hdr),
           regsToPose d (skipn 6 raw) (kInt16ToMps hdr) (kInt16ToRps hdr),
           regsToPose d (skipn 12 raw) (kInt16ToMpss hdr) (kInt16ToRpss hdr))).

Definition getPosVelAcc d fuel out0 := readPosVelAcc d fuel (kRegPosXL hdr) out0.
Definition getPosVelAccStdDev d fuel out0 := readPosVelAcc d fuel (kRegPosStdXL hdr) out0.

Definition getPosVelAccAndStdDev (d : otos) (fuel : nat)
           (out0 : (pose2d * pose2d * pose2d) * (pose2d * pose2d * pose2d))
  : MO (Z * ((pose2d * pose2d * pose2d) * (pose2d * pose2d * pose2d))) :=
  '(err, bytesRead, rawData) <-? readRegisterRegion t fuel (kRegPosXL hdr) (Some (repeat 0 36)) 36 0 ;;
  if negb (err =? kSTkErrOk) then retO (err, out0)
  else if negb (bytesRead =? 36) then retO (kSTkErrFail, out0)
  else
    let raw := match rawData with Some l => l | None => [] end in
    retO (kSTkErrOk,
          ((regsToPose d raw (kInt16ToMeter hdr) (kInt16ToRad hdr),
            regsToPose d (skipn 6 raw) (kInt16ToMps hdr) (kInt16ToRps hdr),
            regsToPose d (skipn 12 raw) (kInt16ToMpss hdr) (kInt16ToRpss hdr)),
           (regsToPose d (skipn 18 raw) (kInt16ToMeter hdr) (kInt16ToRad hdr),
            regsToPose d (skipn 24 raw) (kInt16ToMps hdr) (kInt16ToRps hdr),
            regsToPose d (skipn 30 raw) (kInt16ToMpss hdr) (kInt16ToRpss hdr)))).

End Driver.

(** ** Sequences of calls *)

(** A call of a public member function with its arguments.  The values a
    call hands back are not part of it: [call] gives the object as the
    call leaves it, and the bus history. *)
Inductive Call (F : Type) : Type :=
| CallIsConnected
| CallGetVersionInfo
| CallSelfTest (selfTest0 : Z)
| CallCalibrateImu (numSamples : Z) (waitUntilDone : bool)
| CallGetImuCalibrationProgress
| CallGetLinearUnit
| CallSetLinearUnit (unit : sfe_otos_linear_unit_t)
| CallGetAngularUnit
| CallSetAngularUnit (unit : sfe_otos_angular_unit_t)
| CallGetLinearScalar
| CallSetLinearScalar (scalar : F)
| CallGetAngularScalar
| CallSetAngularScalar (scalar : F)
| CallResetTracking
| CallGetSignalProcessConfig
| CallSetSignalProcessConfig (config : Z)
| CallGetStatus
| CallGetOffset
| CallSetOffset (pose : sfe_otos_pose2d_t F)
| CallGetPosition
| CallSetPosition (pose : sfe_otos_pose2d_t F)
| CallGetVelocity
| CallGetAcceleration
| CallGetPositionStdDev
| CallGetVelocityStdDev
| CallGetAccelerationStdDev
| CallGetPosVelAcc
| CallGetPosVelAccStdDev
| CallGetPosVelAccAndStdDev.

Arguments CallIsConnected {F}.
Arguments CallGetVersionInfo {F}.
Arguments CallSelfTest {F}.
Arguments CallCalibrateImu {F}.
Arguments CallGetImuCalibrationProgress {F}.
Arguments CallGetLinearUnit {F}.
Arguments CallSetLinearUnit {F}.
Arguments CallGetAngularUnit {F}.
Arguments CallSetAngularUnit {F}.
Arguments CallGetLinearScalar {F}.
Arguments CallSetLinearScalar {F}.
Arguments CallGetAngularScalar {F}.
Arguments CallSetAngularScalar {F}.
Arguments CallResetTracking {F}.
Arguments CallGetSignalProcessConfig {F}.
Arguments CallSetSignalProcessConfig {F}.
Arguments CallGetStatus {F}.
Arguments CallGetOffset {F}.
Arguments CallSetOffset {F}.
Arguments CallGetPosition {F}.
Arguments CallSetPosition {F}.
Arguments CallGetVelocity {F}.
Arguments CallGetAcceleration {F}.
Arguments CallGetPositionStdDev {F}.
Arguments CallGetVelocityStdDev {F}.
Arguments CallGetAccelerationStdDev {F}.
Arguments CallGetPosVelAcc {F}.
Arguments CallGetPosVelAccStdDev {F}.
Arguments CallGetPosVelAccAndStdDev {F}.

Section Calls.

Context {F : Type} `{FloatArith F}.
Variable hdr : OtosHeader F.
Variable t : Transport.
Variable fuel : nat.

(** Runs [c] for its effect on the bus and keeps the object [d]. *)
Definition keep {A} (d : sfeQwiicOtos F) (c : MO A) : MO (sfeQwiicOtos F) :=
  _ <-? c ;; retO d.

Definition zero_pose : sfe_otos_pose2d_t F :=
  {| pose_x := f_of_int 0; pose_y := f_of_int 0; pose_h := f_of_int 0 |}.

Definition call (c : Call F) (d : sfeQwiicOtos F) : MO (sfeQwiicOtos F) :=
  let p := zero_pose in
  match c with
  | CallIsConnected => keep d (lift (isConnected hdr t))
  | CallGetVersionInfo => keep d (getVersionInfo hdr t fuel 0 0)
  | CallSelfTest selfTest0 => keep d (lift (selfTest hdr t selfTest0))
  | CallCalibrateImu n w => keep d (lift (calibrateImu hdr t n w))
  | CallGetImuCalibrationProgress => keep d (lift (getImuCalibrationProgress hdr t 0))
  | CallGetLinearUnit => keep d (retO (getLinearUnit d))
  | CallSetLinearUnit unit => retO (setLinearUnit hdr d unit)
  | CallGetAngularUnit => keep d (retO (getAngularUnit d))
  | CallSetAngularUnit unit => retO (setAngularUnit hdr d unit)
  | CallGetLinearScalar => keep d (lift (getLinearScalar hdr t (f_of_int 0)))
  | CallSetLinearScalar s => keep d (setLinearScalar hdr t s)
  | CallGetAngularScalar => keep d (lift (getAngularScalar hdr t (f_of_int 0)))
  | CallSetAngularScalar s => keep d (setAngularScalar hdr t s)
  | CallResetTracking => keep d (lift (resetTracking hdr t))
  | CallGetSignalProcessConfig => keep d (lift (getSignalProcessConfig hdr t 0))
  | CallSetSignalProcessConfig config => keep d (lift (setSignalProcessConfig hdr t config))
  | CallGetStatus => keep d (lift (getStatus hdr t 0))
  | CallGetOffset => keep d (getOffset hdr t d fuel p)
  | CallSetOffset pose => keep d (setOffset hdr t d pose)
  | CallGetPosition => keep d (getPosition hdr t d fuel p)
  | CallSetPosition pose => keep d (setPosition hdr t d pose)
  | CallGetVelocity => keep d (getVelocity hdr t d fuel p)
  | CallGetAcceleration => keep d (getAcceleration hdr t d fuel p)
  | CallGetPositionStdDev => keep d (getPositionStdDev hdr t d fuel p)
  | CallGetVelocityStdDev => keep d (getVelocityStdDev hdr t d fuel p)
  | CallGetAccelerationStdDev => keep d (getAccelerationStdDev hdr t d fuel p)
  | CallGetPosVelAcc => keep d (getPosVelAcc hdr t d fuel (p, p, p))
  | CallGetPosVelAccStdDev => keep d (getPosVelAccStdDev hdr t d fuel (p, p, p))
  | CallGetPosVelAccAndStdDev =>
      keep d (getPosVelAccAndStdDev hdr t d fuel ((p, p, p), (p, p, p)))
  end.

Fixpoint run (calls : list (Call F)) (d : sfeQwiicOtos F) : MO (sfeQwiicOtos F) :=
  match calls with
  | [] => retO d
  | c :: calls' => d' <-? call c d ;; run calls' d'
  end.

(** The conversion factor that goes with a unit. *)
Definition linear_factor (unit : sfe_otos_linear_unit_t) : F :=
  match unit with
  | kSfeOtosLinearUnitMeters => f_lit 1
  | kSfeOtosLinearUnitInches => kMeterToInch hdr
  end.

Definition angular_factor (unit : sfe_otos_angular_unit_t) : F :=
  match unit with
  | kSfeOtosAngularUnitRadians => f_lit 1
  | kSfeOtosAngularUnitDegrees => kRadianToDegree hdr
  end.

Definition units_consistent (d : sfeQwiicOtos F) : Prop :=
  _meterToUnit d = linear_factor (_linearUnit d) /\
  _radToUnit d = angular_factor (_angularUnit d).

End Calls.

(** ** The scalar codec as the spec words it *)

(** The nearest integer, ties away from zero (C's [round]). *)
Definition round_nearest (q : Q) : Z :=
  if Qle_bool 0 q then Qfloor (q + (1 # 2)) else Qceiling (q - (1 # 2)).

(** "round((scalar - 1.0) * 1000) as a signed byte": the product is the
    float the driver computes, the rounding is to the nearest integer. *)
Definition spec_rawOfScalar {F} `{FloatArith F} (scalar : F) : Z :=
  to_uint8 (round_nearest (f_val (f_mul (f_sub scalar (f_lit 1)) (f_of_int 1000)))).

(** ** The round trip of a raw value *)

(** The float that reaches the conversion to [int16_t] in [poseToRegs]
    when the pose is the one that [regsToPose] made of the raw value [v]:
    [s] is the scale of the decoding ([rawToXY] or [rawToH]), [t] the scale
    of the encoding ([xyToRaw] or [hToRaw]) and [u] the unit factor. *)
Definition reencoded {F} `{FloatArith F} (v : Z) (s t u : F) : F :=
  f_div (f_mul (f_mul (f_mul (f_of_int v) s) u) t) u.

(** The raw value [v] comes back within one unit, and the value that comes
    back has an opposite in [int16_t]. *)
Definition comes_back (s t u : spec_float) (v : Z) : bool :=
  match f_trunc (reencoded v s t u) with
  | Some v' => (Z.abs v' <=? 32767) && (Z.abs (v' - v) <=? 1)
  | None => false
  end.

(** [f] holds of the [2 ^ bits] integers from [base] on. *)
Fixpoint all_from (bits : nat) (base : Z) (f : Z -> bool) : bool :=
  match bits with
  | O => f base
  | S bits' => all_from bits' base f && all_from bits' (base + 2 ^ Z.of_nat bits') f
  end.

(** The round trip evaluated on the raw values from 0 to 32767 and on
    -32768; the negative values in between follow by symmetry. *)
Definition roundtrip_checked (s t u : spec_float) : bool :=
  all_from 15 0 (comes_back s t u) &&
  match float_to_signed 16 (reencoded (-32768) s t u) with
  | Some v' => Z.abs (v' - -32768) <=? 1
  | None => false
  end.

(** ** The polls as they show on the bus *)

(** One poll of the calibration register by [calibrateImu]. *)
Definition calib_poll {F} (hdr : OtosHeader F) : Trace :=
  [I2cWrite kDefaultAddress [kRegImuCalib hdr] true; I2cRead kDefaultAddress 1 false].

(** One poll of the self-test register by [selfTest], after its delay. *)
Definition selfTest_poll {F} (hdr : OtosHeader F) : Trace :=
  [SleepMs 5; I2cWrite kDefaultAddress [kRegSelfTest hdr] true;
   I2cRead kDefaultAddress 1 false].

(** ** Devices on which the model is run *)

(** A device that takes every write in full and answers the [n]-th read
    of the history with [answer n]. *)
Definition scripted (answer : nat -> Z * list Z) : Transport :=
  {| i2c_port := true;
     i2c_write_blocking := fun _ _ src _ => Z.of_nat (length src);
     i2c_read_blocking := fun h _ _ _ => answer (count_reads h) |}.

(** A device whose [n]-th one-byte read delivers [value n]. *)
Definition polled (value : nat -> Z) : Transport :=
  scripted (fun n => (1, [value n])).

(** A device that delivers every chunk in full (bytes [0xA5]). *)
Definition ideal : Transport :=
  {| i2c_port := true;
     i2c_write_blocking := fun _ _ src _ => Z.of_nat (length src);
     i2c_read_blocking := fun _ _ len _ => (len, repeat 0xA5 (Z.to_nat len)) |}.

(** A session whose port is null. *)
Definition no_port : Transport :=
  {| i2c_port := false;
     i2c_write_blocking := fun _ _ src _ => Z.of_nat (length src);
     i2c_read_blocking := fun _ _ len _ => (len, repeat 0 (Z.to_nat len)) |}.

(** Modelled from the spec: sfeQwiicOtos.h is not among the sources.  The
    spec gives the bounds of the scalars, 0.875 and 1.125, and unity for
    meters and radians.  The other entries are not fixed by the spec; the
    instance takes the register map of the sensor, 39.37 inches to the
    meter, 180/3.14159 degrees to the radian, a position range of 10 m and
    a heading range of 3.14159 rad over 32768 steps, and the bit-fields of
    the self-test register from the least significant bit up. *)
Definition otos_header : OtosHeader spec_float :=
  let lit := Binary32.lit in
  let div := SFdiv Binary32.prec Binary32.emax in
  let mul := SFmul Binary32.prec Binary32.emax in
  let kMeterToInt16 := div (lit (32768 # 1)) (lit (10 # 1)) in
  let kMpsToInt16 := div (lit (32768 # 1)) (lit (5 # 1)) in
  let kMpssToInt16 := div (lit (32768 # 1)) (mul (lit (16 # 1)) (lit (980665 # 100000))) in
  let kRadToInt16 := div (lit (32768 # 1)) (lit (314159 # 100000)) in
  let kDegreeToRadian := div (lit (314159 # 100000)) (lit (180 # 1)) in
  let kRpsToInt16 := div (lit (32768 # 1)) (mul (lit (2000 # 1)) kDegreeToRadian) in
  let kRpssToInt16 := div (lit (32768 # 1)) (mul (lit (314159 # 100000)) (lit (1000 # 1))) in
  {| kProductId := 0x5F;
     kRegProductId := 0x00;
     kRegHwVersion := 0x01;
     kRegScalarLinear := 0x04;
     kRegScalarAngular := 0x05;
     kRegImuCalib := 0x06;
     kRegReset := 0x07;
     kRegSignalProcess := 0x0E;
     kRegSelfTest := 0x0F;
     kRegOffXL := 0x10;
     kRegStatus := 0x1F;
     kRegPosXL := 0x20;
     kRegVelXL := 0x26;
     kRegAccXL := 0x2C;
     kRegPosStdXL := 0x32;
     kRegVelStdXL := 0x38;
     kRegAccStdXL := 0x3E;
     kMinScalar := lit (875 # 1000);
     kMaxScalar := lit (1125 # 1000);
     kMeterToInch := lit (3937 # 100);
     kRadianToDegree := div (lit (180 # 1)) (lit (314159 # 100000));
     kMeterToInt16 := kMeterToInt16;
     kInt16ToMeter := div (lit (1 # 1)) kMeterToInt16;
     kInt16ToMps := div (lit (1 # 1)) kMpsToInt16;
     kInt16ToMpss := div (lit (1 # 1)) kMpssToInt16;
     kRadToInt16 := kRadToInt16;
     kInt16ToRad := div (lit (1 # 1)) kRadToInt16;
     kInt16ToRps := div (lit (1 # 1)) kRpsToInt16;
     kInt16ToRpss := div (lit (1 # 1)) kRpssToInt16;
     selfTest_start_bit := 0;
     selfTest_inProgress_bit := 1;
     selfTest_pass_bit := 2 |}.

(** Devices that fall silent: the first delivers two of the four bytes asked
    for and nothing after that, the second never delivers a byte.  Neither
    reports an error. *)
Definition short_then_silent : Transport :=
  scripted (fun n => match n with O => (2, [0xAA; 0xBB]) | S _ => (0, []) end).

Definition silent : Transport := scripted (fun _ => (0, [])).

(** A device that delivers two bytes per read, whatever the length asked. *)
Definition two_at_a_time : Transport := scripted (fun _ => (2, [0x11; 0x22])).

(** What a transport may answer to a read of [len] bytes: an error, or a
    count of bytes from [least] up to [len]. *)
Definition reads_within (least : Z) (t : Transport) : Prop :=
  forall h addr len nostop,
    0 < len ->
    let n := fst (i2c_read_blocking t h addr len nostop) in
    n < 0 \/ (least <= n <= len).

(** Every read delivers the whole chunk, and the address write of a region
    read is taken. *)
Definition delivers_in_full (t : Transport) : Prop :=
  i2c_port t = true /\
  (forall h addr src, 0 <= i2c_write_blocking t h addr src true) /\
  (forall h addr len nostop, fst (i2c_read_blocking t h addr len nostop) = len).

(** The reads of a region of [n] bytes delivered in full: chunks of 32
    bytes that hold the bus, then the rest, which releases it. *)
Definition chunk_reads (n : Z) : Trace :=
  repeat (I2cRead kDefaultAddress kDefaultBufferChunk true) (Z.to_nat ((n - 1) / 32))
  ++ [I2cRead kDefaultAddress (n - 32 * ((n - 1) / 32)) false].

(** ** More of the bus history *)

(** The number of write transactions in a history. *)
Definition count_writes (h : Trace) : nat :=
  length (filter (fun e => match e with I2cWrite _ _ _ => true | _ => false end) h).

(** A read of a chunk by [readRegisterRegionAnyAddress]: from the device
    address, of 1 to 32 bytes, and holding the bus only when it asks for a
    whole chunk of 32. *)
Definition chunk_request (e : BusEvent) : Prop :=
  exists len nostop,
    e = I2cRead kDefaultAddress len nostop /\
    1 <= len <= kDefaultBufferChunk /\
    (nostop = true -> len = kDefaultBufferChunk).

(** The time spent in [sleep_ms] over a history, in milliseconds. *)
Fixpoint total_sleep (h : Trace) : Z :=
  match h with
  | [] => 0
  | SleepMs ms :: h' => ms + total_sleep h'
  | _ :: h' => total_sleep h'
  end.

(** The three codes of the transfers of one byte. *)
Definition byte_transfer_code (err : Z) : Prop :=
  err = kSTkErrOk \/ err = kSTkErrFail \/ err = kSTkErrBusNotInit.

(** ** A device with a register file *)

(** The register pointer of the sensor after a history that started with
    the pointer at [p]: a write sets it to its first byte and moves it past
    the payload, a read moves it past the bytes read. *)
Fixpoint read_pointer (h : Trace) (p : Z) : Z :=
  match h with
  | [] => p
  | I2cWrite _ (reg :: payload) _ :: h' => read_pointer h' (reg + Z.of_nat (length payload))
  | I2cRead _ len _ :: h' => read_pointer h' (p + len)
  | _ :: h' => read_pointer h' p
  end.

(** The [n] registers from [reg] on. *)
Definition block (mem : Z -> Z) (reg : Z) (n : nat) : list Z :=
  map (fun i => mem (reg + Z.of_nat i)) (seq 0 n).

(** A device that takes every write and answers a read with the registers
    under its pointer, in full; its registers hold [mem] and never change. *)
Definition register_file (mem : Z -> Z) : Transport :=
  {| i2c_port := true;
     i2c_write_blocking := fun _ _ src _ => Z.of_nat (length src);
     i2c_read_blocking := fun h _ len _ =>
                            (len, block mem (read_pointer h 0) (Z.to_nat len)) |}.

(** A device that delivers a first chunk of 32 bytes and then reports an
    error. *)
Definition breaks_after_a_chunk : Transport :=
  scripted (fun n => match n with O => (32, repeat 0x5A 32) | S _ => (-1, []) end).

(** A device that refuses every write. *)
Definition deaf : Transport :=
  {| i2c_port := true;
     i2c_write_blocking := fun _ _ _ _ => -1;
     i2c_read_blocking := fun _ _ len _ => (len, repeat 0 (Z.to_nat len)) |}.

(** The 256 values of a byte. *)
Definition all_bytes : list Z := map Z.of_nat (seq 0 256).

(** ** utils.cpp: bus recovery and initialisation *)

(** What [i2cBusRecovery] and [initI2C] ask of the SDK.  [GpioSetDir] holds
    [true] for [GPIO_OUT]. *)
Inductive gpio_function : Type :=
| GPIO_FUNC_NULL
| GPIO_FUNC_I2C.

Inductive PinEvent : Type :=
| GpioInit (pin : Z)
| GpioSetDir (pin : Z) (out : bool)
| GpioPut (pin : Z) (value : bool)
| BusyWaitUs (us : Z)
| GpioDisablePulls (pin : Z)
| GpioSetFunction (pin : Z) (fn : gpio_function)
| GpioPullUp (pin : Z)
| I2cInit (baudrate : Z).

Definition PinTrace : Type := list PinEvent.

Definition I2C_RECOVERY_CLOCKS : nat := 9.
Definition I2C_BAUD_RATE : Z := 350 * 1000.

(** One clock pulse of the recovery loop, before the data line is read. *)
Definition clock_pulse (scl_pin : Z) : PinTrace :=
  [GpioPut scl_pin false; BusyWaitUs 5; GpioPut scl_pin true; BusyWaitUs 5].

Section Recovery.

(** [gpio_get g pin] is the level that [gpio_get(pin)] returns after the
    history [g]; [I2C_SDA_PIN] and [I2C_SCL_PIN] are the two pins of
    [CONFIG], which the SDK's board header fixes. *)
Variable gpio_get : PinTrace -> Z -> bool.
Variable I2C_SDA_PIN I2C_SCL_PIN : Z.

(** The [for] loop of [i2cBusRecovery] with [n] iterations left. *)
Fixpoint recoveryClocks (n : nat) (sda_pin scl_pin : Z) (g : PinTrace) : PinTrace :=
  match n with
  | O => g
  | S n' =>
      let g1 := g ++ clock_pulse scl_pin in
      if gpio_get g1 sda_pin then g1
      else recoveryClocks n' sda_pin scl_pin g1
  end.

Definition i2cBusRecovery (sda_pin scl_pin : Z) (g : PinTrace) : PinTrace :=
  let g0 := g ++ [GpioInit sda_pin; GpioInit scl_pin;
                  GpioSetDir sda_pin false; GpioSetDir scl_pin true] in
  let g1 := recoveryClocks I2C_RECOVERY_CLOCKS sda_pin scl_pin g0 in
  g1 ++ [GpioSetDir sda_pin true;
         GpioPut scl_pin false; BusyWaitUs 5;
         GpioPut sda_pin false; BusyWaitUs 5;
         GpioPut scl_pin true; BusyWaitUs 5;
         GpioPut sda_pin true; BusyWaitUs 5].

Definition initI2C (force_recovery : bool) (g : PinTrace) : PinTrace :=
  let g0 := if force_recovery then i2cBusRecovery I2C_SDA_PIN I2C_SCL_PIN g else g in
  g0 ++ [GpioDisablePulls I2C_SDA_PIN; GpioSetFunction I2C_SDA_PIN GPIO_FUNC_NULL;
         GpioDisablePulls I2C_SCL_PIN; GpioSetFunction I2C_SCL_PIN GPIO_FUNC_NULL;
         I2cInit I2C_BAUD_RATE;
         GpioSetFunction I2C_SDA_PIN GPIO_FUNC_I2C;
         GpioSetFunction I2C_SCL_PIN GPIO_FUNC_I2C;
         GpioPullUp I2C_SDA_PIN; GpioPullUp I2C_SCL_PIN].

End Recovery.

(** The state of a pin that a history leaves behind: the function given to
    it last, whether its pull-up is on, and the level driven on it last. *)
Fixpoint pin_function (g : PinTrace) (pin : Z) (now : option gpio_function)
  : option gpio_function :=
  match g with
  | [] => now
  | GpioSetFunction p fn :: g' =>
      pin_function g' pin (if p =? pin then Some fn else now)
  | _ :: g' => pin_function g' pin now
  end.

Fixpoint pin_pulled_up (g : PinTrace) (pin : Z) (now : bool) : bool :=
  match g with
  | [] => now
  | GpioPullUp p :: g' => pin_pulled_up g' pin (if p =? pin then true else now)
  | GpioDisablePulls p :: g' => pin_pulled_up g' pin (if p =? pin then false else now)
  | _ :: g' => pin_pulled_up g' pin now
  end.

Fixpoint pin_level (g : PinTrace) (pin : Z) (now : option bool) : option bool :=
  match g with
  | [] => now
  | GpioPut p value :: g' => pin_level g' pin (if p =? pin then Some value else now)
  | _ :: g' => pin_level g' pin now
  end.

(** A data line that the device releases after the [k]-th pulse of a
    recovery that starts on an empty history: it reads high once [k] pulses
    and the four set-up events are in the history. *)
Definition released_after (k : nat) : PinTrace -> Z -> bool :=
  fun g _ => (4 + 4 * k <=? length g)%nat.

(* ================================================================= *)
(** * Part II: properties                                             *)
(* ================================================================= *)

(** ** The history of the bus *)

Lemma count_reads_app (h1 h2 : Trace) :
  count_reads (h1 ++ h2) = (count_reads h1 + count_reads h2)%nat.
Proof.
  unfold count_reads. now rewrite filter_app, length_app.
Qed.

Lemma count_reads_read (h : Trace) addr len nostop :
  count_reads (h ++ [I2cRead addr len nostop]) = S (count_reads h).
Proof.
  rewrite count_reads_app. cbn. lia.
Qed.

Lemma count_reads_write (h : Trace) addr src nostop :
  count_reads (h ++ [I2cWrite addr src nostop]) = count_reads h.
Proof.
  rewrite count_reads_app. cbn. lia.
Qed.

Lemma count_reads_sleep (h : Trace) ms :
  count_reads (h ++ [SleepMs ms]) = count_reads h.
Proof.
  rewrite count_reads_app. cbn. lia.
Qed.

(** ** Region reads: the chunk loop *)

Lemma size_t_wrap_small (z : Z) : 0 <= z < 2 ^ 32 -> size_t_wrap z = z.
Proof.
  intros Hz. unfold size_t_wrap. now apply Z.mod_small.
Qed.

Lemma nChunk_value (numBytes : Z) :
  0 < numBytes ->
  to_uint8 (if numBytes >? kDefaultBufferChunk then kDefaultBufferChunk else numBytes)
  = Z.min numBytes 32.
Proof.
  intros Hn. unfold to_uint8, kDefaultBufferChunk.
  destruct (Z.gtb_spec numBytes 32); rewrite Z.mod_small; lia.
Qed.

(** Once a device has fallen silent the loop never ends: it asks again for
    the same bytes, whatever the fuel. *)
Lemma readChunks_stalled (answer : nat -> Z * list Z) (n0 : nat) :
  (forall n, (n0 <= n)%nat -> fst (answer n) = 0) ->
  forall fuel devReg numBytes data pos h,
    0 < numBytes < 2 ^ 32 ->
    (n0 <= count_reads h)%nat ->
    readChunks (scripted answer) fuel devReg false numBytes data pos h = None.
Proof.
  intros Hsilent fuel.
  induction fuel as [|fuel IH]; intros devReg numBytes data pos h Hn Hh; cbn [readChunks].
  - destruct (Z.gtb_spec numBytes 0); [reflexivity | lia].
  - destruct (Z.gtb_spec numBytes 0); [|lia].
    cbn [Z.ltb Z.compare]. unfold bus_read. cbn [scripted i2c_read_blocking].
    specialize (Hsilent (count_reads h) Hh).
    destruct (answer (count_reads h)) as [nReturned bytes]. cbn in Hsilent. subst nReturned.
    cbn [Z.ltb Z.compare]. rewrite Z.sub_0_r, size_t_wrap_small by lia.
    apply IH; [lia|]. rewrite count_reads_read. lia.
Qed.

(** With reads that deliver between [0] and [len] bytes, the count of bytes
    left stays a [size_t] without wrapping, and the loop ends by its
    condition only with nothing left. *)
Lemma readChunks_finished (t : Transport) :
  reads_within 0 t ->
  forall fuel devReg first numBytes data pos h numBytes' data' h',
    0 <= numBytes < 2 ^ 32 ->
    readChunks t fuel devReg first numBytes data pos h = Some (Finished numBytes' data', h') ->
    numBytes' = 0.
Proof.
  intros Ht fuel.
  induction fuel as [|fuel IH]; intros devReg first numBytes data pos h numBytes' data' h' Hn;
    cbn [readChunks]; destruct (Z.gtb_spec numBytes 0) as [Hpos|Hle]; try discriminate;
    try (intros [= <- _ _]; lia).
  destruct (if first then bus_write t kDefaultAddress devReg true h else (0, h))
    as [result h1].
  destruct (result <? 0); [discriminate|].
  rewrite nChunk_value by lia. unfold bus_read.
  pose proof (Ht h1 kDefaultAddress (Z.min numBytes 32) (numBytes >? Z.min numBytes 32)
                 ltac:(lia)) as Hr.
  destruct (i2c_read_blocking t h1 kDefaultAddress (Z.min numBytes 32)
              (numBytes >? Z.min numBytes 32)) as [nReturned bytes].
  cbn in Hr. destruct (Z.ltb_spec nReturned 0); [discriminate|].
  intros Hrec. eapply IH; [|exact Hrec].
  rewrite size_t_wrap_small; lia.
Qed.

(** So the code [kSTkErrBusUnderRead] is never returned: the last line of
    [readRegisterRegionAnyAddress] always finds [readBytes == nOrig]. *)
Lemma under_read_unreachable (t : Transport) :
  reads_within 0 t ->
  forall fuel devReg data numBytes readBytes0 h err readBytes data' h',
    0 <= numBytes < 2 ^ 32 ->
    readRegisterRegionAnyAddress t fuel devReg data numBytes readBytes0 h
    = Some ((err, readBytes, data'), h') ->
    err <> kSTkErrBusUnderRead.
Proof.
  intros Ht fuel devReg data numBytes readBytes0 h err readBytes data' h' Hn.
  unfold readRegisterRegionAnyAddress.
  destruct (negb (i2c_port t)); [intros [= <- _ _ _]; discriminate|].
  destruct data as [buf|]; [|intros [= <- _ _ _]; discriminate].
  destruct (readChunks t fuel devReg true numBytes buf 0 h) as [[[e b|nb b] h1]|] eqn:Hloop;
    [| |discriminate].
  - intros [= <- _ _ _].
    clear - Hloop. revert devReg numBytes buf h Hloop. generalize true, 0.
    induction fuel as [|fuel IH]; intros first pos devReg numBytes buf h; cbn [readChunks];
      destruct (numBytes >? 0); try discriminate.
    destruct (if first then bus_write t kDefaultAddress devReg true h else (0, h))
      as [result h2].
    destruct (result <? 0); [intros [= <- _ _]; discriminate|].
    destruct (bus_read t kDefaultAddress _ _ h2) as [[nReturned bytes] h3].
    destruct (nReturned <? 0); [intros [= <- _ _]; discriminate|].
    apply IH.
  - apply (readChunks_finished t Ht) in Hloop; [|exact Hn]. subst nb.
    intros [= <- _ _ _]. rewrite Z.sub_0_r, size_t_wrap_small, Z.eqb_refl by exact Hn.
    discriminate.
Qed.

(** With reads that deliver at least one byte, or report an error, the loop
    ends within [numBytes] iterations. *)
Lemma readChunks_returns (t : Transport) :
  reads_within 1 t ->
  forall fuel devReg first numBytes data pos h,
    0 <= numBytes < 2 ^ 32 ->
    numBytes <= Z.of_nat fuel ->
    exists r, readChunks t fuel devReg first numBytes data pos h = Some r.
Proof.
  intros Ht fuel.
  induction fuel as [|fuel IH]; intros devReg first numBytes data pos h Hn Hfuel;
    cbn [readChunks]; destruct (Z.gtb_spec numBytes 0) as [Hpos|Hle]; try lia;
    try (eexists; reflexivity).
  destruct (if first then bus_write t kDefaultAddress devReg true h else (0, h))
    as [result h1].
  destruct (result <? 0); [eexists; reflexivity|].
  rewrite nChunk_value by lia. unfold bus_read.
  pose proof (Ht h1 kDefaultAddress (Z.min numBytes 32) (numBytes >? Z.min numBytes 32)
                 ltac:(lia)) as Hr.
  destruct (i2c_read_blocking t h1 kDefaultAddress (Z.min numBytes 32)
              (numBytes >? Z.min numBytes 32)) as [nReturned bytes].
  cbn in Hr. destruct (Z.ltb_spec nReturned 0); [eexists; reflexivity|].
  apply IH; rewrite size_t_wrap_small; lia.
Qed.

Lemma readRegisterRegionAnyAddress_returns (t : Transport) :
  reads_within 1 t ->
  forall fuel devReg data numBytes readBytes0 h,
    0 <= numBytes < 2 ^ 32 ->
    numBytes <= Z.of_nat fuel ->
    exists r, readRegisterRegionAnyAddress t fuel devReg data numBytes readBytes0 h = Some r.
Proof.
  intros Ht fuel devReg data numBytes readBytes0 h Hn Hfuel.
  unfold readRegisterRegionAnyAddress.
  destruct (negb (i2c_port t)); [eexists; reflexivity|].
  destruct data as [buf|]; [|eexists; reflexivity].
  destruct (readChunks_returns t Ht fuel devReg true numBytes buf 0 h Hn Hfuel)
    as [[[e b|nb b] h1] ->]; eexists; reflexivity.
Qed.

(** One iteration of the loop on a scripted device that answers the read
    with [n] bytes. *)
Lemma readChunks_scripted_step (answer : nat -> Z * list Z)
      fuel devReg (first : bool) numBytes data pos h n bytes :
  0 < numBytes ->
  answer (count_reads h) = (n, bytes) ->
  0 <= n ->
  readChunks (scripted answer) (S fuel) devReg first numBytes data pos h
  = readChunks (scripted answer) fuel devReg false
               (size_t_wrap (numBytes - n))
               (store data pos (firstn (Z.to_nat n) bytes)) (pos + n)
               ((if first then h ++ [I2cWrite kDefaultAddress devReg true] else h)
                ++ [I2cRead kDefaultAddress (Z.min numBytes 32)
                            (numBytes >? Z.min numBytes 32)]).
Proof.
  intros Hpos Hanswer Hn. cbn [readChunks].
  destruct (Z.gtb_spec numBytes 0); [|lia].
  rewrite nChunk_value by lia.
  destruct first; unfold bus_write, bus_read; cbn [scripted i2c_write_blocking i2c_read_blocking].
  - destruct (Z.ltb_spec (Z.of_nat (length devReg)) 0); [lia|].
    rewrite count_reads_write, Hanswer.
    destruct (Z.ltb_spec n 0); [lia | reflexivity].
  - cbn [Z.ltb Z.compare]. rewrite Hanswer.
    destruct (Z.ltb_spec n 0); [lia | reflexivity].
Qed.

(** C1.  [readRegisterRegion] is asked for four bytes on a device that
    delivers two of them and then no more, without ever reporting an error.
    Fewer bytes than requested have come, yet the call does not return
    [kSTkErrBusUnderRead] with [readBytes = 2]: whatever the fuel, it is
    still in its loop, asking for the two bytes that are missing. *)
Theorem C1_short_total_is_not_reported :
  forall fuel,
    readRegisterRegion short_then_silent fuel 0x20 (Some [0; 0; 0; 0]) 4 0 [] = None.
Proof.
  intros fuel. unfold readRegisterRegion, readRegisterRegionAnyAddress.
  change (i2c_port short_then_silent) with true. cbn [negb].
  assert (Hloop : readChunks short_then_silent fuel [0x20] true 4 [0; 0; 0; 0] 0 [] = None);
    [|now rewrite Hloop].
  destruct fuel as [|fuel]; [reflexivity|].
  unfold short_then_silent.
  rewrite (readChunks_scripted_step _ _ _ _ _ _ _ _ 2 [0xAA; 0xBB]); [|lia|reflexivity|lia].
  apply (readChunks_stalled _ 1%nat).
  - intros [|n] Hn; [lia|reflexivity].
  - rewrite size_t_wrap_small; lia.
  - rewrite count_reads_read. lia.
Qed.

(** C10.  On a device whose reads deliver no byte and report no error,
    each answer lies between 0 and the chunk size, and a region read of one
    byte never returns: no amount of fuel produces an error code. *)
Theorem C10_region_read_loops_on_empty_reads :
  reads_within 0 silent /\
  forall fuel,
    readRegisterRegionAnyAddress silent fuel [0x20] (Some [0]) 1 0 [] = None.
Proof.
  split.
  - intros h addr len nostop Hlen. cbn. lia.
  - intros fuel. unfold readRegisterRegionAnyAddress.
    change (i2c_port silent) with true. cbn [negb].
    assert (Hloop : readChunks silent fuel [0x20] true 1 [0] 0 [] = None);
      [|now rewrite Hloop].
    destruct fuel as [|fuel]; [reflexivity|].
    unfold silent.
    rewrite (readChunks_scripted_step _ _ _ _ _ _ _ _ 0 []); [|lia|reflexivity|lia].
    apply (readChunks_stalled _ 0%nat).
    + intros n _. reflexivity.
    + rewrite size_t_wrap_small; lia.
    + lia.
Qed.

(** ** Region reads: chunks delivered in full *)

Lemma readChunks_nothing_left (t : Transport) fuel devReg first data pos h :
  readChunks t fuel devReg first 0 data pos h = Some (Finished 0 data, h).
Proof.
  destruct fuel; reflexivity.
Qed.

Lemma chunk_reads_last (n : Z) :
  1 <= n <= 32 -> chunk_reads n = [I2cRead kDefaultAddress n false].
Proof.
  intros Hn. unfold chunk_reads.
  replace ((n - 1) / 32) with 0 by (symmetry; apply Z.div_small; lia).
  cbn [Z.to_nat repeat app]. now rewrite Z.mul_0_r, Z.sub_0_r.
Qed.

Lemma chunk_reads_more (n : Z) :
  32 < n ->
  chunk_reads n = I2cRead kDefaultAddress kDefaultBufferChunk true :: chunk_reads (n - 32).
Proof.
  intros Hn. unfold chunk_reads.
  replace (n - 1) with (n - 32 - 1 + 1 * 32) by ring.
  rewrite Z.div_add by lia.
  assert (0 <= (n - 32 - 1) / 32) by (apply Z.div_pos; lia).
  rewrite Z2Nat.inj_add by lia. change (Z.to_nat 1) with 1%nat.
  rewrite Nat.add_comm. cbn [Nat.add repeat app].
  replace (n - 32 * ((n - 32 - 1) / 32 + 1)) with (n - 32 - 32 * ((n - 32 - 1) / 32)) by ring.
  reflexivity.
Qed.

Lemma chunk_reads_length (n : Z) :
  1 <= n -> length (chunk_reads n) = Z.to_nat ((n + 31) / 32).
Proof.
  intros Hn. unfold chunk_reads.
  rewrite length_app, repeat_length. cbn [length].
  replace (n + 31) with (n - 1 + 1 * 32) by ring.
  rewrite Z.div_add by lia.
  assert (0 <= (n - 1) / 32) by (apply Z.div_pos; lia).
  rewrite Z2Nat.inj_add by lia. reflexivity.
Qed.

Lemma readChunks_in_full (t : Transport) :
  delivers_in_full t ->
  forall fuel devReg (first : bool) n data pos h,
    1 <= n < 2 ^ 32 ->
    (n + 31) / 32 <= Z.of_nat fuel ->
    exists data',
      readChunks t fuel devReg first n data pos h
      = Some (Finished 0 data',
              (if first then h ++ [I2cWrite kDefaultAddress devReg true] else h)
              ++ chunk_reads n).
Proof.
  intros (Hport & Hwrite & Hread) fuel.
  induction fuel as [|fuel IH]; intros devReg first n data pos h Hn Hfuel.
  - exfalso. assert (1 <= (n + 31) / 32) by (apply Z.div_le_lower_bound; lia). lia.
  - cbn [readChunks]. destruct (Z.gtb_spec n 0); [|lia].
    rewrite nChunk_value by lia.
    set (h1 := if first then h ++ [I2cWrite kDefaultAddress devReg true] else h).
    assert (Hfirst : exists result,
               (if first then bus_write t kDefaultAddress devReg true h else (0, h))
               = (result, h1) /\ 0 <= result).
    { destruct first; eexists; (split; [reflexivity|]); [apply Hwrite | lia]. }
    destruct Hfirst as (result & -> & Hresult).
    destruct (Z.ltb_spec result 0); [lia|].
    unfold bus_read.
    pose proof (Hread h1 kDefaultAddress (Z.min n 32) (n >? Z.min n 32)) as Hlen.
    destruct (i2c_read_blocking t h1 kDefaultAddress (Z.min n 32) (n >? Z.min n 32))
      as [nReturned bytes].
    cbn [fst] in Hlen. subst nReturned.
    destruct (Z.ltb_spec (Z.min n 32) 0); [lia|].
    destruct (Z.le_gt_cases n 32) as [Hlast|Hmore].
    + rewrite Z.min_l by lia. rewrite Z.sub_diag.
      change (size_t_wrap 0) with 0. rewrite readChunks_nothing_left.
      rewrite chunk_reads_last by lia.
      destruct (Z.gtb_spec n n); [lia|]. eexists; reflexivity.
    + rewrite Z.min_r by lia. rewrite size_t_wrap_small by lia.
      destruct (Z.gtb_spec n 32); [|lia].
      destruct (IH devReg false (n - 32) (store data pos (firstn (Z.to_nat 32) bytes))
                   (pos + 32) (h1 ++ [I2cRead kDefaultAddress 32 true])) as [data' Hrec].
      * lia.
      * replace (n + 31) with (n - 32 + 31 + 1 * 32) in Hfuel by ring.
        rewrite Z.div_add in Hfuel by lia. lia.
      * rewrite Hrec. exists data'. rewrite (chunk_reads_more n) by lia.
        rewrite <- app_assoc. reflexivity.
Qed.

(** C5 as stated fails.  A call for four bytes on a device that delivers
    two bytes per read succeeds, and it took two reads although four is
    below the chunk size; and a call for no byte succeeds without a read. *)
Lemma C5_reads_of_a_successful_call :
  (readRegisterRegion two_at_a_time 2 0x20 (Some [0; 0; 0; 0]) 4 0 []
   = Some ((kSTkErrOk, 4, Some [0x11; 0x22; 0x11; 0x22]),
           [I2cWrite kDefaultAddress [0x20] true;
            I2cRead kDefaultAddress 4 false;
            I2cRead kDefaultAddress 2 false])
   /\ 4 <= kDefaultBufferChunk)
  /\ readRegisterRegion ideal 2 0x20 (Some []) 0 0 [] = Some ((kSTkErrOk, 0, Some []), []).
Proof.
  repeat split; vm_compute; congruence.
Qed.

(** C5, amended.  On a transport that delivers every chunk in full, a call
    of [readRegisterRegion] for [numBytes >= 1] bytes succeeds after the
    address write and exactly [ceil (numBytes / 32)] reads: reads of 32
    bytes that hold the bus, then one read of the rest that releases it; it
    is a single read when [numBytes <= 32].  A call for no byte succeeds
    without touching the bus. *)
Theorem C5_chunked_region_read (t : Transport) :
  delivers_in_full t ->
  forall fuel devReg buf numBytes readBytes0 h,
    0 <= numBytes < 2 ^ 32 ->
    (numBytes + 31) / 32 <= Z.of_nat fuel ->
    (numBytes = 0 ->
     readRegisterRegion t fuel devReg (Some buf) numBytes readBytes0 h
     = Some ((kSTkErrOk, 0, Some buf), h)) /\
    (1 <= numBytes ->
     (exists buf',
         readRegisterRegion t fuel devReg (Some buf) numBytes readBytes0 h
         = Some ((kSTkErrOk, numBytes, Some buf'),
                 h ++ [I2cWrite kDefaultAddress [devReg] true]
                   ++ repeat (I2cRead kDefaultAddress 32 true)
                             (Z.to_nat ((numBytes + 31) / 32) - 1)
                   ++ [I2cRead kDefaultAddress
                               (numBytes - 32 * ((numBytes + 31) / 32 - 1)) false])) /\
     (numBytes <= 32 -> (numBytes + 31) / 32 = 1)).
Proof.
  intros Ht fuel devReg buf numBytes readBytes0 h Hn Hfuel.
  pose proof Ht as (Hport & _ & _).
  unfold readRegisterRegion, readRegisterRegionAnyAddress. rewrite Hport. cbn [negb].
  split.
  - intros ->. rewrite readChunks_nothing_left. reflexivity.
  - intros Hpos.
    assert (Hceil : (numBytes + 31) / 32 = (numBytes - 1) / 32 + 1).
    { replace (numBytes + 31) with (numBytes - 1 + 1 * 32) by ring.
      apply Z.div_add. lia. }
    split.
    + destruct (readChunks_in_full t Ht fuel [devReg] true numBytes buf 0 h) as [buf' ->];
        [lia | exact Hfuel |].
      exists buf'. rewrite Z.sub_0_r, size_t_wrap_small, Z.eqb_refl by lia.
      rewrite <- app_assoc. unfold chunk_reads. rewrite Hceil.
      assert (0 <= (numBytes - 1) / 32) by (apply Z.div_pos; lia).
      rewrite Z2Nat.inj_add by lia.
      replace (Z.to_nat ((numBytes - 1) / 32) + Z.to_nat 1 - 1)%nat
        with (Z.to_nat ((numBytes - 1) / 32)) by lia.
      replace ((numBytes - 1) / 32 + 1 - 1) with ((numBytes - 1) / 32) by ring.
      reflexivity.
    + intros Hle. rewrite Hceil. rewrite Z.div_small; lia.
Qed.

(** The ideal device delivers in full. *)
Lemma ideal_delivers_in_full : delivers_in_full ideal.
Proof.
  repeat split; intros; cbn; lia.
Qed.

(** Seventy bytes from a device that delivers in full: two chunks of 32
    bytes that hold the bus, then six bytes that release it. *)
Lemma C5_chunked_region_read_witness :
  exists buf',
    readRegisterRegion ideal 3 0x20 (Some (repeat 0 70)) 70 0 []
    = Some ((kSTkErrOk, 70, Some buf'),
            [I2cWrite kDefaultAddress [0x20] true;
             I2cRead kDefaultAddress 32 true;
             I2cRead kDefaultAddress 32 true;
             I2cRead kDefaultAddress 6 false]).
Proof.
  destruct (C5_chunked_region_read ideal ideal_delivers_in_full
              3 0x20 (repeat 0 70) 70 0 []) as [_ Hreads].
  - lia.
  - vm_compute. congruence.
  - destruct (Hreads ltac:(lia)) as [[buf' Hcall] _].
    exists buf'. exact Hcall.
Defined.

(** ** Single register transfers *)

(** One register read on a polled device: the address write, the read, and
    the next value of the script. *)
Lemma readRegisterByte_polled (value : nat -> Z) (reg dataToRead0 : Z) (h : Trace) :
  readRegisterByte (polled value) reg dataToRead0 h
  = ((kSTkErrOk, to_uint8 (value (count_reads h))),
     h ++ [I2cWrite kDefaultAddress [reg] true; I2cRead kDefaultAddress 1 false]).
Proof.
  unfold readRegisterByte, bind, bus_write, bus_read, ret. cbn.
  rewrite count_reads_write, <- app_assoc. reflexivity.
Qed.

Lemma writeRegisterByte_polled (value : nat -> Z) (reg dataToWrite : Z) (h : Trace) :
  writeRegisterByte (polled value) reg dataToWrite h
  = (kSTkErrOk, h ++ [I2cWrite kDefaultAddress [reg; dataToWrite] false]).
Proof.
  reflexivity.
Qed.

(** A register read is at most one read transaction. *)
Lemma readRegisterByte_reads (t : Transport) (reg dataToRead0 : Z) (h : Trace) :
  (count_reads (snd (readRegisterByte t reg dataToRead0 h)) <= S (count_reads h))%nat.
Proof.
  unfold readRegisterByte, bind, bus_write, bus_read, ret.
  destruct (negb (i2c_port t)); cbn [snd]; [lia|].
  destruct (i2c_write_blocking t h kDefaultAddress [reg] true <? 0); cbn [snd].
  - rewrite count_reads_write. lia.
  - destruct (i2c_read_blocking t _ kDefaultAddress 1 false) as [result bytes]. cbn [snd].
    rewrite count_reads_read, count_reads_write. lia.
Qed.

Lemma writeRegisterByte_reads (t : Transport) (reg dataToWrite : Z) (h : Trace) :
  count_reads (snd (writeRegisterByte t reg dataToWrite h)) = count_reads h.
Proof.
  unfold writeRegisterByte, bind, bus_write, ret.
  destruct (negb (i2c_port t)); cbn [snd]; [reflexivity|].
  apply count_reads_write.
Qed.

(** ** Error codes of the scalar getters *)

Section ScalarGetters.

Context {F : Type} `{FloatArith F}.
Variable hdr : OtosHeader F.
Variable t : Transport.

(** The scalar getters report [kSTkErrOk] when [readRegisterByte] does, and
    [kSTkErrFail] for every other code. *)
Lemma getLinearScalar_code (scalar0 : F) (h : Trace) :
  fst (fst (getLinearScalar hdr t scalar0 h))
  = if fst (fst (readRegisterByte t (kRegScalarLinear hdr) 0 h)) =? kSTkErrOk
    then kSTkErrOk else kSTkErrFail.
Proof.
  unfold getLinearScalar, bind.
  destruct (readRegisterByte t (kRegScalarLinear hdr) 0 h) as [[err raw] h'].
  cbn [fst]. destruct (err =? kSTkErrOk); reflexivity.
Qed.

Lemma getAngularScalar_code (scalar0 : F) (h : Trace) :
  fst (fst (getAngularScalar hdr t scalar0 h))
  = if fst (fst (readRegisterByte t (kRegScalarAngular hdr) 0 h)) =? kSTkErrOk
    then kSTkErrOk else kSTkErrFail.
Proof.
  unfold getAngularScalar, bind.
  destruct (readRegisterByte t (kRegScalarAngular hdr) 0 h) as [[err raw] h'].
  cbn [fst]. destruct (err =? kSTkErrOk); reflexivity.
Qed.

(** With a port the code of [readRegisterByte] is [kSTkErrOk] or
    [kSTkErrFail]; the code and the traffic do not depend on what the
    caller's byte held. *)
Lemma readRegisterByte_with_port (devReg d0 d1 : Z) (h : Trace) :
  i2c_port t = true ->
  (fst (fst (readRegisterByte t devReg d0 h)) = kSTkErrOk \/
   fst (fst (readRegisterByte t devReg d0 h)) = kSTkErrFail) /\
  fst (fst (readRegisterByte t devReg d0 h)) = fst (fst (readRegisterByte t devReg d1 h)) /\
  snd (readRegisterByte t devReg d0 h) = snd (readRegisterByte t devReg d1 h).
Proof.
  intros Hport. unfold readRegisterByte, bind, bus_write, bus_read, ret.
  rewrite Hport. cbn [negb].
  destruct (i2c_write_blocking t h kDefaultAddress [devReg] true <? 0); [cbn; auto|].
  destruct (i2c_read_blocking t _ kDefaultAddress 1 false) as [result bytes].
  destruct (result =? 1); cbn; auto.
Qed.

Lemma scalar_getters_traffic (scalar0 : F) (h : Trace) :
  snd (getLinearScalar hdr t scalar0 h) = snd (readRegisterByte t (kRegScalarLinear hdr) 0 h) /\
  snd (getAngularScalar hdr t scalar0 h) = snd (readRegisterByte t (kRegScalarAngular hdr) 0 h).
Proof.
  unfold getLinearScalar, getAngularScalar, bind.
  destruct (readRegisterByte t (kRegScalarLinear hdr) 0 h) as [[err raw] h'].
  destruct (readRegisterByte t (kRegScalarAngular hdr) 0 h) as [[err' raw'] h''].
  destruct (err =? kSTkErrOk), (err' =? kSTkErrOk); split; reflexivity.
Qed.


End ScalarGetters.


(** ** The scalar codec *)

(** The scenario of the spec: 1.10 is stored as [0x64], and [0x64] is read
    back as the float 1.1. *)
Lemma scalar_codec_scenario :
  rawOfScalar (f_lit (11 # 10)) = Some 0x64 /\
  spec_rawOfScalar (f_lit (11 # 10)) = 0x64 /\
  scalarOfRaw 0x64 = f_lit (11 # 10).
Proof.
  repeat split; vm_compute; reflexivity.
Qed.

(** On a device that acknowledges, the getters decode the byte they read
    as [(int8_t)b * 0.001f + 1.0f]. *)
Lemma scalar_getters_decode {F} `{FloatArith F} (hdr : OtosHeader F)
      (value : nat -> Z) (scalar0 : F) (h : Trace) :
  fst (getLinearScalar hdr (polled value) scalar0 h)
  = (kSTkErrOk, scalarOfRaw (to_uint8 (value (count_reads h)))) /\
  fst (getAngularScalar hdr (polled value) scalar0 h)
  = (kSTkErrOk, scalarOfRaw (to_uint8 (value (count_reads h)))).
Proof.
  unfold getLinearScalar, getAngularScalar, bind.
  rewrite !readRegisterByte_polled. split; reflexivity.
Qed.

(** C3.  [setLinearScalar(0.9f)] and [setAngularScalar(0.9f)] write the
    byte [0x9D], that is -99, where round((0.9 - 1.0) * 1000) is -100, the
    byte [0x9C]: adding one half and dropping the fraction rounds to the
    nearest integer only from zero upwards. *)
Theorem C3_scalar_below_one_is_stored_one_too_high :
  setLinearScalar otos_header ideal (f_lit (9 # 10)) []
  = Some (kSTkErrOk, [I2cWrite kDefaultAddress [kRegScalarLinear otos_header; 0x9D] false]) /\
  setAngularScalar otos_header ideal (f_lit (9 # 10)) []
  = Some (kSTkErrOk, [I2cWrite kDefaultAddress [kRegScalarAngular otos_header; 0x9D] false]) /\
  spec_rawOfScalar (f_lit (9 # 10)) = 0x9C /\
  to_int8 0x9D = -99 /\ to_int8 0x9C = -100.
Proof.
  repeat split; vm_compute; reflexivity.
Qed.

(** C4.  With the bounds 0.875 and 1.125, a scalar below the first or above
    the second makes both setters return [kSTkErrFail] with the bus history
    untouched.  The two bounds themselves pass the check: the setters call
    [writeRegisterByte] with the bytes [0x84] (-124) and [0x7D] (125), and
    with a port present that is a write transaction on the bus. *)
Theorem C4_scalar_bounds (hdr : OtosHeader spec_float) (t : Transport) :
  kMinScalar hdr = f_lit (875 # 1000) ->
  kMaxScalar hdr = f_lit (1125 # 1000) ->
  (forall scalar h,
      f_ltb scalar (f_lit (875 # 1000)) = true \/ f_ltb (f_lit (1125 # 1000)) scalar = true ->
      setLinearScalar hdr t scalar h = Some (kSTkErrFail, h) /\
      setAngularScalar hdr t scalar h = Some (kSTkErrFail, h)) /\
  (forall h,
      setLinearScalar hdr t (f_lit (875 # 1000)) h
      = Some (writeRegisterByte t (kRegScalarLinear hdr) 0x84 h) /\
      setLinearScalar hdr t (f_lit (1125 # 1000)) h
      = Some (writeRegisterByte t (kRegScalarLinear hdr) 0x7D h) /\
      setAngularScalar hdr t (f_lit (875 # 1000)) h
      = Some (writeRegisterByte t (kRegScalarAngular hdr) 0x84 h) /\
      setAngularScalar hdr t (f_lit (1125 # 1000)) h
      = Some (writeRegisterByte t (kRegScalarAngular hdr) 0x7D h)) /\
  (i2c_port t = true ->
   forall reg raw h,
     snd (writeRegisterByte t reg raw h) = h ++ [I2cWrite kDefaultAddress [reg; raw] false]).
Proof.
  intros Hmin Hmax. split; [|split].
  - intros scalar h Hout. unfold setLinearScalar, setAngularScalar.
    rewrite Hmin, Hmax.
    assert (Hguard : f_ltb scalar (f_lit (875 # 1000)) || f_ltb (f_lit (1125 # 1000)) scalar = true)
      by (apply orb_true_iff; exact Hout).
    rewrite Hguard. split; reflexivity.
  - intros h. unfold setLinearScalar, setAngularScalar. rewrite Hmin, Hmax.
    repeat split; reflexivity.
  - intros Hport reg raw h. unfold writeRegisterByte. rewrite Hport. reflexivity.
Qed.

(** With the header instance: 0.874 is refused without a bus access, 0.875 is
    written as [0x84]. *)
Lemma C4_scalar_bounds_witness :
  setLinearScalar otos_header ideal (f_lit (874 # 1000)) [] = Some (kSTkErrFail, []) /\
  setLinearScalar otos_header ideal (f_lit (875 # 1000)) []
  = Some (kSTkErrOk, [I2cWrite kDefaultAddress [kRegScalarLinear otos_header; 0x84] false]).
Proof.
  destruct (C4_scalar_bounds otos_header ideal eq_refl eq_refl) as (Hout & Hin & Hbus).
  split.
  - apply (Hout (f_lit (874 # 1000)) []). left. vm_compute. reflexivity.
  - destruct (Hin []) as (Hlow & _). rewrite Hlow. reflexivity.
Defined.

(** ** Units and conversion factors *)

Section Units.

Context {F : Type} `{FloatArith F}.
Variable hdr : OtosHeader F.
Variable t : Transport.
Variable fuel : nat.

Lemma linear_unit_eqb_eq (a b : sfe_otos_linear_unit_t) :
  linear_unit_eqb a b = true <-> a = b.
Proof.
  destruct a, b; cbn; split; congruence.
Qed.

Lemma angular_unit_eqb_eq (a b : sfe_otos_angular_unit_t) :
  angular_unit_eqb a b = true <-> a = b.
Proof.
  destruct a, b; cbn; split; congruence.
Qed.

Lemma keep_object {A} (d d' : sfeQwiicOtos F) (c : MO A) (h h' : Trace) :
  keep d c h = Some (d', h') -> d' = d.
Proof.
  unfold keep, bindO, retO. destruct (c h) as [[a h1]|]; [|discriminate].
  now intros [= <- _].
Qed.

Lemma setLinearUnit_consistent (d : sfeQwiicOtos F) unit :
  units_consistent hdr d -> units_consistent hdr (setLinearUnit hdr d unit).
Proof.
  intros [Hlin Hang]. unfold setLinearUnit.
  destruct (linear_unit_eqb unit (_linearUnit d)); [now split|].
  split; cbn; [now destruct unit | exact Hang].
Qed.

Lemma setAngularUnit_consistent (d : sfeQwiicOtos F) unit :
  units_consistent hdr d -> units_consistent hdr (setAngularUnit hdr d unit).
Proof.
  intros [Hlin Hang]. unfold setAngularUnit.
  destruct (angular_unit_eqb unit (_angularUnit d)); [now split|].
  split; cbn; [exact Hlin | now destruct unit].
Qed.

Lemma call_consistent (c : Call F) (d d' : sfeQwiicOtos F) (h h' : Trace) :
  units_consistent hdr d ->
  call hdr t fuel c d h = Some (d', h') ->
  units_consistent hdr d'.
Proof.
  intros Hd.
  destruct c; cbn [call];
    try (intros Hcall; apply keep_object in Hcall; now subst d').
  - intros [= <- _]. now apply setLinearUnit_consistent.
  - intros [= <- _]. now apply setAngularUnit_consistent.
Qed.

Lemma run_consistent (calls : list (Call F)) :
  forall d d' h h',
    units_consistent hdr d ->
    run hdr t fuel calls d h = Some (d', h') ->
    units_consistent hdr d'.
Proof.
  induction calls as [|c calls IH]; intros d d' h h' Hd; cbn [run].
  - now intros [= <- _].
  - unfold bindO. destruct (call hdr t fuel c d h) as [[d1 h1]|] eqn:Hcall; [|discriminate].
    apply IH. eapply call_consistent; eassumption.
Qed.

(** C6.  Whatever calls were made on a freshly constructed object, the
    linear factor it holds is the one of the linear unit it holds (one for
    meters, [kMeterToInch] for inches), and likewise the angular factor.
    Setting a unit to the value it has returns the object as it was, and
    leaves the bus history as it was. *)
Theorem C6_units_and_factors_agree :
  (forall calls h d' h',
      run hdr t fuel calls (sfeQwiicOtos_new hdr) h = Some (d', h') ->
      _meterToUnit d' = match _linearUnit d' with
                        | kSfeOtosLinearUnitMeters => f_lit 1
                        | kSfeOtosLinearUnitInches => kMeterToInch hdr
                        end /\
      _radToUnit d' = match _angularUnit d' with
                      | kSfeOtosAngularUnitRadians => f_lit 1
                      | kSfeOtosAngularUnitDegrees => kRadianToDegree hdr
                      end) /\
  (forall d h,
      setLinearUnit hdr d (getLinearUnit d) = d /\
      setAngularUnit hdr d (getAngularUnit d) = d /\
      call hdr t fuel (CallSetLinearUnit (getLinearUnit d)) d h = Some (d, h) /\
      call hdr t fuel (CallSetAngularUnit (getAngularUnit d)) d h = Some (d, h)).
Proof.
  split.
  - intros calls h d' h' Hrun.
    apply (run_consistent calls (sfeQwiicOtos_new hdr) d' h h'); [|exact Hrun].
    split; reflexivity.
  - intros d h.
    assert (Hlin : setLinearUnit hdr d (getLinearUnit d) = d).
    { unfold setLinearUnit, getLinearUnit.
      now rewrite (proj2 (linear_unit_eqb_eq (_linearUnit d) (_linearUnit d)) eq_refl). }
    assert (Hang : setAngularUnit hdr d (getAngularUnit d) = d).
    { unfold setAngularUnit, getAngularUnit.
      now rewrite (proj2 (angular_unit_eqb_eq (_angularUnit d) (_angularUnit d)) eq_refl). }
    repeat split; try assumption; cbn [call]; unfold retO; congruence.
Qed.

End Units.

(** A run of four calls that changes the linear unit to meters: the object
    it leaves holds the factor one for it. *)
Lemma C6_units_and_factors_agree_witness :
  let d := {| _linearUnit := kSfeOtosLinearUnitMeters;
              _angularUnit := kSfeOtosAngularUnitDegrees;
              _meterToUnit := f_lit 1;
              _radToUnit := kRadianToDegree otos_header |} in
  run otos_header ideal 2
      [CallSetLinearUnit kSfeOtosLinearUnitMeters; CallGetPosition;
       CallSetAngularUnit kSfeOtosAngularUnitDegrees; CallSetLinearScalar (f_lit (11 # 10))]
      (sfeQwiicOtos_new otos_header) []
  = Some (d, [I2cWrite kDefaultAddress [kRegPosXL otos_header] true;
              I2cRead kDefaultAddress 6 false;
              I2cWrite kDefaultAddress [kRegScalarLinear otos_header; 0x64] false]) /\
  _meterToUnit d = f_lit 1 /\
  _radToUnit d = kRadianToDegree otos_header.
Proof.
  intros d.
  assert (Hrun : run otos_header ideal 2
      [CallSetLinearUnit kSfeOtosLinearUnitMeters; CallGetPosition;
       CallSetAngularUnit kSfeOtosAngularUnitDegrees; CallSetLinearScalar (f_lit (11 # 10))]
      (sfeQwiicOtos_new otos_header) []
    = Some (d, [I2cWrite kDefaultAddress [kRegPosXL otos_header] true;
                I2cRead kDefaultAddress 6 false;
                I2cWrite kDefaultAddress [kRegScalarLinear otos_header; 0x64] false]))
    by (vm_compute; reflexivity).
  split; [exact Hrun|].
  exact (proj1 (C6_units_and_factors_agree otos_header ideal 2) _ _ _ _ Hrun).
Defined.

(** ** Polling loops *)

Section Polling.

Context {F : Type}.
Variable hdr : OtosHeader F.

(** *** [calibrateImu] *)

Lemma calibrateImuLoop_reads (t : Transport) (n : nat) :
  forall h,
    (count_reads (snd (calibrateImuLoop hdr t n h)) <= count_reads h + n)%nat.
Proof.
  induction n as [|n IH]; intros h; cbn [calibrateImuLoop].
  - unfold ret. cbn [snd]. lia.
  - unfold bind. pose proof (readRegisterByte_reads t (kRegImuCalib hdr) 0 h) as Hread.
    destruct (readRegisterByte t (kRegImuCalib hdr) 0 h) as [[err v] h1]. cbn [snd] in Hread.
    destruct (negb (err =? kSTkErrOk)); [unfold ret; cbn [snd]; lia|].
    destruct (v =? 0); [unfold ret; cbn [snd]; lia|].
    unfold delayMs, sleep_ms.
    specialize (IH (h1 ++ [SleepMs 3])). rewrite count_reads_sleep in IH. lia.
Qed.

Lemma calibrateImuLoop_polled (value : nat -> Z) (n : nat) :
  forall h,
    (forall k, (k < n)%nat ->
               (forall j, (j < k)%nat -> to_uint8 (value (count_reads h + j)%nat) <> 0) ->
               to_uint8 (value (count_reads h + k)%nat) = 0 ->
               calibrateImuLoop hdr (polled value) n h
               = (Some kSTkErrOk,
                  h ++ concat (repeat (calib_poll hdr ++ [SleepMs 3]) k) ++ calib_poll hdr)) /\
    ((forall j, (j < n)%nat -> to_uint8 (value (count_reads h + j)%nat) <> 0) ->
     calibrateImuLoop hdr (polled value) n h
     = (None, h ++ concat (repeat (calib_poll hdr ++ [SleepMs 3]) n))).
Proof.
  induction n as [|n IH]; intros h.
  - split; [intros k Hk; lia|]. intros _. cbn. now rewrite app_nil_r.
  - cbn [calibrateImuLoop]. unfold bind. rewrite readRegisterByte_polled.
    change (negb (kSTkErrOk =? kSTkErrOk)) with false. cbv iota.
    set (h2 := (h ++ [I2cWrite kDefaultAddress [kRegImuCalib hdr] true;
                      I2cRead kDefaultAddress 1 false]) ++ [SleepMs 3]).
    assert (Hcount : count_reads h2 = S (count_reads h)).
    { unfold h2. rewrite count_reads_sleep.
      change [I2cWrite kDefaultAddress [kRegImuCalib hdr] true; I2cRead kDefaultAddress 1 false]
        with ([I2cWrite kDefaultAddress [kRegImuCalib hdr] true]
                ++ [I2cRead kDefaultAddress 1 false]).
      now rewrite app_assoc, count_reads_read, count_reads_write. }
    assert (Hh2 : forall rest, h2 ++ rest = h ++ (calib_poll hdr ++ [SleepMs 3]) ++ rest).
    { intros rest. unfold h2, calib_poll. now rewrite <- !app_assoc. }
    destruct (IH h2) as [IHok IHfail]. split.
    + intros k Hk Hbefore Hzero. destruct k as [|k].
      * rewrite Nat.add_0_r in Hzero. rewrite Hzero. reflexivity.
      * pose proof (Hbefore 0%nat ltac:(lia)) as Hfirst. rewrite Nat.add_0_r in Hfirst.
        destruct (Z.eqb_spec (to_uint8 (value (count_reads h))) 0); [contradiction|].
        unfold delayMs, sleep_ms. fold h2.
        rewrite (IHok k); [| lia | |].
        -- cbn [repeat concat]. now rewrite Hh2, <- !app_assoc.
        -- intros j Hj. rewrite Hcount. specialize (Hbefore (S j) ltac:(lia)).
           now rewrite Nat.add_succ_r in Hbefore.
        -- rewrite Hcount. now rewrite Nat.add_succ_r in Hzero.
    + intros Hnever.
      pose proof (Hnever 0%nat ltac:(lia)) as Hfirst. rewrite Nat.add_0_r in Hfirst.
      destruct (Z.eqb_spec (to_uint8 (value (count_reads h))) 0); [contradiction|].
      unfold delayMs, sleep_ms. fold h2.
      rewrite IHfail.
      * cbn [repeat concat]. now rewrite Hh2, <- !app_assoc.
      * intros j Hj. rewrite Hcount. specialize (Hnever (S j) ltac:(lia)).
        now rewrite Nat.add_succ_r in Hnever.
Qed.

(** C7.  [calibrateImu] writes the sample count to the calibration register
    and sleeps 3 ms.  Without [waitUntilDone] it then returns [kSTkErrOk],
    whatever the device does afterwards.  With [waitUntilDone] it reads the
    register at most [numSamples] times: on a device whose polls deliver
    [reg 0], [reg 1], ..., it returns [kSTkErrOk] right after the first poll
    that reads zero, if that is among the first [numSamples], and
    [kSTkErrFail] after [numSamples] polls that all read non-zero. *)
Theorem C7_calibrateImu (numSamples : Z) :
  0 <= numSamples < 256 ->
  let start :=
    [I2cWrite kDefaultAddress [kRegImuCalib hdr; numSamples] false; SleepMs 3] in
  (forall t h,
      i2c_port t = true ->
      i2c_write_blocking t h kDefaultAddress [kRegImuCalib hdr; numSamples] false = 2 ->
      calibrateImu hdr t numSamples false h = (kSTkErrOk, h ++ start)) /\
  (forall t h,
      (count_reads (snd (calibrateImu hdr t numSamples true h))
       <= count_reads h + Z.to_nat numSamples)%nat) /\
  (forall value h,
      let reg k := to_uint8 (value (count_reads h + k)%nat) in
      (forall k, (k < Z.to_nat numSamples)%nat ->
                 (forall j, (j < k)%nat -> reg j <> 0) ->
                 reg k = 0 ->
                 calibrateImu hdr (polled value) numSamples true h
                 = (kSTkErrOk,
                    h ++ start ++ concat (repeat (calib_poll hdr ++ [SleepMs 3]) k) ++ calib_poll hdr)) /\
      ((forall j, (j < Z.to_nat numSamples)%nat -> reg j <> 0) ->
       calibrateImu hdr (polled value) numSamples true h
       = (kSTkErrFail,
          h ++ start ++ concat (repeat (calib_poll hdr ++ [SleepMs 3]) (Z.to_nat numSamples))))).
Proof.
  intros Hn start.
  assert (Hbyte : to_uint8 numSamples = numSamples) by (apply Z.mod_small; lia).
  split; [|split].
  - intros t h Hport Hack. unfold calibrateImu, writeRegisterByte, bind, bus_write, ret.
    rewrite Hbyte, Hport. cbn [negb]. cbv beta. rewrite Hack.
    unfold delayMs, sleep_ms. cbn. now rewrite <- app_assoc.
  - intros t h. unfold calibrateImu, bind. rewrite Hbyte.
    pose proof (writeRegisterByte_reads t (kRegImuCalib hdr) numSamples h) as Hwrite.
    destruct (writeRegisterByte t (kRegImuCalib hdr) numSamples h) as [err h1].
    cbn [snd] in Hwrite.
    destruct (negb (err =? kSTkErrOk)); [unfold ret; cbn [snd]; lia|].
    unfold delayMs, sleep_ms. cbn [negb].
    pose proof (calibrateImuLoop_reads t (Z.to_nat numSamples) (h1 ++ [SleepMs 3])) as Hloop.
    rewrite count_reads_sleep in Hloop.
    destruct (calibrateImuLoop hdr t (Z.to_nat numSamples) (h1 ++ [SleepMs 3])) as [[err'|] h2];
      unfold ret; cbn [snd] in *; lia.
  - intros value h reg.
    set (h1 := (h ++ [I2cWrite kDefaultAddress [kRegImuCalib hdr; numSamples] false])
                 ++ [SleepMs 3]).
    assert (Hcount : count_reads h1 = count_reads h)
      by (unfold h1; now rewrite count_reads_sleep, count_reads_write).
    assert (Hh1 : forall rest, h1 ++ rest = h ++ start ++ rest)
      by (intros rest; unfold h1, start; now rewrite <- !app_assoc).
    assert (Hcall : calibrateImu hdr (polled value) numSamples true h
                    = (let (r, h2) := calibrateImuLoop hdr (polled value) (Z.to_nat numSamples) h1 in
                       (match r with Some err => err | None => kSTkErrFail end, h2))).
    { unfold calibrateImu, bind. rewrite Hbyte, writeRegisterByte_polled.
      change (negb (kSTkErrOk =? kSTkErrOk)) with false. cbv iota.
      unfold delayMs, sleep_ms. cbn [negb]. unfold h1.
      destruct (calibrateImuLoop hdr (polled value) (Z.to_nat numSamples) _) as [[err|] h2];
        reflexivity. }
    destruct (calibrateImuLoop_polled value (Z.to_nat numSamples) h1) as [Hok Hfail].
    rewrite Hcount in Hok, Hfail. split.
    + intros k Hk Hbefore Hzero. rewrite Hcall, (Hok k Hk Hbefore Hzero). now rewrite Hh1.
    + intros Hnever. rewrite Hcall, (Hfail Hnever). now rewrite Hh1.
Qed.

(** *** [selfTest] *)

Lemma selfTestLoop_reads (t : Transport) (n : nat) :
  forall value h,
    (count_reads (snd (selfTestLoop hdr t n value h)) <= count_reads h + n)%nat.
Proof.
  induction n as [|n IH]; intros value h; cbn [selfTestLoop].
  - unfold ret. cbn [snd]. lia.
  - unfold bind, delayMs, sleep_ms.
    pose proof (readRegisterByte_reads t (kRegSelfTest hdr) value (h ++ [SleepMs 5])) as Hread.
    destruct (readRegisterByte t (kRegSelfTest hdr) value (h ++ [SleepMs 5])) as [[err v] h1].
    cbn [snd] in Hread. rewrite count_reads_sleep in Hread.
    destruct (negb (err =? kSTkErrOk)); [unfold ret; cbn [snd]; lia|].
    destruct (bit_field v (selfTest_inProgress_bit hdr) =? 0); [unfold ret; cbn [snd]; lia|].
    specialize (IH v h1). lia.
Qed.

Lemma selfTestLoop_polled (value : nat -> Z) (n : nat) :
  forall value0 h,
    (forall k, (k < n)%nat ->
               (forall j, (j < k)%nat ->
                          bit_field (to_uint8 (value (count_reads h + j)%nat))
                                    (selfTest_inProgress_bit hdr) <> 0) ->
               bit_field (to_uint8 (value (count_reads h + k)%nat))
                         (selfTest_inProgress_bit hdr) = 0 ->
               selfTestLoop hdr (polled value) n value0 h
               = (inr (to_uint8 (value (count_reads h + k)%nat)),
                  h ++ concat (repeat (selfTest_poll hdr) (S k)))) /\
    ((forall j, (j < n)%nat ->
                bit_field (to_uint8 (value (count_reads h + j)%nat))
                          (selfTest_inProgress_bit hdr) <> 0) ->
     selfTestLoop hdr (polled value) n value0 h
     = (inr (match n with
             | O => value0
             | S m => to_uint8 (value (count_reads h + m)%nat)
             end),
        h ++ concat (repeat (selfTest_poll hdr) n))).
Proof.
  induction n as [|n IH]; intros value0 h.
  - split; [intros k Hk; lia|]. intros _. cbn. now rewrite app_nil_r.
  - cbn [selfTestLoop]. unfold bind, delayMs, sleep_ms. rewrite readRegisterByte_polled.
    change (negb (kSTkErrOk =? kSTkErrOk)) with false. cbv iota.
    rewrite count_reads_sleep.
    set (h2 := (h ++ [SleepMs 5]) ++ [I2cWrite kDefaultAddress [kRegSelfTest hdr] true;
                                      I2cRead kDefaultAddress 1 false]).
    assert (Hcount : count_reads h2 = S (count_reads h)).
    { unfold h2.
      change [I2cWrite kDefaultAddress [kRegSelfTest hdr] true; I2cRead kDefaultAddress 1 false]
        with ([I2cWrite kDefaultAddress [kRegSelfTest hdr] true]
                ++ [I2cRead kDefaultAddress 1 false]).
      now rewrite app_assoc, count_reads_read, count_reads_write, count_reads_sleep. }
    assert (Hh2 : forall rest, h2 ++ rest = h ++ selfTest_poll hdr ++ rest).
    { intros rest. unfold h2, selfTest_poll. now rewrite <- !app_assoc. }
    destruct (IH (to_uint8 (value (count_reads h))) h2) as [IHok IHfail]. split.
    + intros k Hk Hbefore Hzero. destruct k as [|k].
      * rewrite Nat.add_0_r in Hzero. rewrite Hzero. cbn [Z.eqb].
        rewrite Nat.add_0_r. cbn [repeat concat]. unfold ret.
        now rewrite <- (Hh2 []), !app_nil_r.
      * pose proof (Hbefore 0%nat ltac:(lia)) as Hfirst. rewrite Nat.add_0_r in Hfirst.
        destruct (Z.eqb_spec (bit_field (to_uint8 (value (count_reads h)))
                                        (selfTest_inProgress_bit hdr)) 0); [contradiction|].
        rewrite (IHok k); [| lia | |].
        -- rewrite Hcount, Nat.add_succ_r. cbn [repeat concat Nat.add].
           now rewrite Hh2.
        -- intros j Hj. rewrite Hcount. specialize (Hbefore (S j) ltac:(lia)).
           now rewrite Nat.add_succ_r in Hbefore.
        -- rewrite Hcount. now rewrite Nat.add_succ_r in Hzero.
    + intros Hnever.
      pose proof (Hnever 0%nat ltac:(lia)) as Hfirst. rewrite Nat.add_0_r in Hfirst.
      destruct (Z.eqb_spec (bit_field (to_uint8 (value (count_reads h)))
                                      (selfTest_inProgress_bit hdr)) 0); [contradiction|].
      rewrite IHfail.
      * rewrite Hcount. cbn [repeat concat]. rewrite Hh2. f_equal. f_equal.
        destruct n as [|n]; [now rewrite Nat.add_0_r | now rewrite Nat.add_succ_r].
      * intros j Hj. rewrite Hcount. specialize (Hnever (S j) ltac:(lia)).
        now rewrite Nat.add_succ_r in Hnever.
Qed.

(** C8.  [selfTest] writes the self-test register with the start bit set
    and then reads it at most ten times, sleeping 5 ms before each read.  On
    a device whose polls deliver [reg 0], [reg 1], ..., the loop stops at the
    first poll whose in-progress flag is clear, or after the tenth poll; in
    both cases the result is [kSTkErrOk] exactly when the pass flag of the
    last byte read is one.  With in-progress set and pass clear in all ten
    polls the result is [kSTkErrFail]. *)
Theorem C8_selfTest :
  (forall t selfTest0 h,
      (count_reads (snd (selfTest hdr t selfTest0 h)) <= count_reads h + 10)%nat) /\
  (forall value selfTest0 h,
      let reg k := to_uint8 (value (count_reads h + k)%nat) in
      let inProgress k := bit_field (reg k) (selfTest_inProgress_bit hdr) in
      let pass k := bit_field (reg k) (selfTest_pass_bit hdr) in
      let start :=
        I2cWrite kDefaultAddress
                 [kRegSelfTest hdr;
                  set_bit_field (to_uint8 selfTest0) (selfTest_start_bit hdr)] false in
      (0 <= selfTest_start_bit hdr ->
       bit_field (set_bit_field (to_uint8 selfTest0) (selfTest_start_bit hdr))
                 (selfTest_start_bit hdr) = 1) /\
      (forall k, (k < 10)%nat ->
                 (forall j, (j < k)%nat -> inProgress j <> 0) ->
                 inProgress k = 0 ->
                 selfTest hdr (polled value) selfTest0 h
                 = (if pass k =? 1 then kSTkErrOk else kSTkErrFail,
                    h ++ start :: concat (repeat (selfTest_poll hdr) (S k)))) /\
      ((forall j, (j < 10)%nat -> inProgress j <> 0) ->
       (selfTest hdr (polled value) selfTest0 h
        = (if pass 9%nat =? 1 then kSTkErrOk else kSTkErrFail,
           h ++ start :: concat (repeat (selfTest_poll hdr) 10))) /\
       (pass 9%nat = 0 -> fst (selfTest hdr (polled value) selfTest0 h) = kSTkErrFail))).
Proof.
  split.
  - intros t selfTest0 h. unfold selfTest, bind.
    pose proof (writeRegisterByte_reads t (kRegSelfTest hdr)
                  (set_bit_field (to_uint8 selfTest0) (selfTest_start_bit hdr)) h) as Hwrite.
    destruct (writeRegisterByte t (kRegSelfTest hdr) _ h) as [err h1]. cbn [snd] in Hwrite.
    destruct (negb (err =? kSTkErrOk)); [unfold ret; cbn [snd]; lia|].
    pose proof (selfTestLoop_reads t 10
                  (set_bit_field (to_uint8 selfTest0) (selfTest_start_bit hdr)) h1) as Hloop.
    destruct (selfTestLoop hdr t 10 _ h1) as [[err'|v] h2]; unfold ret; cbn [snd] in *; lia.
  - intros value selfTest0 h reg inProgress pass start.
    set (value0 := set_bit_field (to_uint8 selfTest0) (selfTest_start_bit hdr)).
    set (h1 := h ++ [start]).
    assert (Hcount : count_reads h1 = count_reads h)
      by (unfold h1, start; now rewrite count_reads_write).
    assert (Hh1 : forall rest, h1 ++ rest = h ++ start :: rest)
      by (intros rest; unfold h1; now rewrite <- app_assoc).
    assert (Hcall : selfTest hdr (polled value) selfTest0 h
                    = (let (r, h2) := selfTestLoop hdr (polled value) 10 value0 h1 in
                       (match r with
                        | inl err => err
                        | inr v => if bit_field v (selfTest_pass_bit hdr) =? 1
                                   then kSTkErrOk else kSTkErrFail
                        end, h2))).
    { unfold selfTest, bind. rewrite writeRegisterByte_polled.
      change (negb (kSTkErrOk =? kSTkErrOk)) with false. cbv iota.
      unfold h1, start, value0.
      destruct (selfTestLoop hdr (polled value) 10 _ _) as [[err|v] h2]; reflexivity. }
    destruct (selfTestLoop_polled value 10 value0 h1) as [Hok Hfail].
    rewrite Hcount in Hok, Hfail. split; [|split].
    + intros Hbit. unfold value0, bit_field, set_bit_field.
      rewrite Z.lor_spec, Z.shiftl_spec by exact Hbit.
      rewrite Z.sub_diag. cbn [Z.testbit Z.odd]. now rewrite orb_true_r.
    + intros k Hk Hbefore Hzero. rewrite Hcall, (Hok k Hk Hbefore Hzero). now rewrite Hh1.
    + intros Hnever.
      assert (Hrun : selfTest hdr (polled value) selfTest0 h
                     = (if pass 9%nat =? 1 then kSTkErrOk else kSTkErrFail,
                        h ++ start :: concat (repeat (selfTest_poll hdr) 10)))
        by (rewrite Hcall, (Hfail Hnever); now rewrite Hh1).
      split; [exact Hrun|]. intros Hpass. rewrite Hrun, Hpass. reflexivity.
Qed.

End Polling.

(** The scenario of the spec: five samples, and polls that read 3, 2, 1, 0.
    The call returns [kSTkErrOk] after the fourth poll. *)
Lemma C7_calibrateImu_witness :
  calibrateImu otos_header (polled (fun n => nth n [3; 2; 1; 0] 9)) 5 true []
  = (kSTkErrOk,
     [I2cWrite kDefaultAddress [kRegImuCalib otos_header; 5] false; SleepMs 3]
       ++ concat (repeat (calib_poll otos_header ++ [SleepMs 3]) 3)
       ++ calib_poll otos_header).
Proof.
  destruct (C7_calibrateImu otos_header 5 ltac:(lia)) as (_ & _ & Hpolled).
  destruct (Hpolled (fun n => nth n [3; 2; 1; 0] 9) []) as [Hok _].
  apply (Hok 3%nat).
  - cbn. lia.
  - intros [|[|[|j]]] Hj; cbn; (discriminate || lia).
  - reflexivity.
Defined.

(** The scenario of the spec: every poll reads in-progress set and pass
    clear; after ten polls the call returns [kSTkErrFail]. *)
Lemma C8_selfTest_witness :
  selfTest otos_header (polled (fun _ => 0x02)) 0 []
  = (kSTkErrFail,
     I2cWrite kDefaultAddress [kRegSelfTest otos_header; 0x01] false
              :: concat (repeat (selfTest_poll otos_header) 10)).
Proof.
  destruct (C8_selfTest otos_header) as [_ Hpolled].
  destruct (Hpolled (fun _ => 0x02) 0 []) as (_ & _ & Hnever).
  apply Hnever. intros j Hj. cbn. discriminate.
Defined.

(** ** The pose codec *)

(** *** Bytes of a raw value *)

Lemma int16_of_bytes (z : Z) :
  -32768 <= z <= 32767 ->
  to_int16 (Z.lor (Z.shiftl (Z.land (Z.shiftr z 8) 0xFF) 8) (Z.land z 0xFF)) = z.
Proof.
  intros Hz.
  assert (Hbits : Z.lor (Z.shiftl (Z.land (Z.shiftr z 8) 0xFF) 8) (Z.land z 0xFF)
                  = Z.land z (Z.ones 16)).
  { change 0xFF with (Z.ones 8). apply Z.bits_inj'. intros n Hn.
    rewrite Z.lor_spec, Z.shiftl_spec, !Z.land_spec by exact Hn.
    destruct (Z.lt_ge_cases n 8) as [Hlow|Hhigh].
    - rewrite (Z.testbit_neg_r _ (n - 8)) by lia.
      rewrite (Z.ones_spec_low 8 n), (Z.ones_spec_low 16 n) by lia. reflexivity.
    - rewrite Z.shiftr_spec by lia.
      replace (n - 8 + 8) with n by ring.
      rewrite (Z.ones_spec_high 8 n) by lia. rewrite andb_false_r, orb_false_r.
      destruct (Z.lt_ge_cases n 16).
      + rewrite (Z.ones_spec_low 8 (n - 8)), (Z.ones_spec_low 16 n) by lia. reflexivity.
      + rewrite (Z.ones_spec_high 8 (n - 8)), (Z.ones_spec_high 16 n) by lia. reflexivity. }
  rewrite Hbits, Z.land_ones by lia. unfold to_int16.
  change (2 ^ 16) with 65536. pose proof (Z.mod_pos_bound z 65536 ltac:(lia)).
  Z.div_mod_to_equations. lia.
Qed.

Lemma to_int16_range (z : Z) : -32768 <= to_int16 z <= 32767.
Proof.
  unfold to_int16. pose proof (Z.mod_pos_bound (z + 32768) 65536 ltac:(lia)). lia.
Qed.

(** The conversions of [poseToRegs] stay within [int16_t] where they are
    defined. *)
Lemma float_to_signed_16_range {F} `{FloatArith F} (x : F) (z : Z) :
  float_to_signed 16 x = Some z -> -32768 <= z <= 32767.
Proof.
  unfold float_to_signed. destruct (f_trunc x) as [z'|]; [|discriminate].
  destruct ((- 2 ^ (16 - 1) <=? z') && (z' <? 2 ^ (16 - 1))) eqn:Hfits; [|discriminate].
  intros [= <-]. apply andb_prop in Hfits. destruct Hfits as [Hlow Hhigh].
  apply Z.leb_le in Hlow. apply Z.ltb_lt in Hhigh.
  change (2 ^ (16 - 1)) with 32768 in *. lia.
Qed.

(** *** Negative raw values *)

(** Rounding to nearest even does not look at the sign, so the operations
    of the round trip commute with the change of sign. *)
Lemma binary_round_aux_opp (sx : bool) (mx ex : Z) (lx : location) :
  binary_round_aux Binary32.prec Binary32.emax (negb sx) mx ex lx
  = SFopp (binary_round_aux Binary32.prec Binary32.emax sx mx ex lx).
Proof.
  unfold binary_round_aux.
  destruct (shr_fexp _ _ mx ex lx) as [mrs' e'].
  destruct (shr_fexp _ _ _ e' loc_Exact) as [mrs'' e''].
  destruct (shr_m mrs''); [reflexivity| |reflexivity].
  destruct (e'' <=? _); reflexivity.
Qed.

Lemma xorb_negb_l (a b : bool) : xorb (negb a) b = negb (xorb a b).
Proof.
  now destruct a, b.
Qed.

Lemma f_mul_opp (x y : spec_float) : f_mul (SFopp x) y = SFopp (f_mul x y).
Proof.
  cbn [f_mul binary32]. unfold SFmul.
  destruct x as [sx|sx| |sx mx ex], y as [sy|sy| |sy my ey]; cbn [SFopp];
    rewrite ?xorb_negb_l; try reflexivity.
  apply binary_round_aux_opp.
Qed.

Lemma f_div_opp (x y : spec_float) : f_div (SFopp x) y = SFopp (f_div x y).
Proof.
  cbn [f_div binary32]. unfold SFdiv.
  destruct x as [sx|sx| |sx mx ex], y as [sy|sy| |sy my ey]; cbn [SFopp];
    rewrite ?xorb_negb_l; try reflexivity.
  destruct (SFdiv_core_binary _ _ _ _ _ _) as [[mz ez] lz].
  apply binary_round_aux_opp.
Qed.

Lemma f_of_int_opp (v : Z) : v <> 0 -> f_of_int (- v) = SFopp (f_of_int v).
Proof.
  intros Hv. destruct v as [|p|p]; [contradiction| |];
    cbn [f_of_int binary32 Z.opp]; unfold Binary32.of_int, binary_normalize, binary_round;
    destruct (shl_align p 0 _) as [mz ez].
  - apply (binary_round_aux_opp false).
  - apply (binary_round_aux_opp true).
Qed.

Lemma f_trunc_opp (x : spec_float) : f_trunc (SFopp x) = option_map Z.opp (f_trunc x).
Proof.
  destruct x as [s|s| |s m e]; cbn; try reflexivity.
  f_equal. destruct s; cbn [negb cond_Zopp]; lia.
Qed.

Lemma reencoded_opp (v : Z) (s t u : spec_float) :
  v <> 0 -> reencoded (- v) s t u = SFopp (reencoded v s t u).
Proof.
  intros Hv. unfold reencoded.
  now rewrite f_of_int_opp, !f_mul_opp, f_div_opp.
Qed.

(** *** All raw values *)

Lemma all_from_spec (f : Z -> bool) (bits : nat) :
  forall base,
    all_from bits base f = true ->
    forall v, base <= v < base + 2 ^ Z.of_nat bits -> f v = true.
Proof.
  induction bits as [|bits IH]; intros base Hall v Hv.
  - cbn in Hv. assert (v = base) by lia. subst v. exact Hall.
  - cbn [all_from] in Hall. apply andb_prop in Hall. destruct Hall as [Hlow Hhigh].
    rewrite Nat2Z.inj_succ, Z.pow_succ_r in Hv by lia.
    destruct (Z.lt_ge_cases v (base + 2 ^ Z.of_nat bits)).
    + apply (IH base Hlow). lia.
    + apply (IH _ Hhigh). lia.
Qed.

(** Where the check succeeds, every raw value of [int16_t] has a defined
    conversion back and comes back within one unit. *)
Lemma roundtrip_checked_spec (s t u : spec_float) (v : Z) :
  roundtrip_checked s t u = true ->
  -32768 <= v <= 32767 ->
  exists v',
    float_to_signed 16 (reencoded v s t u) = Some v' /\
    -32768 <= v' <= 32767 /\
    Z.abs (v' - v) <= 1.
Proof.
  unfold roundtrip_checked. intros Hchecked Hv.
  apply andb_prop in Hchecked. destruct Hchecked as [Hall Hmin].
  assert (Hpos : forall w, 0 <= w <= 32767 ->
                   exists w', f_trunc (reencoded w s t u) = Some w' /\
                              Z.abs w' <= 32767 /\ Z.abs (w' - w) <= 1).
  { intros w Hw. pose proof (all_from_spec _ _ _ Hall w) as Hback.
    change (2 ^ Z.of_nat 15) with 32768 in Hback. specialize (Hback ltac:(lia)).
    unfold comes_back in Hback.
    destruct (f_trunc (reencoded w s t u)) as [w'|]; [|discriminate].
    apply andb_prop in Hback. destruct Hback as [Hrange Hnear].
    apply Z.leb_le in Hrange, Hnear. eauto. }
  assert (Hfits : forall z, -32768 <= z <= 32767 ->
                            (- 2 ^ (16 - 1) <=? z) && (z <? 2 ^ (16 - 1)) = true).
  { intros z Hz. change (2 ^ (16 - 1)) with 32768.
    apply andb_true_intro. split; [apply Z.leb_le | apply Z.ltb_lt]; lia. }
  destruct (Z.eq_dec v (-32768)) as [-> | Hnotmin].
  - destruct (float_to_signed 16 (reencoded (-32768) s t u)) as [v'|] eqn:Hconv;
      [|discriminate].
    apply Z.leb_le in Hmin. exists v'. split; [reflexivity|]. split; [|exact Hmin].
    exact (float_to_signed_16_range _ _ Hconv).
  - destruct (Z.lt_ge_cases v 0) as [Hneg | Hnonneg].
    + destruct (Hpos (- v) ltac:(lia)) as (w' & Htrunc & Hrange & Hnear).
      exists (- w'). unfold float_to_signed.
      replace v with (- - v) at 1 by lia.
      rewrite reencoded_opp, f_trunc_opp, Htrunc by lia. cbn [option_map].
      rewrite Hfits by lia. repeat split; lia.
    + destruct (Hpos v ltac:(lia)) as (w' & Htrunc & Hrange & Hnear).
      exists w'. unfold float_to_signed. rewrite Htrunc, Hfits by lia.
      repeat split; lia.
Qed.

(** The check, run in binary32 on the two scales of the header and the two
    unit factors that go with each. *)
Lemma meters_checked :
  roundtrip_checked (kInt16ToMeter otos_header) (kMeterToInt16 otos_header) (f_lit 1) = true.
Proof.
  vm_compute. reflexivity.
Qed.

Lemma inches_checked :
  roundtrip_checked (kInt16ToMeter otos_header) (kMeterToInt16 otos_header)
                    (kMeterToInch otos_header) = true.
Proof.
  vm_compute. reflexivity.
Qed.

Lemma radians_checked :
  roundtrip_checked (kInt16ToRad otos_header) (kRadToInt16 otos_header) (f_lit 1) = true.
Proof.
  vm_compute. reflexivity.
Qed.

Lemma degrees_checked :
  roundtrip_checked (kInt16ToRad otos_header) (kRadToInt16 otos_header)
                    (kRadianToDegree otos_header) = true.
Proof.
  vm_compute. reflexivity.
Qed.

(** *** The round trip *)



(* ================================================================= *)
(** * Part III: more of the code                                      *)
(* ================================================================= *)

(** ** The transfers of utils.cpp *)

Lemma count_writes_app (h1 h2 : Trace) :
  count_writes (h1 ++ h2) = (count_writes h1 + count_writes h2)%nat.
Proof.
  unfold count_writes. now rewrite filter_app, length_app.
Qed.

(** [ping], [readRegisterByte], [writeRegisterByte] and
    [writeRegisterRegionAddress] return [kSTkErrOk], [kSTkErrFail] or
    [kSTkErrBusNotInit], whatever the transport answers: never a positive
    code, never [kSTkErrBusNullBuffer]. *)
Theorem byte_transfers_return_three_codes (t : Transport) (h : Trace) :
  byte_transfer_code (fst (ping t h)) /\
  (forall devReg dataToRead0,
      byte_transfer_code (fst (fst (readRegisterByte t devReg dataToRead0 h)))) /\
  (forall devReg dataToWrite,
      byte_transfer_code (fst (writeRegisterByte t devReg dataToWrite h))) /\
  (forall devReg regLength data length,
      byte_transfer_code (fst (writeRegisterRegionAddress t devReg regLength data length h))).
Proof.
  unfold byte_transfer_code, ping, readRegisterByte, writeRegisterByte,
    writeRegisterRegionAddress, bind, ret, bus_write, bus_read.
  repeat split; intros; destruct (negb (i2c_port t)); cbn [fst]; auto.
  - destruct (_ >=? 0); auto.
  - destruct (_ <? 0); cbn [fst]; auto.
    destruct (i2c_read_blocking t _ kDefaultAddress 1 false) as [result bytes]. cbn [fst].
    destruct (result =? 1); auto.
  - destruct (_ =? 2); auto.
  - destruct (_ =? regLength + length); auto.
Qed.

(** The three ways [readRegisterByte] goes on a session with a port.  A
    refused address write ends it before any read, with [dataToRead] as it
    was.  After an accepted address write, the read of one byte decides:
    any count but 1 (an error, or no byte) is [kSTkErrFail]; a count of 1
    is [kSTkErrOk] with the byte read. *)
Theorem readRegisterByte_outcomes (t : Transport) (devReg dataToRead0 : Z) (h : Trace) :
  i2c_port t = true ->
  let sent := i2c_write_blocking t h kDefaultAddress [devReg] true in
  let h1 := h ++ [I2cWrite kDefaultAddress [devReg] true] in
  let got := i2c_read_blocking t h1 kDefaultAddress 1 false in
  (sent < 0 ->
   readRegisterByte t devReg dataToRead0 h = ((kSTkErrFail, dataToRead0), h1)) /\
  (0 <= sent -> fst got <> 1 ->
   fst (fst (readRegisterByte t devReg dataToRead0 h)) = kSTkErrFail /\
   snd (readRegisterByte t devReg dataToRead0 h) = h1 ++ [I2cRead kDefaultAddress 1 false]) /\
  (0 <= sent -> fst got = 1 ->
   readRegisterByte t devReg dataToRead0 h
   = ((kSTkErrOk, to_uint8 (hd 0 (snd got))), h1 ++ [I2cRead kDefaultAddress 1 false])).
Proof.
  intros Hport sent h1 got.
  unfold readRegisterByte, bind, ret, bus_write, bus_read. rewrite Hport. cbn [negb].
  fold sent. fold h1. repeat split.
  - intros Hsent. destruct (Z.ltb_spec sent 0); [reflexivity | lia].
  - destruct (Z.ltb_spec sent 0); [lia|]. fold got. destruct got as [result bytes].
    cbn [fst] in *. destruct (Z.eqb_spec result 1); [contradiction | reflexivity].
  - destruct (Z.ltb_spec sent 0); [lia|]. fold got. now destruct got.
  - intros Hsent Hgot. destruct (Z.ltb_spec sent 0); [lia|]. fold got.
    destruct got as [result bytes]. cbn [fst snd] in *. subst result. reflexivity.
Qed.

(** A device that refuses the address, and one that delivers a byte. *)
Lemma readRegisterByte_outcomes_witness :
  readRegisterByte deaf 0x1F 7 [] = ((kSTkErrFail, 7), [I2cWrite kDefaultAddress [0x1F] true]) /\
  readRegisterByte ideal 0x1F 7 []
  = ((kSTkErrOk, 0xA5),
     [I2cWrite kDefaultAddress [0x1F] true; I2cRead kDefaultAddress 1 false]).
Proof.
  split.
  - apply (readRegisterByte_outcomes deaf 0x1F 7 [] eq_refl). cbn. lia.
  - apply (readRegisterByte_outcomes ideal 0x1F 7 [] eq_refl); cbn; lia.
Defined.

(** [writeRegisterByte] is [writeRegisterRegion] with a payload of one
    byte: the same transaction and the same code, on every transport. *)
Theorem writeRegisterByte_is_a_region_of_one (t : Transport) (devReg dataToWrite : Z) (h : Trace) :
  writeRegisterByte t devReg dataToWrite h = writeRegisterRegion t devReg [dataToWrite] 1 h.
Proof.
  reflexivity.
Qed.

(** [writeRegisterRegion] sends the register address and the whole payload
    as one transaction that releases the bus, whatever the length (no
    chunks of 32 on this side), and succeeds only when the transport took
    all of the [1 + length] bytes. *)
Theorem writeRegisterRegion_is_one_transaction (t : Transport) (devReg : Z) (data : list Z)
        (h : Trace) :
  i2c_port t = true ->
  let sent := i2c_write_blocking t h kDefaultAddress (devReg :: data) false in
  writeRegisterRegion t devReg data (Z.of_nat (length data)) h
  = (if sent =? 1 + Z.of_nat (length data) then kSTkErrOk else kSTkErrFail,
     h ++ [I2cWrite kDefaultAddress (devReg :: data) false]).
Proof.
  intros Hport sent.
  unfold writeRegisterRegion, writeRegisterRegionAddress, bind, ret, bus_write.
  rewrite Hport. cbn [negb Z.gtb Z.compare Z.to_nat Pos.to_nat Pos.iter_op firstn app].
  rewrite Nat2Z.id, firstn_all. reflexivity.
Qed.

(** Forty bytes go out in one write of forty-one. *)
Lemma writeRegisterRegion_is_one_transaction_witness :
  writeRegisterRegion ideal 0x10 (repeat 0x33 40) 40 []
  = (kSTkErrOk, [I2cWrite kDefaultAddress (0x10 :: repeat 0x33 40) false]).
Proof.
  exact (writeRegisterRegion_is_one_transaction ideal 0x10 (repeat 0x33 40) [] eq_refl).
Defined.

(** ** Region reads: edges, errors and the shape of the traffic *)

(** The checks before the loop, and the empty region.  A null port is
    reported before a null buffer is; both leave the bus and [readBytes]
    alone.  A region of no byte succeeds without a transaction and sets
    [readBytes] to zero. *)
Theorem region_read_edges (t : Transport) (fuel : nat) (devReg : list Z)
        (numBytes readBytes0 : Z) (h : Trace) :
  (i2c_port t = false ->
   forall data,
     readRegisterRegionAnyAddress t fuel devReg data numBytes readBytes0 h
     = Some ((kSTkErrBusNotInit, readBytes0, data), h)) /\
  (i2c_port t = true ->
   readRegisterRegionAnyAddress t fuel devReg None numBytes readBytes0 h
   = Some ((kSTkErrBusNullBuffer, readBytes0, None), h) /\
   forall buf,
     readRegisterRegionAnyAddress t fuel devReg (Some buf) 0 readBytes0 h
     = Some ((kSTkErrOk, 0, Some buf), h)).
Proof.
  unfold readRegisterRegionAnyAddress. split; intros ->; cbn [negb]; [reflexivity|].
  split; [reflexivity|]. intros buf. now rewrite readChunks_nothing_left.
Qed.

Lemma region_read_edges_witness :
  readRegisterRegionAnyAddress no_port 0 [0x20] None 6 99 []
  = Some ((kSTkErrBusNotInit, 99, None), []) /\
  readRegisterRegionAnyAddress ideal 0 [0x20] None 6 99 []
  = Some ((kSTkErrBusNullBuffer, 99, None), []).
Proof.
  split.
  - exact (proj1 (region_read_edges no_port 0 [0x20] 6 99 []) eq_refl None).
  - exact (proj1 (proj2 (region_read_edges ideal 0 [0x20] 6 99 []) eq_refl)).
Defined.

(** What the loop puts on the bus, on any transport and for any way it
    ends: the address write if there is a byte to read, then reads only. *)
Lemma readChunks_traffic (t : Transport) (fuel : nat) :
  forall devReg (first : bool) numBytes data pos h exit h',
    readChunks t fuel devReg first numBytes data pos h = Some (exit, h') ->
    exists reads,
      h' = h ++ (if first && (numBytes >? 0)
                 then [I2cWrite kDefaultAddress devReg true] else [])
             ++ reads /\
      Forall chunk_request reads.
Proof.
  induction fuel as [|fuel IH]; intros devReg first numBytes data pos h exit h';
    cbn [readChunks]; destruct (Z.gtb_spec numBytes 0) as [Hpos|Hle]; try discriminate.
  - intros [= <- <-]. exists []. rewrite andb_false_r, !app_nil_r. split; constructor.
  - rewrite andb_true_r, nChunk_value by lia.
    set (h1 := if first then h ++ [I2cWrite kDefaultAddress devReg true] else h).
    assert (Hh1 : forall rest,
               h1 ++ rest
               = h ++ (if first then [I2cWrite kDefaultAddress devReg true] else []) ++ rest).
    { intros rest. unfold h1. destruct first; [now rewrite <- app_assoc | reflexivity]. }
    assert (Hfirst : exists result,
               (if first then bus_write t kDefaultAddress devReg true h else (0, h))
               = (result, h1)) by (unfold h1; destruct first; eexists; reflexivity).
    destruct Hfirst as [result ->].
    destruct (result <? 0).
    + intros [= <- <-]. exists []. rewrite <- (Hh1 []), !app_nil_r. split; constructor.
    + unfold bus_read.
      destruct (i2c_read_blocking t h1 kDefaultAddress (Z.min numBytes 32)
                  (numBytes >? Z.min numBytes 32)) as [nReturned bytes].
      assert (Hreq : chunk_request (I2cRead kDefaultAddress (Z.min numBytes 32)
                                            (numBytes >? Z.min numBytes 32))).
      { exists (Z.min numBytes 32), (numBytes >? Z.min numBytes 32).
        unfold kDefaultBufferChunk. repeat split; lia. }
      destruct (nReturned <? 0).
      * intros [= <- <-]. exists [I2cRead kDefaultAddress (Z.min numBytes 32)
                                          (numBytes >? Z.min numBytes 32)].
        rewrite Hh1. split; [reflexivity | now constructor].
      * intros Hrec. apply IH in Hrec. destruct Hrec as (reads & -> & Hreads).
        exists (I2cRead kDefaultAddress (Z.min numBytes 32) (numBytes >? Z.min numBytes 32)
                        :: reads).
        cbn [andb app]. rewrite <- app_assoc, Hh1. cbn [app].
        split; [reflexivity | now constructor].
  - intros [= <- <-]. exists []. rewrite andb_false_r, !app_nil_r. split; constructor.
Qed.

(** Whenever a region read returns, on any transport, it has written the
    register address once, before anything else, if there was a byte to
    read, and after that it has only read: each read asks for 1 to 32 bytes
    and holds the bus only when it asks for 32. *)
Theorem region_read_traffic (t : Transport) (fuel : nat) (devReg : list Z) (buf : list Z)
        (numBytes readBytes0 : Z) (h : Trace) r h' :
  i2c_port t = true ->
  readRegisterRegionAnyAddress t fuel devReg (Some buf) numBytes readBytes0 h = Some (r, h') ->
  exists reads,
    h' = h ++ (if numBytes >? 0 then [I2cWrite kDefaultAddress devReg true] else []) ++ reads /\
    Forall chunk_request reads /\
    count_writes h' = (count_writes h + if numBytes >? 0 then 1 else 0)%nat.
Proof.
  intros Hport. unfold readRegisterRegionAnyAddress. rewrite Hport. cbn [negb].
  destruct (readChunks t fuel devReg true numBytes buf 0 h) as [[exit h1]|] eqn:Hloop;
    [|discriminate].
  apply readChunks_traffic in Hloop. destruct Hloop as (reads & -> & Hreads).
  cbn [andb] in *. intros Hr.
  assert (h' = h ++ (if numBytes >? 0 then [I2cWrite kDefaultAddress devReg true] else [])
                 ++ reads) as -> by (destruct exit; now inversion Hr).
  exists reads. repeat split; [exact Hreads|].
  rewrite !count_writes_app.
  assert (Hnone : count_writes reads = 0%nat).
  { clear - Hreads. induction Hreads as [|e reads (len & nostop & -> & _) _ IH];
      [reflexivity | exact IH]. }
  rewrite Hnone. destruct (numBytes >? 0); cbn; lia.
Qed.

Lemma region_read_traffic_witness :
  exists reads,
    [I2cWrite kDefaultAddress [0x20] true;
     I2cRead kDefaultAddress 4 false; I2cRead kDefaultAddress 2 false]
    = [] ++ (if 4 >? 0 then [I2cWrite kDefaultAddress [0x20] true] else []) ++ reads /\
    Forall chunk_request reads /\
    count_writes [I2cWrite kDefaultAddress [0x20] true;
                  I2cRead kDefaultAddress 4 false; I2cRead kDefaultAddress 2 false]
    = (count_writes [] + if 4 >? 0 then 1 else 0)%nat.
Proof.
  exact (region_read_traffic two_at_a_time 2 [0x20] [0; 0; 0; 0] 4 0 [] _ _
                             eq_refl eq_refl).
Defined.

(** A hard error costs the count of the bytes already read.  Whenever a
    region read returns [kSTkErrFail], [readBytes] is zero, also when whole
    chunks had been stored in the buffer before the failing read; and when
    it returns [kSTkErrOk], [readBytes] is the count asked for.  A refused
    address write is [kSTkErrFail] with no read attempted. *)
Theorem region_read_counts (t : Transport) (fuel : nat) (devReg : list Z) (buf : list Z)
        (numBytes readBytes0 : Z) (h : Trace) :
  i2c_port t = true ->
  (forall err readBytes data h',
      readRegisterRegionAnyAddress t fuel devReg (Some buf) numBytes readBytes0 h
      = Some ((err, readBytes, data), h') ->
      (err = kSTkErrFail -> readBytes = 0) /\
      (err = kSTkErrOk -> readBytes = numBytes)) /\
  (0 < numBytes ->
   i2c_write_blocking t h kDefaultAddress devReg true < 0 ->
   forall fuel',
     readRegisterRegionAnyAddress t (S fuel') devReg (Some buf) numBytes readBytes0 h
     = Some ((kSTkErrFail, 0, Some buf), h ++ [I2cWrite kDefaultAddress devReg true])).
Proof.
  intros Hport. unfold readRegisterRegionAnyAddress. rewrite Hport. cbn [negb]. split.
  - intros err readBytes data h'.
    destruct (readChunks t fuel devReg true numBytes buf 0 h) as [[[e b|nb b] h1]|] eqn:Hloop;
      [| |discriminate].
    + intros [= <- <- _ _]. split; [reflexivity|].
      intros ->. exfalso. clear - Hloop. revert Hloop. generalize true, 0, buf, numBytes, h.
      induction fuel as [|fuel IH]; intros first pos data nb h0; cbn [readChunks];
        destruct (nb >? 0); try discriminate.
      destruct (if first then bus_write t kDefaultAddress devReg true h0 else (0, h0))
        as [result h2].
      destruct (result <? 0); [discriminate|].
      destruct (bus_read t kDefaultAddress _ _ h2) as [[nReturned bytes] h3].
      destruct (nReturned <? 0); [discriminate|]. apply IH.
    + intros [= <- <- _ _].
      destruct (Z.eqb_spec (size_t_wrap (numBytes - nb)) numBytes) as [Heq|Hne].
      * split; [discriminate | now intros _].
      * split; discriminate.
  - intros Hpos Hrefused fuel'. cbn [readChunks].
    destruct (Z.gtb_spec numBytes 0); [|lia].
    unfold bus_write. destruct (Z.ltb_spec (i2c_write_blocking t h kDefaultAddress devReg true) 0);
      [reflexivity | lia].
Qed.

(** Forty bytes from a device that breaks after the first chunk: 32 bytes
    are in the buffer, and [readBytes] says zero. *)
Lemma region_read_counts_witness :
  readRegisterRegionAnyAddress breaks_after_a_chunk 2 [0x20] (Some (repeat 0 40)) 40 99 []
  = Some ((kSTkErrFail, 0, Some (repeat 0x5A 32 ++ repeat 0 8)),
          [I2cWrite kDefaultAddress [0x20] true;
           I2cRead kDefaultAddress 32 true; I2cRead kDefaultAddress 8 false]) /\
  (kSTkErrFail = kSTkErrFail -> 0 = 0).
Proof.
  assert (Hrun : readRegisterRegionAnyAddress breaks_after_a_chunk 2 [0x20]
                   (Some (repeat 0 40)) 40 99 []
                 = Some ((kSTkErrFail, 0, Some (repeat 0x5A 32 ++ repeat 0 8)),
                         [I2cWrite kDefaultAddress [0x20] true;
                          I2cRead kDefaultAddress 32 true; I2cRead kDefaultAddress 8 false]))
    by (vm_compute; reflexivity).
  split; [exact Hrun|].
  exact (proj1 (proj1 (region_read_counts breaks_after_a_chunk 2 [0x20] (repeat 0 40) 40 99 []
                         eq_refl) _ _ _ _ Hrun)).
Defined.

(** ** The driver on failing transports *)

Lemma readRegisterByte_code (t : Transport) (devReg dataToRead0 : Z) (h : Trace) :
  byte_transfer_code (fst (fst (readRegisterByte t devReg dataToRead0 h))).
Proof.
  unfold byte_transfer_code, readRegisterByte, bind, ret, bus_write, bus_read.
  destruct (negb (i2c_port t)); cbn [fst]; auto.
  destruct (_ <? 0); cbn [fst]; auto.
  destruct (i2c_read_blocking t _ kDefaultAddress 1 false) as [result bytes]. cbn [fst].
  destruct (result =? 1); auto.
Qed.

Lemma writeRegisterByte_code (t : Transport) (devReg dataToWrite : Z) (h : Trace) :
  byte_transfer_code (fst (writeRegisterByte t devReg dataToWrite h)).
Proof.
  unfold byte_transfer_code, writeRegisterByte, bind, ret, bus_write.
  destruct (negb (i2c_port t)); cbn [fst]; auto.
  destruct (_ =? 2); auto.
Qed.

Lemma region_read_ok_count (t : Transport) fuel devReg data numBytes readBytes0 h
      readBytes data' h' :
  readRegisterRegionAnyAddress t fuel devReg data numBytes readBytes0 h
  = Some ((kSTkErrOk, readBytes, data'), h') ->
  readBytes = numBytes.
Proof.
  unfold readRegisterRegionAnyAddress.
  destruct (negb (i2c_port t)); [discriminate|].
  destruct data as [buf|]; [|discriminate].
  destruct (readChunks t fuel devReg true numBytes buf 0 h) as [[[e b|nb b] h1]|] eqn:Hloop;
    [| |discriminate].
  - intros [= He _ _ _]. exfalso. clear - Hloop He. revert Hloop.
    generalize true, 0, buf, numBytes, h.
    induction fuel as [|fuel IH]; intros first pos data nb h0; cbn [readChunks];
      destruct (nb >? 0); try discriminate.
    destruct (if first then bus_write t kDefaultAddress devReg true h0 else (0, h0))
      as [result h2].
    destruct (result <? 0); [intros [= <- _ _]; discriminate|].
    destruct (bus_read t kDefaultAddress _ _ h2) as [[nReturned bytes] h3].
    destruct (nReturned <? 0); [intros [= <- _ _]; discriminate|]. apply IH.
  - destruct (Z.eqb_spec (size_t_wrap (numBytes - nb)) numBytes) as [Heq|Hne].
    + now intros [= <- _ _].
    + discriminate.
Qed.

Section FailingTransports.

Context {F : Type} `{FloatArith F}.
Variable hdr : OtosHeader F.

(** The check of the byte count in [readPoseRegs] and in [getVersionInfo]
    never decides: on every transport the code these return is the code of
    the region read; the pose, or the two versions, are decoded from the
    buffer when that code is [kSTkErrOk], and left as they were otherwise. *)
Theorem region_getters_pass_the_code_on (t : Transport) (d : sfeQwiicOtos F) (fuel : nat) (h : Trace) :
  (forall reg pose0 rawToXY rawToH err pose h',
      readPoseRegs t d fuel reg pose0 rawToXY rawToH h = Some ((err, pose), h') ->
      exists readBytes data,
        readRegisterRegion t fuel reg (Some (repeat 0 6)) 6 0 h
        = Some ((err, readBytes, data), h') /\
        pose = if err =? kSTkErrOk
               then regsToPose d (match data with Some l => l | None => [] end) rawToXY rawToH
               else pose0) /\
  (forall hw0 fw0 err hw fw h',
      getVersionInfo hdr t fuel hw0 fw0 h = Some ((err, hw, fw), h') ->
      exists readBytes data,
        readRegisterRegion t fuel (kRegHwVersion hdr) (Some [0; 0]) 2 0 h
        = Some ((err, readBytes, data), h') /\
        (hw, fw) = if err =? kSTkErrOk
                   then (nth 0 (match data with Some l => l | None => [] end) 0,
                         nth 1 (match data with Some l => l | None => [] end) 0)
                   else (hw0, fw0)).
Proof.
  split.
  - intros reg pose0 rawToXY rawToH err pose h'. unfold readPoseRegs, bindO, retO.
    destruct (readRegisterRegion t fuel reg (Some (repeat 0 6)) 6 0 h)
      as [[[[e rb] data] h1]|] eqn:Hregion; [|discriminate].
    destruct (Z.eqb_spec e kSTkErrOk) as [->|Hne]; cbn [negb].
    + apply region_read_ok_count in Hregion as Hcount. subst rb. cbn [Z.eqb Pos.eqb negb].
      intros [= <- <- <-]. exists 6, data. now split.
    + intros [= <- <- <-]. exists rb, data. split; [reflexivity|].
      destruct (Z.eqb_spec e kSTkErrOk); [contradiction | reflexivity].
  - intros hw0 fw0 err hw fw h'. unfold getVersionInfo, bindO, retO.
    destruct (readRegisterRegion t fuel (kRegHwVersion hdr) (Some [0; 0]) 2 0 h)
      as [[[[e rb] data] h1]|] eqn:Hregion; [|discriminate].
    destruct (Z.eqb_spec e kSTkErrOk) as [->|Hne]; cbn [negb].
    + apply region_read_ok_count in Hregion as Hcount. subst rb. cbn [Z.eqb Pos.eqb negb].
      intros [= <- <- <- <-]. exists 2, data. now split.
    + intros [= <- <- <- <-]. exists rb, data. split; [reflexivity|].
      destruct (Z.eqb_spec e kSTkErrOk); [contradiction | reflexivity].
Qed.

(** [isConnected] stops at a refused ping, without asking for the product
    identifier.  On a device that acknowledges it is [kSTkErrOk] exactly
    when the byte read equals [kProductId], after one ping, one address
    write and one read. *)
Theorem isConnected_outcomes :
  (forall t h,
      i2c_port t = true ->
      i2c_write_blocking t h kDefaultAddress [0] false < 0 ->
      isConnected hdr t h = (kSTkErrFail, h ++ [I2cWrite kDefaultAddress [0] false])) /\
  (forall value h,
      isConnected hdr (polled value) h
      = (if to_uint8 (value (count_reads h)) =? kProductId hdr
         then kSTkErrOk else kSTkErrFail,
         h ++ [I2cWrite kDefaultAddress [0] false;
               I2cWrite kDefaultAddress [kRegProductId hdr] true;
               I2cRead kDefaultAddress 1 false])).
Proof.
  split.
  - intros t h Hport Hrefused. unfold isConnected, ping, bind, ret, bus_write.
    rewrite Hport. cbn [negb].
    destruct (Z.geb_spec (i2c_write_blocking t h kDefaultAddress [0] false) 0); [lia|].
    reflexivity.
  - intros value h. unfold isConnected, bind.
    change (ping (polled value) h) with (kSTkErrOk, h ++ [I2cWrite kDefaultAddress [0] false]).
    cbv beta iota. change (negb (kSTkErrOk =? kSTkErrOk)) with false. cbv beta iota.
    rewrite readRegisterByte_polled, count_reads_write.
    change (negb (kSTkErrOk =? kSTkErrOk)) with false. cbv beta iota.
    rewrite <- app_assoc. cbn [app].
    destruct (to_uint8 (value (count_reads h)) =? kProductId hdr); reflexivity.
Qed.

(** [selfTest] and [calibrateImu] give up when the transport does not take
    both bytes of their first write: they return [kSTkErrFail] with that
    write alone on the bus, no delay and no poll. *)
Theorem polling_stops_at_a_refused_start (t : Transport) (h : Trace) :
  i2c_port t = true ->
  (forall selfTest0,
      let value := set_bit_field (to_uint8 selfTest0) (selfTest_start_bit hdr) in
      i2c_write_blocking t h kDefaultAddress [kRegSelfTest hdr; value] false <> 2 ->
      selfTest hdr t selfTest0 h
      = (kSTkErrFail, h ++ [I2cWrite kDefaultAddress [kRegSelfTest hdr; value] false])) /\
  (forall numSamples waitUntilDone,
      0 <= numSamples < 256 ->
      i2c_write_blocking t h kDefaultAddress [kRegImuCalib hdr; numSamples] false <> 2 ->
      calibrateImu hdr t numSamples waitUntilDone h
      = (kSTkErrFail, h ++ [I2cWrite kDefaultAddress [kRegImuCalib hdr; numSamples] false])).
Proof.
  intros Hport. split.
  - intros selfTest0 value Hrefused. unfold selfTest, writeRegisterByte, bind, ret, bus_write.
    rewrite Hport. cbn [negb]. fold value.
    destruct (Z.eqb_spec (i2c_write_blocking t h kDefaultAddress [kRegSelfTest hdr; value] false) 2);
      [contradiction | reflexivity].
  - intros numSamples waitUntilDone Hn Hrefused.
    unfold calibrateImu, writeRegisterByte, bind, ret, bus_write.
    assert (Hbyte : to_uint8 numSamples = numSamples) by (apply Z.mod_small; lia).
    rewrite Hport, Hbyte. cbn [negb].
    destruct (Z.eqb_spec (i2c_write_blocking t h kDefaultAddress
                            [kRegImuCalib hdr; numSamples] false) 2);
      [contradiction | reflexivity].
Qed.

Lemma selfTestLoop_code (t : Transport) (n : nat) :
  forall value h err,
    fst (selfTestLoop hdr t n value h) = inl err -> byte_transfer_code err.
Proof.
  induction n as [|n IH]; intros value h err; cbn [selfTestLoop].
  - discriminate.
  - unfold bind, delayMs, sleep_ms.
    pose proof (readRegisterByte_code t (kRegSelfTest hdr) value (h ++ [SleepMs 5])) as Hcode.
    destruct (readRegisterByte t (kRegSelfTest hdr) value (h ++ [SleepMs 5])) as [[e v] h1].
    cbn [fst] in Hcode.
    destruct (negb (e =? kSTkErrOk)); [now intros [= <-]|].
    destruct (bit_field v (selfTest_inProgress_bit hdr) =? 0); [discriminate|]. apply IH.
Qed.

Lemma calibrateImuLoop_code (t : Transport) (n : nat) :
  forall h err,
    fst (calibrateImuLoop hdr t n h) = Some err -> byte_transfer_code err.
Proof.
  induction n as [|n IH]; intros h err; cbn [calibrateImuLoop].
  - discriminate.
  - unfold bind.
    pose proof (readRegisterByte_code t (kRegImuCalib hdr) 0 h) as Hcode.
    destruct (readRegisterByte t (kRegImuCalib hdr) 0 h) as [[e v] h1]. cbn [fst] in Hcode.
    destruct (negb (e =? kSTkErrOk)); [now intros [= <-]|].
    destruct (v =? 0); [intros [= <-]; now left|]. apply IH.
Qed.

(** [isConnected], [selfTest] and [calibrateImu] return [kSTkErrOk],
    [kSTkErrFail] or [kSTkErrBusNotInit] on every transport, also when a
    polling loop runs out of attempts: there is no code for a time-out. *)
Theorem polling_returns_three_codes (t : Transport) (h : Trace) :
  byte_transfer_code (fst (isConnected hdr t h)) /\
  (forall selfTest0, byte_transfer_code (fst (selfTest hdr t selfTest0 h))) /\
  (forall numSamples waitUntilDone,
      byte_transfer_code (fst (calibrateImu hdr t numSamples waitUntilDone h))).
Proof.
  repeat split.
  - unfold isConnected, bind.
    assert (Hping : byte_transfer_code (fst (ping t h))).
    { unfold byte_transfer_code, ping, bind, ret, bus_write.
      destruct (negb (i2c_port t)); cbn [fst]; auto. destruct (_ >=? 0); auto. }
    destruct (ping t h) as [e h1]. cbn [fst] in Hping.
    destruct (negb (e =? kSTkErrOk)); [exact Hping|].
    pose proof (readRegisterByte_code t (kRegProductId hdr) 0 h1) as Hcode.
    destruct (readRegisterByte t (kRegProductId hdr) 0 h1) as [[e' v] h2]. cbn [fst] in Hcode.
    destruct (negb (e' =? kSTkErrOk)); [exact Hcode|].
    destruct (negb (v =? kProductId hdr)); [right; now left | now left].
  - intros selfTest0. unfold selfTest, bind.
    pose proof (writeRegisterByte_code t (kRegSelfTest hdr)
                  (set_bit_field (to_uint8 selfTest0) (selfTest_start_bit hdr)) h) as Hcode.
    destruct (writeRegisterByte t (kRegSelfTest hdr) _ h) as [e h1]. cbn [fst] in Hcode.
    destruct (negb (e =? kSTkErrOk)); [exact Hcode|].
    pose proof (selfTestLoop_code t 10
                  (set_bit_field (to_uint8 selfTest0) (selfTest_start_bit hdr)) h1) as Hloop.
    destruct (selfTestLoop hdr t 10 _ h1) as [[e'|v] h2]; cbn [fst ret].
    + now apply Hloop.
    + destruct (_ =? 1); [now left | right; now left].
  - intros numSamples waitUntilDone. unfold calibrateImu, bind.
    pose proof (writeRegisterByte_code t (kRegImuCalib hdr) (to_uint8 numSamples) h) as Hcode.
    destruct (writeRegisterByte t (kRegImuCalib hdr) _ h) as [e h1]. cbn [fst] in Hcode.
    destruct (negb (e =? kSTkErrOk)); [exact Hcode|].
    unfold delayMs, sleep_ms. destruct waitUntilDone; cbn [negb]; [|now left].
    pose proof (calibrateImuLoop_code t (Z.to_nat (to_uint8 numSamples)) (h1 ++ [SleepMs 3]))
      as Hloop.
    destruct (calibrateImuLoop hdr t _ (h1 ++ [SleepMs 3])) as [[e'|] h2]; cbn [fst ret].
    + now apply Hloop.
    + right; now left.
Qed.

(** With a null port nothing reaches the bus and nothing sleeps: every
    operation returns at once with the history as it was.  The code is
    [kSTkErrBusNotInit], except from the scalar getters, which make it
    [kSTkErrFail]. *)
Theorem null_port_touches_nothing (t : Transport) (d : sfeQwiicOtos F) (fuel : nat) (h : Trace) :
  i2c_port t = false ->
  ping t h = (kSTkErrBusNotInit, h) /\
  isConnected hdr t h = (kSTkErrBusNotInit, h) /\
  (forall selfTest0, selfTest hdr t selfTest0 h = (kSTkErrBusNotInit, h)) /\
  (forall numSamples waitUntilDone,
      calibrateImu hdr t numSamples waitUntilDone h = (kSTkErrBusNotInit, h)) /\
  resetTracking hdr t h = (kSTkErrBusNotInit, h) /\
  (forall status0, getStatus hdr t status0 h = ((kSTkErrBusNotInit, status0), h)) /\
  (forall scalar0, getLinearScalar hdr t scalar0 h = ((kSTkErrFail, scalar0), h)) /\
  (forall scalar0, getAngularScalar hdr t scalar0 h = ((kSTkErrFail, scalar0), h)) /\
  (forall hw0 fw0,
      getVersionInfo hdr t fuel hw0 fw0 h = Some ((kSTkErrBusNotInit, hw0, fw0), h)) /\
  (forall reg pose0 rawToXY rawToH,
      readPoseRegs t d fuel reg pose0 rawToXY rawToH h = Some ((kSTkErrBusNotInit, pose0), h)) /\
  (forall out0, getPosVelAcc hdr t d fuel out0 h = Some ((kSTkErrBusNotInit, out0), h)) /\
  (forall out0,
      getPosVelAccAndStdDev hdr t d fuel out0 h = Some ((kSTkErrBusNotInit, out0), h)) /\
  (forall reg pose xyToRaw hToRaw rawData,
      poseToRegs d pose xyToRaw hToRaw = Some rawData ->
      writePoseRegs t d reg pose xyToRaw hToRaw h = Some (kSTkErrBusNotInit, h)).
Proof.
  intros Hport.
  unfold isConnected, selfTest, calibrateImu, resetTracking, getStatus, getLinearScalar,
    getAngularScalar, getVersionInfo, readPoseRegs, getPosVelAcc, readPosVelAcc,
    getPosVelAccAndStdDev, writePoseRegs, writeRegisterRegion, writeRegisterRegionAddress,
    readRegisterRegion, readRegisterRegionAnyAddress, ping, readRegisterByte,
    writeRegisterByte, bind, bindO, lift, ret, retO.
  rewrite Hport. cbn [negb].
  repeat split; try reflexivity.
  intros reg pose xyToRaw hToRaw rawData ->. reflexivity.
Qed.

End FailingTransports.

Lemma isConnected_outcomes_witness :
  isConnected otos_header deaf [] = (kSTkErrFail, [I2cWrite kDefaultAddress [0] false]).
Proof.
  apply (proj1 (isConnected_outcomes otos_header) deaf [] eq_refl). cbn. lia.
Defined.

Lemma polling_stops_at_a_refused_start_witness :
  selfTest otos_header deaf 0 []
  = (kSTkErrFail, [I2cWrite kDefaultAddress [kRegSelfTest otos_header; 0x01] false]) /\
  calibrateImu otos_header deaf 200 true []
  = (kSTkErrFail, [I2cWrite kDefaultAddress [kRegImuCalib otos_header; 200] false]).
Proof.
  destruct (polling_stops_at_a_refused_start otos_header deaf [] eq_refl) as [Hself Hcalib].
  split.
  - apply (Hself 0). cbn. lia.
  - apply (Hcalib 200 true); cbn; lia.
Defined.

Lemma region_getters_pass_the_code_on_witness :
  exists readBytes data,
    readRegisterRegion breaks_after_a_chunk 1 0x20 (Some (repeat 0 6)) 6 0
                       [I2cRead kDefaultAddress 1 false]
    = Some ((kSTkErrFail, readBytes, data),
            [I2cRead kDefaultAddress 1 false;
             I2cWrite kDefaultAddress [0x20] true; I2cRead kDefaultAddress 6 false]) /\
    zero_pose (F := spec_float)
    = if kSTkErrFail =? kSTkErrOk
      then regsToPose (sfeQwiicOtos_new otos_header)
                      (match data with Some l => l | None => [] end)
                      (kInt16ToMeter otos_header) (kInt16ToRad otos_header)
      else zero_pose.
Proof.
  exact (proj1 (region_getters_pass_the_code_on otos_header breaks_after_a_chunk
                  (sfeQwiicOtos_new otos_header) 1 [I2cRead kDefaultAddress 1 false])
               0x20 zero_pose (kInt16ToMeter otos_header) (kInt16ToRad otos_header)
               kSTkErrFail zero_pose _ eq_refl).
Defined.

Lemma null_port_touches_nothing_witness :
  selfTest otos_header no_port 0 [SleepMs 1] = (kSTkErrBusNotInit, [SleepMs 1]).
Proof.
  destruct (null_port_touches_nothing otos_header no_port (sfeQwiicOtos_new otos_header) 0
              [SleepMs 1] eq_refl) as (_ & _ & Hself & _).
  exact (Hself 0).
Defined.

(** ** Units, scalars and raw values *)

Section UnitSetters.

Context {F : Type} `{FloatArith F}.
Variable hdr : OtosHeader F.

(** The two unit setters: a getter returns what its setter stored; the
    linear setter leaves the angular unit and factor alone, and the other
    way round; the two commute; and setting the same unit twice is setting
    it once. *)
Theorem unit_setters_algebra (d : sfeQwiicOtos F)
        (l : sfe_otos_linear_unit_t) (a : sfe_otos_angular_unit_t) :
  getLinearUnit (setLinearUnit hdr d l) = l /\
  getAngularUnit (setAngularUnit hdr d a) = a /\
  (_angularUnit (setLinearUnit hdr d l) = _angularUnit d /\
   _radToUnit (setLinearUnit hdr d l) = _radToUnit d) /\
  (_linearUnit (setAngularUnit hdr d a) = _linearUnit d /\
   _meterToUnit (setAngularUnit hdr d a) = _meterToUnit d) /\
  setLinearUnit hdr (setAngularUnit hdr d a) l = setAngularUnit hdr (setLinearUnit hdr d l) a /\
  setLinearUnit hdr (setLinearUnit hdr d l) l = setLinearUnit hdr d l /\
  setAngularUnit hdr (setAngularUnit hdr d a) a = setAngularUnit hdr d a.
Proof.
  destruct d as [lu au mf rf]. unfold getLinearUnit, getAngularUnit, setLinearUnit, setAngularUnit.
  destruct l, a, lu, au; cbn; repeat split; reflexivity.
Qed.

(** Where [poseToRegs] is defined it stores six bytes, each from 0 to 255,
    and the three raw values that [regsToPose] reads back from them are the
    three converted values, negative ones included. *)
Theorem poseToRegs_bytes (d : sfeQwiicOtos F) (pose : sfe_otos_pose2d_t F)
        (xyToRaw hToRaw : F) (rawData : list Z) :
  poseToRegs d pose xyToRaw hToRaw = Some rawData ->
  length rawData = 6%nat /\
  Forall (fun b => 0 <= b <= 255) rawData /\
  float_to_signed 16 (f_div (f_mul (pose_x pose) xyToRaw) (_meterToUnit d))
  = Some (int16_at rawData 0) /\
  float_to_signed 16 (f_div (f_mul (pose_y pose) xyToRaw) (_meterToUnit d))
  = Some (int16_at rawData 2) /\
  float_to_signed 16 (f_div (f_mul (pose_h pose) hToRaw) (_radToUnit d))
  = Some (int16_at rawData 4).
Proof.
  unfold poseToRegs.
  destruct (float_to_signed 16 (f_div (f_mul (pose_x pose) xyToRaw) (_meterToUnit d)))
    as [rawX|] eqn:Hx; [|discriminate].
  destruct (float_to_signed 16 (f_div (f_mul (pose_y pose) xyToRaw) (_meterToUnit d)))
    as [rawY|] eqn:Hy; [|discriminate].
  destruct (float_to_signed 16 (f_div (f_mul (pose_h pose) hToRaw) (_radToUnit d)))
    as [rawH|] eqn:Hh; [|discriminate].
  intros [= <-].
  apply float_to_signed_16_range in Hx, Hy, Hh.
  assert (Hbyte : forall z, 0 <= Z.land z 0xFF <= 255).
  { intros z. change (Z.land z 0xFF) with (Z.land z (Z.ones 8)). rewrite Z.land_ones by lia.
    change (2 ^ 8) with 256. pose proof (Z.mod_pos_bound z 256 ltac:(lia)). lia. }
  split; [reflexivity|]. split; [repeat constructor; apply Hbyte|].
  unfold int16_at. cbn [nth]. now rewrite !int16_of_bytes by assumption.
Qed.

End UnitSetters.

(** The pose (-1.5 in, 2 in, -90 degrees) under inches and degrees. *)
Lemma poseToRegs_bytes_witness :
  let d := sfeQwiicOtos_new otos_header in
  let pose := {| pose_x := f_lit (-3 # 2); pose_y := f_lit (2 # 1); pose_h := f_lit (-90 # 1) |} in
  poseToRegs d pose (kMeterToInt16 otos_header) (kRadToInt16 otos_header)
  = Some [0x84; 0xFF; 0xA6; 0x00; 0x00; 0xC0] /\
  float_to_signed 16 (f_div (f_mul (pose_x pose) (kMeterToInt16 otos_header)) (_meterToUnit d))
  = Some (int16_at [0x84; 0xFF; 0xA6; 0x00; 0x00; 0xC0] 0).
Proof.
  intros d pose.
  assert (Hregs : poseToRegs d pose (kMeterToInt16 otos_header) (kRadToInt16 otos_header)
                  = Some [0x84; 0xFF; 0xA6; 0x00; 0x00; 0xC0]) by (vm_compute; reflexivity).
  split; [exact Hregs|].
  exact (proj1 (proj2 (proj2 (poseToRegs_bytes d pose _ _ _ Hregs)))).
Defined.

(** Reading a scalar and writing it back, in binary32.  A stored byte from
    0 to 127 (a scalar of 1.0 or more) is decoded by the getters into a
    float that the setters encode as the same byte.  A stored byte from
    128 to 255 (a scalar below 1.0) comes back one higher: each such cycle
    moves the scalar up by 0.1%. *)
Theorem scalar_read_then_write_back (b : Z) :
  (0 <= b <= 127 -> rawOfScalar (F := spec_float) (scalarOfRaw b) = Some b) /\
  (128 <= b <= 255 -> rawOfScalar (F := spec_float) (scalarOfRaw b) = Some ((b + 1) mod 256)).
Proof.
  assert (Hall : forallb (fun b =>
                            match rawOfScalar (F := spec_float) (scalarOfRaw b) with
                            | Some r => r =? (if b <? 128 then b else (b + 1) mod 256)
                            | None => false
                            end) all_bytes = true) by (vm_compute; reflexivity).
  assert (Hin : 0 <= b <= 255 -> In b all_bytes).
  { intros Hb. unfold all_bytes. rewrite <- (Z2Nat.id b) by lia.
    apply in_map, in_seq. lia. }
  rewrite forallb_forall in Hall.
  split; intros Hb; specialize (Hall b (Hin ltac:(lia)));
    destruct (rawOfScalar (scalarOfRaw b)) as [r|]; try discriminate;
    apply Z.eqb_eq in Hall; subst r; f_equal;
    destruct (Z.ltb_spec b 128); (reflexivity || lia).
Qed.

(** The bytes 0x64 (1.1) and 0x9C (0.9). *)
Lemma scalar_read_then_write_back_witness :
  rawOfScalar (F := spec_float) (scalarOfRaw 0x64) = Some 0x64 /\
  rawOfScalar (F := spec_float) (scalarOfRaw 0x9C) = Some 0x9D.
Proof.
  split.
  - apply (proj1 (scalar_read_then_write_back 0x64)). lia.
  - apply (proj2 (scalar_read_then_write_back 0x9C)). lia.
Defined.

(** ** Reads from a register file *)

Lemma read_pointer_app (h1 h2 : Trace) :
  forall p, read_pointer (h1 ++ h2) p = read_pointer h2 (read_pointer h1 p).
Proof.
  induction h1 as [|e h1 IH]; intros p; [reflexivity|].
  destruct e as [addr [|reg payload] nostop|addr len nostop|ms]; cbn [app read_pointer]; apply IH.
Qed.

Lemma block_length (mem : Z -> Z) (reg : Z) (n : nat) : length (block mem reg n) = n.
Proof.
  unfold block. now rewrite length_map, length_seq.
Qed.

Lemma nth_block (mem : Z -> Z) (reg : Z) (n i : nat) :
  (i < n)%nat -> nth i (block mem reg n) 0 = mem (reg + Z.of_nat i).
Proof.
  intros Hi. unfold block.
  rewrite (nth_indep _ 0 (mem (reg + Z.of_nat 0))) by (rewrite length_map, length_seq; lia).
  rewrite (map_nth (fun i => mem (reg + Z.of_nat i))), seq_nth by lia. reflexivity.
Qed.

Lemma block_app (mem : Z -> Z) (reg : Z) (a b : nat) :
  block mem reg (a + b) = block mem reg a ++ block mem (reg + Z.of_nat a) b.
Proof.
  apply (nth_ext _ _ 0 0).
  - now rewrite length_app, !block_length.
  - intros i Hi. rewrite block_length in Hi.
    rewrite nth_block by lia.
    destruct (Nat.lt_ge_cases i a) as [Hlow|Hhigh].
    + rewrite app_nth1 by (rewrite block_length; lia). now rewrite nth_block by lia.
    + rewrite app_nth2 by (rewrite block_length; lia).
      rewrite block_length, nth_block by lia. f_equal. lia.
Qed.

Lemma store_length (buf : list Z) (pos : Z) (src : list Z) :
  (Z.to_nat pos <= length buf)%nat ->
  (Z.to_nat pos + length src <= length (store buf pos src))%nat.
Proof.
  intros Hpos. unfold store. rewrite !length_app, length_firstn. lia.
Qed.

Lemma store_app (buf : list Z) (pos : Z) (a b : list Z) :
  0 <= pos ->
  (Z.to_nat pos <= length buf)%nat ->
  store (store buf pos a) (pos + Z.of_nat (length a)) b = store buf pos (a ++ b).
Proof.
  intros Hpos Hbuf. unfold store.
  rewrite Z2Nat.inj_add, Nat2Z.id by lia.
  set (p := Z.to_nat pos) in *.
  assert (Hleft : length (firstn p buf) = p) by (rewrite length_firstn; lia).
  assert (Hla : length (firstn p buf ++ a) = (p + length a)%nat)
    by (now rewrite length_app, Hleft).
  assert (Hfirst : firstn (p + length a) (firstn p buf ++ a ++ skipn (p + length a) buf)
                   = firstn p buf ++ a).
  { rewrite app_assoc, firstn_app, Hla, Nat.sub_diag, firstn_O, app_nil_r.
    apply firstn_all2. lia. }
  assert (Hskip : skipn (p + length a + length b)
                        (firstn p buf ++ a ++ skipn (p + length a) buf)
                  = skipn (p + length (a ++ b)) buf).
  { rewrite app_assoc, skipn_app, Hla.
    rewrite skipn_all2 by lia. cbn [app].
    replace (p + length a + length b - (p + length a))%nat with (length b) by lia.
    rewrite skipn_skipn, length_app. f_equal. lia. }
  rewrite Hfirst, Hskip, <- !app_assoc. reflexivity.
Qed.

(** The loop on a register file: the chunks land in the buffer one after
    the other, as the registers from the pointer on. *)
Lemma readChunks_register_file (mem : Z -> Z) (fuel : nat) :
  forall devReg (first : bool) m data pos h,
    1 <= m < 2 ^ 32 ->
    (m + 31) / 32 <= Z.of_nat fuel ->
    0 <= pos ->
    (Z.to_nat pos <= length data)%nat ->
    readChunks (register_file mem) fuel devReg first m data pos h
    = Some (Finished 0
              (store data pos
                     (block mem
                            (read_pointer
                               (if first then h ++ [I2cWrite kDefaultAddress devReg true] else h)
                               0)
                            (Z.to_nat m))),
            (if first then h ++ [I2cWrite kDefaultAddress devReg true] else h)
              ++ chunk_reads m).
Proof.
  induction fuel as [|fuel IH]; intros devReg first m data pos h Hm Hfuel Hpos Hdata.
  - exfalso. assert (1 <= (m + 31) / 32) by (apply Z.div_le_lower_bound; lia). lia.
  - cbn [readChunks]. destruct (Z.gtb_spec m 0); [|lia].
    rewrite nChunk_value by lia.
    set (h1 := if first then h ++ [I2cWrite kDefaultAddress devReg true] else h).
    assert (Hfirst : exists result,
               (if first then bus_write (register_file mem) kDefaultAddress devReg true h
                else (0, h)) = (result, h1) /\ 0 <= result).
    { unfold h1. destruct first; eexists; (split; [reflexivity|]); cbn; lia. }
    destruct Hfirst as (result & -> & Hresult).
    destruct (Z.ltb_spec result 0); [lia|].
    unfold bus_read. cbn [register_file i2c_read_blocking].
    destruct (Z.ltb_spec (Z.min m 32) 0); [lia|].
    rewrite firstn_all2 by (rewrite block_length; lia).
    set (p := read_pointer h1 0).
    destruct (Z.le_gt_cases m 32) as [Hlast|Hmore].
    + rewrite Z.min_l by lia. rewrite Z.sub_diag.
      change (size_t_wrap 0) with 0. rewrite readChunks_nothing_left.
      rewrite chunk_reads_last by lia.
      destruct (Z.gtb_spec m m); [lia|]. reflexivity.
    + rewrite Z.min_r by lia. rewrite size_t_wrap_small by lia.
      destruct (Z.gtb_spec m 32); [|lia].
      rewrite (IH devReg false (m - 32)).
      * rewrite read_pointer_app. fold p. cbn [read_pointer].
        rewrite (chunk_reads_more m) by lia. rewrite <- app_assoc. cbn [app].
        f_equal. f_equal. f_equal.
        replace (pos + 32) with (pos + Z.of_nat (length (block mem p (Z.to_nat 32))))
          by (rewrite block_length; lia).
        rewrite store_app by assumption. f_equal.
        replace (Z.to_nat m) with (Z.to_nat 32 + Z.to_nat (m - 32))%nat by lia.
        rewrite block_app. reflexivity.
      * lia.
      * replace (m + 31) with (m - 32 + 31 + 1 * 32) in Hfuel by ring.
        rewrite Z.div_add in Hfuel by lia. lia.
      * lia.
      * pose proof (store_length data pos (block mem p (Z.to_nat 32)) Hdata) as Hlen.
        rewrite block_length in Hlen. lia.
Qed.

Lemma readRegisterRegion_register_file (mem : Z -> Z) (fuel : nat) (devReg : Z)
        (buf : list Z) (numBytes readBytes0 : Z) (h : Trace) :
  1 <= numBytes < 2 ^ 32 ->
  (numBytes + 31) / 32 <= Z.of_nat fuel ->
  length buf = Z.to_nat numBytes ->
  readRegisterRegion (register_file mem) fuel devReg (Some buf) numBytes readBytes0 h
  = Some ((kSTkErrOk, numBytes, Some (block mem devReg (Z.to_nat numBytes))),
          h ++ I2cWrite kDefaultAddress [devReg] true :: chunk_reads numBytes).
Proof.
  intros Hn Hfuel Hbuf. unfold readRegisterRegion, readRegisterRegionAnyAddress.
  cbn [register_file i2c_port negb].
  change (readChunks {| i2c_port := true;
                        i2c_write_blocking := fun _ _ src _ => Z.of_nat (length src);
                        i2c_read_blocking := fun h0 _ len _ =>
                            (len, block mem (read_pointer h0 0) (Z.to_nat len)) |})
    with (readChunks (register_file mem)).
  rewrite readChunks_register_file by (assumption || lia).
  rewrite read_pointer_app. cbn [read_pointer length Z.of_nat].
  rewrite Z.sub_0_r, size_t_wrap_small, Z.eqb_refl, Z.add_0_r by lia.
  rewrite <- app_assoc. cbn [app]. do 3 f_equal.
  unfold store. cbn [Z.to_nat firstn app Nat.add].
  rewrite skipn_all2 by (rewrite block_length; lia). now rewrite app_nil_r.
Qed.

(** A region read from a device with a register file returns the [numBytes]
    registers from [devReg] on, in order, however many chunks it takes, with
    the traffic of a read delivered in full. *)
Theorem region_read_from_register_file (mem : Z -> Z) (fuel : nat) (devReg : Z)
        (buf : list Z) (numBytes readBytes0 : Z) (h : Trace) :
  1 <= numBytes < 2 ^ 32 ->
  (numBytes + 31) / 32 <= Z.of_nat fuel ->
  length buf = Z.to_nat numBytes ->
  readRegisterRegion (register_file mem) fuel devReg (Some buf) numBytes readBytes0 h
  = Some ((kSTkErrOk, numBytes, Some (block mem devReg (Z.to_nat numBytes))),
          h ++ I2cWrite kDefaultAddress [devReg] true :: chunk_reads numBytes).
Proof.
  exact (readRegisterRegion_register_file mem fuel devReg buf numBytes readBytes0 h).
Qed.

(** Seventy registers counted up from 0x20 come back in order. *)
Lemma region_read_from_register_file_witness :
  readRegisterRegion (register_file (fun a => a)) 3 0x20 (Some (repeat 0 70)) 70 0 []
  = Some ((kSTkErrOk, 70, Some (map (fun i => 0x20 + Z.of_nat i) (seq 0 70))),
          [I2cWrite kDefaultAddress [0x20] true; I2cRead kDefaultAddress 32 true;
           I2cRead kDefaultAddress 32 true; I2cRead kDefaultAddress 6 false]).
Proof.
  apply (region_read_from_register_file (fun a => a) 3 0x20 (repeat 0 70) 70 0 []).
  - lia.
  - vm_compute. congruence.
  - reflexivity.
Defined.

(** ** Batched reads of poses *)

Section BatchedReads.

Context {F : Type} `{FloatArith F}.
Variable hdr : OtosHeader F.
Variable mem : Z -> Z.
Variable d : sfeQwiicOtos F.

(** [regsToPose] looks at the first six bytes only. *)
Lemma regsToPose_ext (raw raw' : list Z) (rawToXY rawToH : F) :
  (forall i, (i < 6)%nat -> nth i raw 0 = nth i raw' 0) ->
  regsToPose d raw rawToXY rawToH = regsToPose d raw' rawToXY rawToH.
Proof.
  intros Hsame. unfold regsToPose, int16_at.
  now rewrite (Hsame 0%nat), (Hsame 1%nat), (Hsame 2%nat), (Hsame 3%nat),
    (Hsame 4%nat), (Hsame 5%nat) by lia.
Qed.

Ltac same_six_registers :=
  apply regsToPose_ext; intros i Hi;
  rewrite ?nth_skipn, !nth_block by lia; f_equal; lia.

(** On a device with a register file whose position, velocity and
    acceleration groups follow one another, [getPosVelAcc] returns in one
    region read of 18 bytes the three poses that [getPosition],
    [getVelocity] and [getAcceleration] return in three reads of 6 bytes. *)
Theorem getPosVelAcc_is_three_reads_in_one (fuel : nat) (h : Trace) :
  kRegVelXL hdr = kRegPosXL hdr + 6 ->
  kRegAccXL hdr = kRegPosXL hdr + 12 ->
  (1 <= fuel)%nat ->
  exists pos vel acc,
    (forall out0,
        getPosVelAcc hdr (register_file mem) d fuel out0 h
        = Some ((kSTkErrOk, (pos, vel, acc)),
                h ++ [I2cWrite kDefaultAddress [kRegPosXL hdr] true;
                      I2cRead kDefaultAddress 18 false])) /\
    (forall pose0,
        getPosition hdr (register_file mem) d fuel pose0 h
        = Some ((kSTkErrOk, pos),
                h ++ [I2cWrite kDefaultAddress [kRegPosXL hdr] true;
                      I2cRead kDefaultAddress 6 false]) /\
        getVelocity hdr (register_file mem) d fuel pose0 h
        = Some ((kSTkErrOk, vel),
                h ++ [I2cWrite kDefaultAddress [kRegVelXL hdr] true;
                      I2cRead kDefaultAddress 6 false]) /\
        getAcceleration hdr (register_file mem) d fuel pose0 h
        = Some ((kSTkErrOk, acc),
                h ++ [I2cWrite kDefaultAddress [kRegAccXL hdr] true;
                      I2cRead kDefaultAddress 6 false])).
Proof.
  intros Hvel Hacc Hfuel.
  assert (Hfuel' : (6 + 31) / 32 <= Z.of_nat fuel /\ (18 + 31) / 32 <= Z.of_nat fuel)
    by (change ((6 + 31) / 32) with 1; change ((18 + 31) / 32) with 1; lia).
  destruct Hfuel' as [Hfuel6 Hfuel18].
  exists (regsToPose d (block mem (kRegPosXL hdr) 6) (kInt16ToMeter hdr) (kInt16ToRad hdr)),
    (regsToPose d (block mem (kRegVelXL hdr) 6) (kInt16ToMps hdr) (kInt16ToRps hdr)),
    (regsToPose d (block mem (kRegAccXL hdr) 6) (kInt16ToMpss hdr) (kInt16ToRpss hdr)).
  split.
  - intros out0. unfold getPosVelAcc, readPosVelAcc, bindO.
    rewrite readRegisterRegion_register_file by (reflexivity || lia || assumption).
    rewrite (chunk_reads_last 18) by lia.
    change (negb (kSTkErrOk =? kSTkErrOk)) with false.
    change (negb (18 =? 18)) with false. cbv iota. unfold retO. rewrite Hvel, Hacc.
    do 3 f_equal. f_equal; [f_equal|]; same_six_registers.
  - intros pose0. unfold getPosition, getVelocity, getAcceleration, readPoseRegs, bindO.
    rewrite !readRegisterRegion_register_file by (reflexivity || lia || assumption).
    rewrite (chunk_reads_last 6) by lia.
    change (negb (kSTkErrOk =? kSTkErrOk)) with false.
    change (negb (6 =? 6)) with false. cbv iota. unfold retO.
    repeat split; reflexivity.
Qed.

(** With the three groups of standard deviations right after them,
    [getPosVelAccAndStdDev] returns the poses of [getPosVelAcc] and of
    [getPosVelAccStdDev] in one region read of 36 bytes, which takes a
    chunk of 32 bytes that holds the bus and a chunk of 4 that releases it. *)
Theorem getPosVelAccAndStdDev_is_two_batches_in_one (fuel : nat) (h : Trace) :
  kRegPosStdXL hdr = kRegPosXL hdr + 18 ->
  (2 <= fuel)%nat ->
  exists values deviations,
    (forall out0,
        exists h',
          getPosVelAcc hdr (register_file mem) d fuel out0 h
          = Some ((kSTkErrOk, values), h')) /\
    (forall out0,
        exists h',
          getPosVelAccStdDev hdr (register_file mem) d fuel out0 h
          = Some ((kSTkErrOk, deviations), h')) /\
    (forall out0,
        getPosVelAccAndStdDev hdr (register_file mem) d fuel out0 h
        = Some ((kSTkErrOk, (values, deviations)),
                h ++ [I2cWrite kDefaultAddress [kRegPosXL hdr] true;
                      I2cRead kDefaultAddress 32 true;
                      I2cRead kDefaultAddress 4 false])).
Proof.
  intros Hstd Hfuel.
  assert (Hfuel' : (18 + 31) / 32 <= Z.of_nat fuel /\ (36 + 31) / 32 <= Z.of_nat fuel)
    by (change ((18 + 31) / 32) with 1; change ((36 + 31) / 32) with 2; lia).
  destruct Hfuel' as [Hfuel18 Hfuel36].
  exists (regsToPose d (block mem (kRegPosXL hdr) 18) (kInt16ToMeter hdr) (kInt16ToRad hdr),
          regsToPose d (skipn 6 (block mem (kRegPosXL hdr) 18))
                     (kInt16ToMps hdr) (kInt16ToRps hdr),
          regsToPose d (skipn 12 (block mem (kRegPosXL hdr) 18))
                     (kInt16ToMpss hdr) (kInt16ToRpss hdr)),
    (regsToPose d (block mem (kRegPosStdXL hdr) 18) (kInt16ToMeter hdr) (kInt16ToRad hdr),
     regsToPose d (skipn 6 (block mem (kRegPosStdXL hdr) 18))
                (kInt16ToMps hdr) (kInt16ToRps hdr),
     regsToPose d (skipn 12 (block mem (kRegPosStdXL hdr) 18))
                (kInt16ToMpss hdr) (kInt16ToRpss hdr)).
  split; [|split].
  - intros out0. eexists. unfold getPosVelAcc, readPosVelAcc, bindO.
    rewrite readRegisterRegion_register_file by (reflexivity || lia || assumption).
    reflexivity.
  - intros out0. eexists. unfold getPosVelAccStdDev, readPosVelAcc, bindO.
    rewrite readRegisterRegion_register_file by (reflexivity || lia || assumption).
    reflexivity.
  - intros out0. unfold getPosVelAccAndStdDev, bindO.
    rewrite readRegisterRegion_register_file by (reflexivity || lia || assumption).
    rewrite (chunk_reads_more 36) by lia. rewrite (chunk_reads_last (36 - 32)) by lia.
    change (negb (kSTkErrOk =? kSTkErrOk)) with false.
    change (negb (36 =? 36)) with false. cbv iota. unfold retO. rewrite Hstd.
    do 3 f_equal. f_equal; (f_equal; [f_equal|]); same_six_registers.
Qed.

End BatchedReads.

(** The header instance lays the groups out in this way; the registers hold
    their own address. *)
Lemma getPosVelAcc_is_three_reads_in_one_witness :
  exists pos vel acc,
    getPosVelAcc otos_header (register_file (fun a => a)) (sfeQwiicOtos_new otos_header) 1
                 (zero_pose, zero_pose, zero_pose) []
    = Some ((kSTkErrOk, (pos, vel, acc)),
            [I2cWrite kDefaultAddress [0x20] true; I2cRead kDefaultAddress 18 false]) /\
    getVelocity otos_header (register_file (fun a => a)) (sfeQwiicOtos_new otos_header) 1
                zero_pose []
    = Some ((kSTkErrOk, vel),
            [I2cWrite kDefaultAddress [0x26] true; I2cRead kDefaultAddress 6 false]).
Proof.
  destruct (getPosVelAcc_is_three_reads_in_one otos_header (fun a => a)
              (sfeQwiicOtos_new otos_header) 1 [] eq_refl eq_refl (le_n 1))
    as (pos & vel & acc & Hbatch & Hsingle).
  exists pos, vel, acc. split.
  - exact (Hbatch (zero_pose, zero_pose, zero_pose)).
  - exact (proj1 (proj2 (Hsingle zero_pose))).
Defined.

Lemma getPosVelAccAndStdDev_is_two_batches_in_one_witness :
  exists values deviations,
    getPosVelAccAndStdDev otos_header (register_file (fun a => a))
                          (sfeQwiicOtos_new otos_header) 2
                          ((zero_pose, zero_pose, zero_pose), (zero_pose, zero_pose, zero_pose)) []
    = Some ((kSTkErrOk, (values, deviations)),
            [I2cWrite kDefaultAddress [0x20] true; I2cRead kDefaultAddress 32 true;
             I2cRead kDefaultAddress 4 false]).
Proof.
  destruct (getPosVelAccAndStdDev_is_two_batches_in_one otos_header (fun a => a)
              (sfeQwiicOtos_new otos_header) 2 [] eq_refl (le_n 2))
    as (values & deviations & _ & _ & Hall).
  exists values, deviations.
  exact (Hall ((zero_pose, zero_pose, zero_pose), (zero_pose, zero_pose, zero_pose))).
Defined.

(** ** Bus recovery and initialisation *)

Section RecoveryProperties.

Variable gpio_get : PinTrace -> Z -> bool.

Lemma recoveryClocks_pulses (sda_pin scl_pin : Z) (n : nat) :
  forall g,
    (1 <= n)%nat ->
    exists k,
      (1 <= k <= n)%nat /\
      recoveryClocks gpio_get n sda_pin scl_pin g
      = g ++ concat (repeat (clock_pulse scl_pin) k) /\
      (forall j, (1 <= j < k)%nat ->
                 gpio_get (g ++ concat (repeat (clock_pulse scl_pin) j)) sda_pin = false) /\
      ((k < n)%nat ->
       gpio_get (g ++ concat (repeat (clock_pulse scl_pin) k)) sda_pin = true).
Proof.
  induction n as [|n IH]; intros g Hn; [lia|].
  cbn [recoveryClocks].
  assert (Hone : g ++ clock_pulse scl_pin = g ++ concat (repeat (clock_pulse scl_pin) 1))
    by (cbn [repeat concat]; now rewrite app_nil_r).
  destruct (gpio_get (g ++ clock_pulse scl_pin) sda_pin) eqn:Hsda.
  - exists 1%nat. split; [lia|]. split; [exact Hone|]. split; [intros j Hj; lia|].
    intros _. now rewrite <- Hone.
  - destruct n as [|n].
    + exists 1%nat. cbn [recoveryClocks]. split; [lia|]. split; [exact Hone|].
      split; intros; lia.
    + destruct (IH (g ++ clock_pulse scl_pin) ltac:(lia)) as (k & Hk & Hrun & Hlow & Hhigh).
      assert (Hshift : forall j,
                 (g ++ clock_pulse scl_pin) ++ concat (repeat (clock_pulse scl_pin) j)
                 = g ++ concat (repeat (clock_pulse scl_pin) (S j)))
        by (intros j; cbn [repeat concat]; now rewrite <- app_assoc).
      exists (S k). split; [lia|]. split; [now rewrite Hrun, Hshift|]. split.
      * intros j Hj. destruct j as [|[|j]]; [lia | now rewrite <- Hone |].
        rewrite <- Hshift. apply Hlow. lia.
      * intros Hlt. rewrite <- Hshift. apply Hhigh. lia.
Qed.

(** [i2cBusRecovery] sets the data pin as input and the clock pin as
    output, gives between one and nine clock pulses, stopping after the
    first pulse at the end of which the data line reads high, and then
    always drives the stop condition: data low while the clock is low,
    clock high, data high.  Both lines are left driven high. *)
Theorem i2cBusRecovery_pulses (sda_pin scl_pin : Z) (g : PinTrace) :
  let setup := [GpioInit sda_pin; GpioInit scl_pin;
                GpioSetDir sda_pin false; GpioSetDir scl_pin true] in
  let stop := [GpioSetDir sda_pin true;
               GpioPut scl_pin false; BusyWaitUs 5;
               GpioPut sda_pin false; BusyWaitUs 5;
               GpioPut scl_pin true; BusyWaitUs 5;
               GpioPut sda_pin true; BusyWaitUs 5] in
  exists k,
    (1 <= k <= 9)%nat /\
    i2cBusRecovery gpio_get sda_pin scl_pin g
    = g ++ setup ++ concat (repeat (clock_pulse scl_pin) k) ++ stop /\
    (forall j, (1 <= j < k)%nat ->
               gpio_get (g ++ setup ++ concat (repeat (clock_pulse scl_pin) j)) sda_pin = false) /\
    ((k < 9)%nat ->
     gpio_get (g ++ setup ++ concat (repeat (clock_pulse scl_pin) k)) sda_pin = true) /\
    (forall now, pin_level (i2cBusRecovery gpio_get sda_pin scl_pin g) sda_pin now = Some true) /\
    (forall now, pin_level (i2cBusRecovery gpio_get sda_pin scl_pin g) scl_pin now = Some true).
Proof.
  intros setup stop.
  destruct (recoveryClocks_pulses sda_pin scl_pin 9 (g ++ setup) ltac:(lia))
    as (k & Hk & Hrun & Hlow & Hhigh).
  assert (Hlevel : forall (g1 g2 : PinTrace) pin now,
             pin_level (g1 ++ g2) pin now = pin_level g2 pin (pin_level g1 pin now)).
  { induction g1 as [|e g1 IH]; intros g2 pin now; [reflexivity|].
    destruct e; cbn [app pin_level]; apply IH. }
  assert (Hcall : i2cBusRecovery gpio_get sda_pin scl_pin g
                  = (g ++ setup ++ concat (repeat (clock_pulse scl_pin) k)) ++ stop).
  { unfold i2cBusRecovery. fold setup. fold stop.
    change I2C_RECOVERY_CLOCKS with 9%nat. now rewrite Hrun, <- !app_assoc. }
  exists k. split; [exact Hk|]. split; [now rewrite Hcall, <- !app_assoc|].
  split; [intros j Hj; rewrite app_assoc; now apply Hlow|].
  split; [intros Hlt; rewrite app_assoc; now apply Hhigh|].
  split; intros now; rewrite Hcall, Hlevel; unfold stop; cbn [pin_level];
    rewrite ?Z.eqb_refl; destruct (sda_pin =? scl_pin), (scl_pin =? sda_pin); reflexivity.
Qed.

Lemma pin_function_app (g1 g2 : PinTrace) :
  forall pin now,
    pin_function (g1 ++ g2) pin now = pin_function g2 pin (pin_function g1 pin now).
Proof.
  induction g1 as [|e g1 IH]; intros pin now; [reflexivity|].
  destruct e; cbn [app pin_function]; apply IH.
Qed.

Lemma pin_pulled_up_app (g1 g2 : PinTrace) :
  forall pin now,
    pin_pulled_up (g1 ++ g2) pin now = pin_pulled_up g2 pin (pin_pulled_up g1 pin now).
Proof.
  induction g1 as [|e g1 IH]; intros pin now; [reflexivity|].
  destruct e; cbn [app pin_pulled_up]; apply IH.
Qed.

(** [initI2C], with or without recovery and whatever came before: the
    transport is initialised once, at 350 kHz, at a moment when both pins
    are detached from every function with their pulls off; and at the end
    both pins have the I2C function and their pull-ups on.  Without
    recovery no pin is driven. *)
Theorem initI2C_leaves_the_pins_on_the_bus (sda scl : Z) (force_recovery : bool) (g : PinTrace) :
  (exists before after,
      initI2C gpio_get sda scl force_recovery g = before ++ I2cInit 350000 :: after /\
      (forall e, In e after -> forall baudrate, e <> I2cInit baudrate) /\
      (forall now, pin_function before sda now = Some GPIO_FUNC_NULL) /\
      (forall now, pin_function before scl now = Some GPIO_FUNC_NULL) /\
      (forall now, pin_pulled_up before sda now = false) /\
      (forall now, pin_pulled_up before scl now = false)) /\
  (forall now up,
      pin_function (initI2C gpio_get sda scl force_recovery g) sda now = Some GPIO_FUNC_I2C /\
      pin_function (initI2C gpio_get sda scl force_recovery g) scl now = Some GPIO_FUNC_I2C /\
      pin_pulled_up (initI2C gpio_get sda scl force_recovery g) sda up = true /\
      pin_pulled_up (initI2C gpio_get sda scl force_recovery g) scl up = true) /\
  (forall pin now, pin_level (initI2C gpio_get sda scl false g) pin now = pin_level g pin now).
Proof.
  unfold initI2C.
  set (g0 := if force_recovery then i2cBusRecovery gpio_get sda scl g else g).
  split; [|split].
  - exists (g0 ++ [GpioDisablePulls sda; GpioSetFunction sda GPIO_FUNC_NULL;
                   GpioDisablePulls scl; GpioSetFunction scl GPIO_FUNC_NULL]),
      [GpioSetFunction sda GPIO_FUNC_I2C; GpioSetFunction scl GPIO_FUNC_I2C;
       GpioPullUp sda; GpioPullUp scl].
    split; [now rewrite <- app_assoc|].
    split.
    { intros e He baudrate. cbn [In] in He.
      destruct He as [<-|[<-|[<-|[<-|[]]]]]; discriminate. }
    repeat split; intros now;
      rewrite ?pin_function_app, ?pin_pulled_up_app; cbn [pin_function pin_pulled_up];
      rewrite ?Z.eqb_refl; destruct (sda =? scl), (scl =? sda); reflexivity.
  - intros now up.
    repeat split;
      rewrite ?pin_function_app, ?pin_pulled_up_app; cbn [pin_function pin_pulled_up];
      rewrite ?Z.eqb_refl; destruct (sda =? scl), (scl =? sda); reflexivity.
  - intros pin now.
    assert (Hlevel : forall (g1 g2 : PinTrace) p n,
               pin_level (g1 ++ g2) p n = pin_level g2 p (pin_level g1 p n)).
    { induction g1 as [|e g1 IH]; intros g2 p n; [reflexivity|].
      destruct e; cbn [app pin_level]; apply IH. }
    now rewrite Hlevel.
Qed.

End RecoveryProperties.

(** A data line that is released during the third pulse: three pulses, then
    the stop condition. *)
Lemma i2cBusRecovery_pulses_witness :
  i2cBusRecovery (released_after 3) 4 5 []
  = [GpioInit 4; GpioInit 5; GpioSetDir 4 false; GpioSetDir 5 true]
      ++ concat (repeat (clock_pulse 5) 3)
      ++ [GpioSetDir 4 true;
          GpioPut 5 false; BusyWaitUs 5; GpioPut 4 false; BusyWaitUs 5;
          GpioPut 5 true; BusyWaitUs 5; GpioPut 4 true; BusyWaitUs 5].
Proof.
  destruct (i2cBusRecovery_pulses (released_after 3) 4 5 []) as (k & Hk & Hrun & Hlow & Hhigh & _).
  rewrite Hrun. cbn [app].
  assert (k = 3%nat) as ->; [|reflexivity].
  destruct (Nat.lt_trichotomy k 3) as [Hlt|[Heq|Hgt]]; [|exact Heq|].
  - specialize (Hhigh ltac:(lia)).
    destruct k as [|[|[|k]]]; try lia; vm_compute in Hhigh; discriminate.
  - specialize (Hlow 3%nat ltac:(lia)). vm_compute in Hlow. discriminate.
Defined.

(** ** The time the polling loops may take *)

Lemma total_sleep_app (h1 h2 : Trace) :
  total_sleep (h1 ++ h2) = total_sleep h1 + total_sleep h2.
Proof.
  induction h1 as [|e h1 IH]; [reflexivity|].
  destruct e; cbn [app total_sleep]; lia.
Qed.

Lemma readRegisterByte_sleep (t : Transport) (reg dataToRead0 : Z) (h : Trace) :
  total_sleep (snd (readRegisterByte t reg dataToRead0 h)) = total_sleep h.
Proof.
  unfold readRegisterByte, bind, bus_write, bus_read, ret.
  destruct (negb (i2c_port t)); cbn [snd]; [reflexivity|].
  destruct (_ <? 0); cbn [snd].
  - rewrite total_sleep_app. cbn. lia.
  - destruct (i2c_read_blocking t _ kDefaultAddress 1 false) as [result bytes]. cbn [snd].
    rewrite !total_sleep_app. cbn. lia.
Qed.

Lemma writeRegisterByte_sleep (t : Transport) (reg dataToWrite : Z) (h : Trace) :
  total_sleep (snd (writeRegisterByte t reg dataToWrite h)) = total_sleep h.
Proof.
  unfold writeRegisterByte, bind, bus_write, ret.
  destruct (negb (i2c_port t)); cbn [snd]; [reflexivity|].
  rewrite total_sleep_app. cbn. lia.
Qed.

Section DelayBudget.

Context {F : Type}.
Variable hdr : OtosHeader F.
Variable t : Transport.

Lemma selfTestLoop_sleep (n : nat) :
  forall value h,
    total_sleep h <= total_sleep (snd (selfTestLoop hdr t n value h))
    <= total_sleep h + 5 * Z.of_nat n.
Proof.
  induction n as [|n IH]; intros value h; cbn [selfTestLoop].
  - unfold ret. cbn [snd]. lia.
  - unfold bind, delayMs, sleep_ms.
    pose proof (readRegisterByte_sleep t (kRegSelfTest hdr) value (h ++ [SleepMs 5])) as Hread.
    destruct (readRegisterByte t (kRegSelfTest hdr) value (h ++ [SleepMs 5])) as [[err v] h1].
    cbn [snd] in Hread. rewrite total_sleep_app in Hread. cbn [total_sleep] in Hread.
    destruct (negb (err =? kSTkErrOk)); [unfold ret; cbn [snd]; lia|].
    destruct (bit_field v (selfTest_inProgress_bit hdr) =? 0); [unfold ret; cbn [snd]; lia|].
    specialize (IH v h1). lia.
Qed.

Lemma calibrateImuLoop_sleep (n : nat) :
  forall h,
    total_sleep h <= total_sleep (snd (calibrateImuLoop hdr t n h))
    <= total_sleep h + 3 * Z.of_nat n.
Proof.
  induction n as [|n IH]; intros h; cbn [calibrateImuLoop].
  - unfold ret. cbn [snd]. lia.
  - unfold bind.
    pose proof (readRegisterByte_sleep t (kRegImuCalib hdr) 0 h) as Hread.
    destruct (readRegisterByte t (kRegImuCalib hdr) 0 h) as [[err v] h1]. cbn [snd] in Hread.
    destruct (negb (err =? kSTkErrOk)); [unfold ret; cbn [snd]; lia|].
    destruct (v =? 0); [unfold ret; cbn [snd]; lia|].
    unfold delayMs, sleep_ms.
    specialize (IH (h1 ++ [SleepMs 3])). rewrite total_sleep_app in IH.
    cbn [total_sleep] in IH. lia.
Qed.

(** The delay budget of the two polling loops, on every transport:
    [selfTest] sleeps at most 50 ms in all, and [calibrateImu] at most 3 ms
    for the register to latch plus 3 ms per sample asked for, that is at
    most 768 ms; without [waitUntilDone] it sleeps at most 3 ms. *)
Theorem polling_delay_budget (h : Trace) :
  (forall selfTest0,
      total_sleep (snd (selfTest hdr t selfTest0 h)) <= total_sleep h + 50) /\
  (forall numSamples waitUntilDone,
      0 <= numSamples < 256 ->
      total_sleep (snd (calibrateImu hdr t numSamples waitUntilDone h))
      <= total_sleep h + 3 + (if waitUntilDone then 3 * numSamples else 0)).
Proof.
  split.
  - intros selfTest0. unfold selfTest, bind.
    pose proof (writeRegisterByte_sleep t (kRegSelfTest hdr)
                  (set_bit_field (to_uint8 selfTest0) (selfTest_start_bit hdr)) h) as Hwrite.
    destruct (writeRegisterByte t (kRegSelfTest hdr) _ h) as [err h1]. cbn [snd] in Hwrite.
    destruct (negb (err =? kSTkErrOk)); [unfold ret; cbn [snd]; lia|].
    pose proof (selfTestLoop_sleep 10
                  (set_bit_field (to_uint8 selfTest0) (selfTest_start_bit hdr)) h1) as Hloop.
    destruct (selfTestLoop hdr t 10 _ h1) as [[err'|v] h2]; unfold ret; cbn [snd] in *; lia.
  - intros numSamples waitUntilDone Hn. unfold calibrateImu, bind.
    assert (Hbyte : to_uint8 numSamples = numSamples) by (apply Z.mod_small; lia).
    rewrite Hbyte.
    pose proof (writeRegisterByte_sleep t (kRegImuCalib hdr) numSamples h) as Hwrite.
    destruct (writeRegisterByte t (kRegImuCalib hdr) numSamples h) as [err h1].
    cbn [snd] in Hwrite.
    destruct (negb (err =? kSTkErrOk)); [unfold ret; cbn [snd]; destruct waitUntilDone; lia|].
    unfold delayMs, sleep_ms.
    destruct waitUntilDone; cbn [negb].
    + pose proof (calibrateImuLoop_sleep (Z.to_nat numSamples) (h1 ++ [SleepMs 3])) as Hloop.
      rewrite total_sleep_app in Hloop. cbn [total_sleep] in Hloop.
      destruct (calibrateImuLoop hdr t (Z.to_nat numSamples) (h1 ++ [SleepMs 3])) as [[err'|] h2];
        unfold ret; cbn [snd] in *; lia.
    + unfold ret. cbn [snd]. rewrite total_sleep_app. cbn [total_sleep]. lia.
Qed.

End DelayBudget.

(** Five samples on a device that never finishes: 3 ms and five times 3 ms. *)
Lemma polling_delay_budget_witness :
  total_sleep (snd (calibrateImu otos_header (polled (fun _ => 1)) 5 true [])) <= 0 + 3 + 3 * 5.
Proof.
  exact (proj2 (polling_delay_budget otos_header (polled (fun _ => 1)) []) 5 true ltac:(lia)).
Defined.

(** ** Edges of the codecs *)

(** A NaN is neither below the lower bound nor above the upper one, so both
    scalar setters let it through, whatever the bounds are, to the
    conversion to [int8_t], which is not defined for it; nothing is
    written.  Likewise a pose with a NaN component has no encoding. *)
Theorem nan_has_no_encoding (hdr : OtosHeader spec_float) (t : Transport)
        (d : sfeQwiicOtos spec_float) (h : Trace) :
  setLinearScalar hdr t S754_nan h = None /\
  setAngularScalar hdr t S754_nan h = None /\
  (forall y hh xyToRaw hToRaw,
      poseToRegs d {| pose_x := S754_nan; pose_y := y; pose_h := hh |} xyToRaw hToRaw = None) /\
  (forall reg y hh xyToRaw hToRaw,
      writePoseRegs t d reg {| pose_x := S754_nan; pose_y := y; pose_h := hh |}
                    xyToRaw hToRaw h = None).
Proof.
  assert (Hguard : forall lo hi : spec_float, f_ltb S754_nan lo || f_ltb hi S754_nan = false).
  { intros lo hi. cbn. destruct lo, hi; reflexivity. }
  assert (Hpose : forall y hh xyToRaw hToRaw,
             poseToRegs d {| pose_x := S754_nan; pose_y := y; pose_h := hh |} xyToRaw hToRaw
             = None).
  { intros y hh xyToRaw hToRaw. unfold poseToRegs. cbn [pose_x].
    assert (Hx : float_to_signed 16 (f_div (f_mul S754_nan xyToRaw) (_meterToUnit d)) = None)
      by (cbn; destruct xyToRaw; reflexivity).
    now rewrite Hx. }
  unfold setLinearScalar, setAngularScalar, writePoseRegs.
  rewrite !Hguard. repeat split; try reflexivity; intros; now rewrite ?Hpose.
Qed.



(** ** Register writes and reads of the driver *)

Section RegisterAccess.

Context {F : Type} `{FloatArith F}.
Variable hdr : OtosHeader F.

(** [setOffset] and [setPosition], where the pose has an encoding, send the
    register address and the six bytes of [poseToRegs] in one write of
    seven bytes, to [kRegOffXL] and [kRegPosXL], and succeed only when the
    transport took all seven. *)
Theorem pose_setters_send_one_write (t : Transport) (d : sfeQwiicOtos F)
        (pose : sfe_otos_pose2d_t F) (rawData : list Z) (h : Trace) :
  i2c_port t = true ->
  poseToRegs d pose (kMeterToInt16 hdr) (kRadToInt16 hdr) = Some rawData ->
  setOffset hdr t d pose h
  = Some (if i2c_write_blocking t h kDefaultAddress (kRegOffXL hdr :: rawData) false =? 7
          then kSTkErrOk else kSTkErrFail,
          h ++ [I2cWrite kDefaultAddress (kRegOffXL hdr :: rawData) false]) /\
  setPosition hdr t d pose h
  = Some (if i2c_write_blocking t h kDefaultAddress (kRegPosXL hdr :: rawData) false =? 7
          then kSTkErrOk else kSTkErrFail,
          h ++ [I2cWrite kDefaultAddress (kRegPosXL hdr :: rawData) false]).
Proof.
  intros Hport Hregs.
  assert (Hlen : exists b0 b1 b2 b3 b4 b5, rawData = [b0; b1; b2; b3; b4; b5]).
  { revert Hregs. unfold poseToRegs.
    destruct (float_to_signed 16 _); [|discriminate].
    destruct (float_to_signed 16 _); [|discriminate].
    destruct (float_to_signed 16 _); [|discriminate].
    intros [= <-]. repeat eexists. }
  destruct Hlen as (b0 & b1 & b2 & b3 & b4 & b5 & ->).
  unfold setOffset, setPosition, writePoseRegs. rewrite Hregs.
  unfold lift, writeRegisterRegion, writeRegisterRegionAddress, bind, ret, bus_write.
  rewrite Hport. split; reflexivity.
Qed.

(** On a device with a register file every byte getter delivers the
    register of its name, after one address write that holds the bus and
    one read of one byte; the scalar getters decode theirs. *)
Theorem byte_getters_from_register_file (mem : Z -> Z) (h : Trace) :
  let traffic reg :=
    h ++ [I2cWrite kDefaultAddress [reg] true; I2cRead kDefaultAddress 1 false] in
  (forall reg dataToRead0,
      readRegisterByte (register_file mem) reg dataToRead0 h
      = ((kSTkErrOk, to_uint8 (mem reg)), traffic reg)) /\
  (forall status0,
      getStatus hdr (register_file mem) status0 h
      = ((kSTkErrOk, to_uint8 (mem (kRegStatus hdr))), traffic (kRegStatus hdr))) /\
  (forall numSamples0,
      getImuCalibrationProgress hdr (register_file mem) numSamples0 h
      = ((kSTkErrOk, to_uint8 (mem (kRegImuCalib hdr))), traffic (kRegImuCalib hdr))) /\
  (forall scalar0,
      getLinearScalar hdr (register_file mem) scalar0 h
      = ((kSTkErrOk, scalarOfRaw (to_uint8 (mem (kRegScalarLinear hdr)))),
         traffic (kRegScalarLinear hdr))) /\
  (forall scalar0,
      getAngularScalar hdr (register_file mem) scalar0 h
      = ((kSTkErrOk, scalarOfRaw (to_uint8 (mem (kRegScalarAngular hdr)))),
         traffic (kRegScalarAngular hdr))).
Proof.
  intros traffic.
  assert (Hbyte : forall reg dataToRead0,
             readRegisterByte (register_file mem) reg dataToRead0 h
             = ((kSTkErrOk, to_uint8 (mem reg)), traffic reg)).
  { intros reg dataToRead0. unfold readRegisterByte, bind, bus_write, bus_read, ret, traffic.
    cbn [register_file i2c_port negb i2c_write_blocking i2c_read_blocking length].
    cbn [Z.of_nat Z.ltb Z.compare Pos.of_succ_nat].
    rewrite read_pointer_app. cbn [read_pointer length Z.of_nat].
    change (Z.to_nat 1) with 1%nat. cbn [block seq map hd Z.of_nat Z.eqb Z.gtb Z.compare Pos.eqb Pos.compare].
    rewrite !Z.add_0_r, <- app_assoc. reflexivity. }
  split; [exact Hbyte|].
  unfold getStatus, getImuCalibrationProgress, getLinearScalar, getAngularScalar, bind.
  repeat split; intros; rewrite Hbyte; reflexivity.
Qed.

End RegisterAccess.

(** The pose of the earlier example, written as an offset on the ideal
    device. *)
Lemma pose_setters_send_one_write_witness :
  setOffset otos_header ideal (sfeQwiicOtos_new otos_header)
            {| pose_x := f_lit (-3 # 2); pose_y := f_lit (2 # 1); pose_h := f_lit (-90 # 1) |} []
  = Some (kSTkErrOk,
          [I2cWrite kDefaultAddress [0x10; 0x84; 0xFF; 0xA6; 0x00; 0x00; 0xC0] false]).
Proof.
  refine (proj1 (pose_setters_send_one_write otos_header ideal (sfeQwiicOtos_new otos_header)
                   {| pose_x := f_lit (-3 # 2); pose_y := f_lit (2 # 1);
                      pose_h := f_lit (-90 # 1) |}
                   [0x84; 0xFF; 0xA6; 0x00; 0x00; 0xC0] [] eq_refl _)).
  vm_compute. reflexivity.
Defined.
